(** * School reporting API (src/app.js): query composition, response
    envelopes and the relational reading of the report queries.

    The development follows the source top-down: JavaScript values and the
    built-ins the handlers call, the request/response and pool interfaces,
    the ten SQL templates verbatim, the ten route handlers, and then the
    tables of the schema (init.sql) with the meaning of the queries whose
    results the specification talks about.

    What is outside the repository is kept abstract or stated where it is
    used: the pool is any function from a call to rows or a rejection; the
    store's collation order and its reading of a bound string or number
    are parameters; which of several rows that compare equal comes first
    under ORDER BY is left open.  The logger calls of the handlers are left
    out: they touch neither the pool nor the response, and on the query
    values considered here their template literals do not throw.  The
    health and index routes make no report query and are not modelled. *)

From Stdlib Require Import String Ascii List ZArith QArith Qabs Qround Bool Lia.
From Stdlib Require Import Permutation Sorted Lqa.
Import ListNotations.
Local Open Scope string_scope.
Local Open Scope Z_scope.

(** ** JavaScript values *)

Module Js.

(** A string is the sequence of the bytes of its UTF-8 encoding. *)

(** A JavaScript number.  A finite number is represented by the rational it
    is; [to_number] below gives the binary64 value of a mathematical value:
    the nearest one, a tie going to the even mantissa, with the overflow to
    [Infinity] and the underflow to zero. *)
Inductive number : Type :=
| NaN
| Infinity (negative : bool)
| Finite (q : Q).

(** What [req.query.k] holds in the requests considered here:
    [undefined] when the key is absent, a string, an array of strings for
    a repeated key (also what [split] returns), or an object for bracket
    syntax.  [Obj] stands for an object with the default string
    conversion, "[object Object]".  A value whose conversion to a string
    throws (under the extended query parser, an object given an own
    [toString] key, or an array holding one) is not among them: such a
    request is outside what is stated about requests below. *)
Inductive value : Type :=
| Undefined
| Str (s : string)
| Arr (items : list string)
| Obj.

Definition overflow_threshold : Q := inject_Z (2 ^ 1024 - 2 ^ 970).
Definition underflow_threshold : Q := 1 # (2 ^ 1075).

(** The integer nearest to [x], a half going to the even one. *)
Definition round_half_even (x : Q) : Z :=
  let f := Qfloor x in
  match Qcompare (x - inject_Z f) (1 # 2) with
  | Lt => f
  | Gt => f + 1
  | Eq => if Z.even f then f else f + 1
  end.

(** The exponent [e] with [2 ^ e <= x < 2 ^ (e + 1)], for a positive [x]. *)
Definition floor_log2 (x : Q) : Z :=
  let l := Z.log2 (Qnum x) - Z.log2 (Zpos (Qden x)) in
  if Qle_bool (Qpower 2 l) x then l else l - 1.

(** The nearest multiple of the spacing of binary64 at the positive [x]:
    a mantissa of 53 bits, and multiples of [2 ^ -1074] below
    [2 ^ -1022]. *)
Definition nearest_binary64 (x : Q) : Q :=
  let p := Z.max (floor_log2 x - 52) (-1074) in
  (inject_Z (round_half_even (x / Qpower 2 p)) * Qpower 2 p)%Q.

Definition to_number (q : Q) : number :=
  if Qle_bool overflow_threshold (Qabs q) then Infinity (negb (Qle_bool 0%Q q))
  else if Qle_bool (Qabs q) underflow_threshold then Finite 0%Q
  else if Qle_bool 0%Q q then Finite (Qred (nearest_binary64 q))
  else Finite (Qred (- nearest_binary64 (- q))).

Definition of_nat (n : nat) : number := Finite (inject_Z (Z.of_nat n)).

(** ToBoolean. *)
Definition truthy_number (n : number) : bool :=
  match n with
  | NaN => false
  | Infinity _ => true
  | Finite q => negb (Qeq_bool q 0%Q)
  end.

Definition truthy (v : value) : bool :=
  match v with
  | Undefined => false
  | Str s => negb (String.eqb s "")
  | Arr _ => true
  | Obj => true
  end.

(** [v || d] *)
Definition or (v d : value) : value := if truthy v then v else d.

(** [n || d] on numbers, as in [parseInt(x) || 3]. *)
Definition or_number (n d : number) : number := if truthy_number n then n else d.

(** ToString on the values above, none of which throws when converted:
    [Obj] has the default conversion. *)
Definition ToString (v : value) : string :=
  match v with
  | Undefined => "undefined"
  | Str s => s
  | Arr items => String.concat "," items
  | Obj => "[object Object]"
  end.

Definition byte (c : ascii) : Z := Z.of_nat (nat_of_ascii c).

(** The white space and line terminators of one byte: TAB, LF, VT, FF, CR
    and SP. *)
Definition is_white_space (c : ascii) : bool :=
  let n := byte c in
  ((9 <=? n) && (n <=? 13)) || (n =? 32).

(** U+00A0. *)
Definition is_white_space2 (a b : ascii) : bool :=
  (byte a =? 194) && (byte b =? 160).

(** U+1680, U+2000 to U+200A, U+2028, U+2029, U+202F, U+205F, U+3000 and
    U+FEFF. *)
Definition is_white_space3 (a b c : ascii) : bool :=
  let x := byte a in
  let y := byte b in
  let z := byte c in
  ((x =? 225) && (y =? 154) && (z =? 128))
  || ((x =? 226) && (y =? 128)
      && (((128 <=? z) && (z <=? 138)) || (z =? 168) || (z =? 169)
          || (z =? 175)))
  || ((x =? 226) && (y =? 129) && (z =? 159))
  || ((x =? 227) && (y =? 128) && (z =? 128))
  || ((x =? 239) && (y =? 187) && (z =? 191)).

(** The string without its leading white space and line terminators. *)
Fixpoint trimStart (s : string) : string :=
  match s with
  | String a rest =>
      if is_white_space a then trimStart rest
      else
        match rest with
        | String b rest2 =>
            if is_white_space2 a b then trimStart rest2
            else
              match rest2 with
              | String c rest3 =>
                  if is_white_space3 a b c then trimStart rest3 else s
              | EmptyString => s
              end
        | EmptyString => s
        end
  | EmptyString => s
  end.

Definition digit_value (c : ascii) : option Z :=
  let n := Z.of_nat (nat_of_ascii c) in
  if (48 <=? n) && (n <=? 57) then Some (n - 48)
  else if (97 <=? n) && (n <=? 122) then Some (n - 87)
  else if (65 <=? n) && (n <=? 90) then Some (n - 55)
  else None.

Definition digit_in (radix : Z) (c : ascii) : option Z :=
  match digit_value c with
  | Some d => if d <? radix then Some d else None
  | None => None
  end.

(** The longest prefix of radix-[radix] digits, and what follows it. *)
Fixpoint take_digits (radix : Z) (s : string) : list Z * string :=
  match s with
  | String c rest =>
      match digit_in radix c with
      | Some d => let (ds, tl) := take_digits radix rest in (d :: ds, tl)
      | None => ([], s)
      end
  | EmptyString => ([], s)
  end.

Definition digits_to_Z (radix : Z) (ds : list Z) : Z :=
  fold_left (fun acc d => acc * radix + d) ds 0.

Definition strip_sign (s : string) : bool * string :=
  match s with
  | String "-" rest => (true, rest)
  | String "+" rest => (false, rest)
  | _ => (false, s)
  end.

Definition signed (negative : bool) (z : Z) : Z := if negative then - z else z.

(** [parseInt(v)] with no radix argument. *)
Definition parseInt (v : value) : number :=
  let S := trimStart (ToString v) in
  let (negative, S1) := strip_sign S in
  let (R, S2) :=
    match S1 with
    | String "0" (String "x" rest) => (16, rest)
    | String "0" (String "X" rest) => (16, rest)
    | _ => (10, S1)
    end in
  match fst (take_digits R S2) with
  | [] => NaN
  | ds => to_number (inject_Z (signed negative (digits_to_Z R ds)))
  end.

(** The optional exponent part of a StrDecimalLiteral; a dangling [e] or
    [e+] is not part of the literal and counts as no exponent. *)
Definition exponent_part (s : string) : Z :=
  match s with
  | String c rest =>
      if (Ascii.eqb c "e" || Ascii.eqb c "E")%bool then
        let (negative, r) := strip_sign rest in
        match fst (take_digits 10 r) with
        | [] => 0
        | ds => signed negative (digits_to_Z 10 ds)
        end
      else 0
  | EmptyString => 0
  end.

(** [parseFloat(v)]: the longest prefix that is a StrDecimalLiteral. *)
Definition parseFloat (v : value) : number :=
  let S := trimStart (ToString v) in
  let (negative, S1) := strip_sign S in
  if String.prefix "Infinity" S1 then Infinity negative
  else
    let (ip, S2) := take_digits 10 S1 in
    let (fp, S3) :=
      match S2 with
      | String "." rest => take_digits 10 rest
      | _ => ([], S2)
      end in
    match (ip ++ fp)%list with
    | [] => NaN
    | ds =>
        let e := exponent_part S3 - Z.of_nat (length fp) in
        to_number (inject_Z (signed negative (digits_to_Z 10 ds)) * Qpower 10 e)%Q
    end.

(** [s.split(sep)] for a one-character separator: never the empty array. *)
Fixpoint split (sep : ascii) (s : string) : list string :=
  match s with
  | EmptyString => [""]
  | String c rest =>
      if Ascii.eqb c sep then "" :: split sep rest
      else
        match split sep rest with
        | piece :: pieces => String c piece :: pieces
        | [] => [String c ""]
        end
  end.

(** The [%XX] escapes of a string resolved: each gives its byte, marked
    as written with an escape; [None] on a [%] that is not followed by two
    hexadecimal digits. *)
Fixpoint unescape (s : string) : option (list (bool * Z)) :=
  match s with
  | EmptyString => Some []
  | String "%"%char (String h (String l rest)) =>
      match digit_in 16 h, digit_in 16 l, unescape rest with
      | Some x, Some y, Some bs => Some ((true, 16 * x + y) :: bs)
      | _, _, _ => None
      end
  | String "%"%char _ => None
  | String c rest => option_map (cons (false, byte c)) (unescape rest)
  end.

Definition continuation (b : Z) : bool := (128 <=? b) && (b <=? 191).

(** The second byte of a well-formed sequence of three and of four bytes:
    no overlong form, no surrogate, nothing above U+10FFFF. *)
Definition second_of_three (b b1 : Z) : bool :=
  if b =? 224 then (160 <=? b1) && (b1 <=? 191)
  else if b =? 237 then (128 <=? b1) && (b1 <=? 159)
  else continuation b1.

Definition second_of_four (b b1 : Z) : bool :=
  if b =? 240 then (144 <=? b1) && (b1 <=? 191)
  else if b =? 244 then (128 <=? b1) && (b1 <=? 143)
  else continuation b1.

(** The bytes of the decoded string: an escaped byte above 127 has to
    start, or belong to, a well-formed UTF-8 sequence written with escapes
    only; [None] otherwise. *)
Fixpoint well_formed (bs : list (bool * Z)) : option (list Z) :=
  match bs with
  | [] => Some []
  | (false, b) :: rest => option_map (cons b) (well_formed rest)
  | (true, b) :: rest =>
      if b <? 128 then option_map (cons b) (well_formed rest)
      else if (194 <=? b) && (b <=? 223) then
        match rest with
        | (true, b1) :: rest1 =>
            if continuation b1
            then option_map (fun tl => b :: b1 :: tl) (well_formed rest1)
            else None
        | _ => None
        end
      else if (224 <=? b) && (b <=? 239) then
        match rest with
        | (true, b1) :: (true, b2) :: rest2 =>
            if second_of_three b b1 && continuation b2
            then option_map (fun tl => b :: b1 :: b2 :: tl) (well_formed rest2)
            else None
        | _ => None
        end
      else if (240 <=? b) && (b <=? 244) then
        match rest with
        | (true, b1) :: (true, b2) :: (true, b3) :: rest3 =>
            if second_of_four b b1 && continuation b2 && continuation b3
            then option_map (fun tl => b :: b1 :: b2 :: b3 :: tl)
                            (well_formed rest3)
            else None
        | _ => None
        end
      else None
  end.

Definition of_bytes (bs : list Z) : string :=
  string_of_list_ascii (map (fun b => ascii_of_nat (Z.to_nat b)) bs).

(** [decodeURIComponent(s)]; [None] when it throws URIError. *)
Definition decodeURIComponent (s : string) : option string :=
  match unescape s with
  | Some bs => option_map of_bytes (well_formed bs)
  | None => None
  end.

End Js.

(** ** The driver's rows and the HTTP interface *)

Module Sql.

(** A column value as the store returns it. *)
Inductive value : Type :=
| Null
| Int (z : Z)
| Dec (q : Q)
| Text (s : string)
| Date (day : Z).

(** A result row: column name (the select list's alias) to value. *)
Definition row : Type := list (string * value).

End Sql.

Module Http.

(** A response body.  Rows are kept as the driver returned them: how a
    column value is serialised is the driver's and the framework's business. *)
#[warnings="-register-all"]
Inductive json : Type :=
| JBool (b : bool)
| JStr (s : string)
| JNum (n : Js.number)
| JVal (v : Js.value)
| JRow (r : Sql.row)
| JRows (rs : list Sql.row)
| JObject (fields : list (string * json)).

Record response : Type := { status : Z; body : json }.

(** [req.params] holds a string for every named segment of the route;
    [req.query] is [undefined] at the keys the query string does not have. *)
Record request : Type := {
  params : string -> string;
  query : string -> Js.value
}.

Definition lookup {A} (k : string) (l : list (string * A)) : option A :=
  option_map snd (find (fun kv => String.eqb (fst kv) k) l).

Definition field (name : string) (j : json) : option json :=
  match j with
  | JObject fields => lookup name fields
  | _ => None
  end.

(** The request with the given path and query parameters. *)
Definition make (ps : list (string * string)) (qs : list (string * Js.value))
  : request :=
  {| params := fun k => match lookup k ps with Some s => s | None => "" end;
     query := fun k => match lookup k qs with Some v => v | None => Js.Undefined end |}.

(** The request [req] with the query parameter [k] set to [v]
    ([Js.Undefined]: removed). *)
Definition with_query (req : request) (k : string) (v : Js.value) : request :=
  {| params := params req;
     query := fun k' => if String.eqb k' k then v else query req k' |}.

(** [res.json(b)] and [res.status(code).json(b)]. *)
Definition res_json (b : json) : response := {| status := 200; body := b |}.
Definition res_status_json (code : Z) (b : json) : response :=
  {| status := code; body := b |}.

End Http.

(** ** The execution collaborator *)

Module Pool.

(** A bound value of [pool.query(sql, values)]. *)
Inductive param : Type :=
| PVal (v : Js.value)
| PNum (n : Js.number).

(** One call [pool.query(sql, values)]. *)
Record call : Type := { sql : string; values : list param }.

(** The pool: the rows of a call, or [None] when the promise rejects. *)
Definition t : Type := call -> option (list Sql.row).

(** The body of a handler's [try] block: it issues calls to the pool and
    either completes with a value or throws. *)
Definition M (A : Type) : Type := t -> list call * option A.

Definition ret {A} (a : A) : M A := fun _ => ([], Some a).

Definition throw {A} : M A := fun _ => ([], None).

Definition bind {A B} (m : M A) (k : A -> M B) : M B :=
  fun pool =>
    match m pool with
    | (cs, Some a) => let (cs', b) := k a pool in ((cs ++ cs')%list, b)
    | (cs, None) => (cs, None)
    end.

(** [await pool.query(sql, values)] *)
Definition query (sql : string) (values : list param) : M (list Sql.row) :=
  fun pool =>
    let c := {| sql := sql; values := values |} in ([c], pool c).

(** What a handler did: the calls it made, in order, and its response. *)
Record outcome : Type := { calls : list call; reply : Http.response }.

(** [try { body } catch (error) { handler }] *)
Definition try_catch (body : M Http.response) (handler : Http.response)
  : t -> outcome :=
  fun pool =>
    let (cs, r) := body pool in
    {| calls := cs;
       reply := match r with Some x => x | None => handler end |}.

End Pool.

Declare Scope handler_scope.
Delimit Scope handler_scope with handler.
Notation "x <- m ;; k" := (Pool.bind m (fun x => k))
  (at level 61, m at next level, right associativity) : handler_scope.

(** ** The query templates, verbatim from the handlers *)

Module Template.

Definition students_by_grade_sql : string := "
      SELECT 
        student_id,
        first_name,
        last_name,
        email,
        grade,
        enrollment_date
      FROM students
      WHERE grade = ?
      ORDER BY last_name, first_name
    ".

Definition student_enrollments_sql : string := "
      SELECT 
        s.student_id,
        s.first_name,
        s.last_name,
        c.course_id,
        c.course_name,
        c.credits,
        e.enrollment_date,
        e.grade
      FROM students s
      INNER JOIN enrollments e ON s.student_id = e.student_id
      INNER JOIN courses c ON e.course_id = c.course_id
      WHERE s.student_id = ?
      ORDER BY e.enrollment_date DESC
    ".

Definition all_with_enrollments_sql : string := "
      SELECT 
        s.student_id,
        s.first_name,
        s.last_name,
        s.grade,
        COUNT(e.enrollment_id) as total_enrollments,
        GROUP_CONCAT(c.course_name SEPARATOR ', ') as courses
      FROM students s
      LEFT JOIN enrollments e ON s.student_id = e.student_id
      LEFT JOIN courses c ON e.course_id = c.course_id
      GROUP BY s.student_id, s.first_name, s.last_name, s.grade
      ORDER BY s.last_name
    ".

Definition students_per_grade_sql : string := "
      SELECT 
        grade,
        COUNT(*) as student_count,
        COUNT(DISTINCT email) as unique_emails
      FROM students
      GROUP BY grade
      ORDER BY grade
    ".

Definition popular_courses_sql : string := "
      SELECT 
        c.course_id,
        c.course_name,
        c.credits,
        COUNT(e.enrollment_id) as enrollment_count,
        AVG(CASE 
          WHEN e.grade = 'A' THEN 4.0
          WHEN e.grade = 'B' THEN 3.0
          WHEN e.grade = 'C' THEN 2.0
          WHEN e.grade = 'D' THEN 1.0
          ELSE 0.0
        END) as average_gpa
      FROM courses c
      INNER JOIN enrollments e ON c.course_id = e.course_id
      GROUP BY c.course_id, c.course_name, c.credits
      HAVING COUNT(e.enrollment_id) >= ?
      ORDER BY enrollment_count DESC, average_gpa DESC
    ".

Definition student_performance_sql_head : string := "
      SELECT 
        s.student_id,
        s.first_name,
        s.last_name,
        s.grade as student_grade,
        COUNT(e.enrollment_id) as courses_taken,
        SUM(c.credits) as total_credits,
        AVG(CASE 
          WHEN e.grade = 'A' THEN 4.0
          WHEN e.grade = 'B' THEN 3.0
          WHEN e.grade = 'C' THEN 2.0
          WHEN e.grade = 'D' THEN 1.0
          WHEN e.grade = 'F' THEN 0.0
        END) as gpa,
        GROUP_CONCAT(
          CONCAT(c.course_name, ' (', e.grade, ')')
          ORDER BY e.enrollment_date DESC
          SEPARATOR ' | '
        ) as course_history
      FROM students s
      INNER JOIN enrollments e ON s.student_id = e.student_id
      INNER JOIN courses c ON e.course_id = c.course_id
      WHERE 1=1
        ".

Definition student_performance_sql_tail : string := "
      GROUP BY s.student_id, s.first_name, s.last_name, s.grade
      HAVING AVG(CASE 
        WHEN e.grade = 'A' THEN 4.0
        WHEN e.grade = 'B' THEN 3.0
        WHEN e.grade = 'C' THEN 2.0
        WHEN e.grade = 'D' THEN 1.0
        WHEN e.grade = 'F' THEN 0.0
      END) >= ?
      ORDER BY gpa DESC, total_credits DESC
    ".

Definition students_in_courses_sql : string := "
      SELECT DISTINCT
        s.student_id,
        s.first_name,
        s.last_name,
        s.email,
        s.grade,
        (
          SELECT COUNT(*)
          FROM enrollments e2
          WHERE e2.student_id = s.student_id
            AND e2.course_id IN (?)
        ) as matching_course_count
      FROM students s
      WHERE s.student_id IN (
        SELECT DISTINCT student_id
        FROM enrollments
        WHERE course_id IN (?)
      )
      ORDER BY matching_course_count DESC, s.last_name
    ".

Definition course_details_sql : string := "
      SELECT 
        c.course_id,
        c.course_name,
        c.credits,
        c.department,
        COUNT(DISTINCT e.student_id) as total_students,
        COUNT(DISTINCT s.grade) as grade_levels_represented,
        -- Grade distribution
        SUM(CASE WHEN e.grade = 'A' THEN 1 ELSE 0 END) as count_A,
        SUM(CASE WHEN e.grade = 'B' THEN 1 ELSE 0 END) as count_B,
        SUM(CASE WHEN e.grade = 'C' THEN 1 ELSE 0 END) as count_C,
        SUM(CASE WHEN e.grade = 'D' THEN 1 ELSE 0 END) as count_D,
        SUM(CASE WHEN e.grade = 'F' THEN 1 ELSE 0 END) as count_F,
        -- Calculate percentages
        ROUND(SUM(CASE WHEN e.grade = 'A' THEN 1 ELSE 0 END) * 100.0 / COUNT(*), 2) as percent_A,
        ROUND(SUM(CASE WHEN e.grade = 'B' THEN 1 ELSE 0 END) * 100.0 / COUNT(*), 2) as percent_B,
        -- Average GPA
        ROUND(AVG(CASE 
          WHEN e.grade = 'A' THEN 4.0
          WHEN e.grade = 'B' THEN 3.0
          WHEN e.grade = 'C' THEN 2.0
          WHEN e.grade = 'D' THEN 1.0
          WHEN e.grade = 'F' THEN 0.0
        END), 2) as average_gpa,
        -- Latest enrollment date
        MAX(e.enrollment_date) as latest_enrollment,
        -- Top performing student
        (
          SELECT CONCAT(s2.first_name, ' ', s2.last_name)
          FROM students s2
          INNER JOIN enrollments e2 ON s2.student_id = e2.student_id
          WHERE e2.course_id = c.course_id
            AND e2.grade = 'A'
          LIMIT 1
        ) as top_student_example
      FROM courses c
      LEFT JOIN enrollments e ON c.course_id = e.course_id
      LEFT JOIN students s ON e.student_id = s.student_id
      WHERE c.course_id = ?
      GROUP BY c.course_id, c.course_name, c.credits, c.department
    ".

Definition top_performers_sql : string := "
      SELECT 
        s.student_id,
        s.first_name,
        s.last_name,
        s.email,
        s.grade as student_grade,
        COUNT(DISTINCT e.course_id) as courses_completed,
        SUM(c.credits) as total_credits_earned,
        -- Calculate weighted GPA
        ROUND(
          SUM(
            CASE 
              WHEN e.grade = 'A' THEN 4.0 * c.credits
              WHEN e.grade = 'B' THEN 3.0 * c.credits
              WHEN e.grade = 'C' THEN 2.0 * c.credits
              WHEN e.grade = 'D' THEN 1.0 * c.credits
              WHEN e.grade = 'F' THEN 0.0 * c.credits
            END
          ) / SUM(c.credits),
          2
        ) as weighted_gpa,
        -- Count of A grades
        SUM(CASE WHEN e.grade = 'A' THEN 1 ELSE 0 END) as a_count,
        -- Performance rating
        CASE 
          WHEN AVG(CASE 
            WHEN e.grade = 'A' THEN 4.0
            WHEN e.grade = 'B' THEN 3.0
            WHEN e.grade = 'C' THEN 2.0
            WHEN e.grade = 'D' THEN 1.0
            WHEN e.grade = 'F' THEN 0.0
          END) >= 3.8 THEN 'Outstanding'
          WHEN AVG(CASE 
            WHEN e.grade = 'A' THEN 4.0
            WHEN e.grade = 'B' THEN 3.0
            WHEN e.grade = 'C' THEN 2.0
            WHEN e.grade = 'D' THEN 1.0
            WHEN e.grade = 'F' THEN 0.0
          END) >= 3.5 THEN 'Excellent'
          WHEN AVG(CASE 
            WHEN e.grade = 'A' THEN 4.0
            WHEN e.grade = 'B' THEN 3.0
            WHEN e.grade = 'C' THEN 2.0
            WHEN e.grade = 'D' THEN 1.0
            WHEN e.grade = 'F' THEN 0.0
          END) >= 3.0 THEN 'Good'
          ELSE 'Satisfactory'
        END as performance_rating
      FROM students s
      INNER JOIN enrollments e ON s.student_id = e.student_id
      INNER JOIN courses c ON e.course_id = c.course_id
      GROUP BY s.student_id, s.first_name, s.last_name, s.email, s.grade
      HAVING 
        COUNT(DISTINCT e.course_id) >= ?
        AND ROUND(
          SUM(
            CASE 
              WHEN e.grade = 'A' THEN 4.0 * c.credits
              WHEN e.grade = 'B' THEN 3.0 * c.credits
              WHEN e.grade = 'C' THEN 2.0 * c.credits
              WHEN e.grade = 'D' THEN 1.0 * c.credits
              WHEN e.grade = 'F' THEN 0.0 * c.credits
            END
          ) / SUM(c.credits),
          2
        ) >= ?
      ORDER BY weighted_gpa DESC, courses_completed DESC
      LIMIT 20
    ".

Definition departments_sql : string := "
      SELECT 
        c.department,
        COUNT(DISTINCT c.course_id) as total_courses,
        COUNT(DISTINCT e.student_id) as total_students,
        SUM(c.credits) as total_credits_offered,
        AVG(c.credits) as avg_credits_per_course,
        -- Enrollment statistics
        COUNT(e.enrollment_id) as total_enrollments,
        ROUND(COUNT(e.enrollment_id) * 1.0 / COUNT(DISTINCT c.course_id), 2) as avg_enrollments_per_course,
        -- Performance metrics
        ROUND(AVG(CASE 
          WHEN e.grade = 'A' THEN 4.0
          WHEN e.grade = 'B' THEN 3.0
          WHEN e.grade = 'C' THEN 2.0
          WHEN e.grade = 'D' THEN 1.0
          WHEN e.grade = 'F' THEN 0.0
        END), 2) as department_avg_gpa,
        -- Grade distribution
        CONCAT(
          'A:', SUM(CASE WHEN e.grade = 'A' THEN 1 ELSE 0 END), ' ',
          'B:', SUM(CASE WHEN e.grade = 'B' THEN 1 ELSE 0 END), ' ',
          'C:', SUM(CASE WHEN e.grade = 'C' THEN 1 ELSE 0 END)
        ) as grade_distribution,
        -- Success rate (C or better)
        ROUND(
          SUM(CASE WHEN e.grade IN ('A', 'B', 'C') THEN 1 ELSE 0 END) * 100.0 / COUNT(e.enrollment_id),
          2
        ) as success_rate_percent
      FROM courses c
      LEFT JOIN enrollments e ON c.course_id = e.course_id
      GROUP BY c.department
      HAVING COUNT(e.enrollment_id) > 0
      ORDER BY total_enrollments DESC, department_avg_gpa DESC
    ".

(** The fragment the student-performance handler splices in. *)
Definition grade_predicate : string := "AND s.grade = ?".

(** The number of positional placeholders of a text. *)
Fixpoint placeholders (text : string) : nat :=
  match text with
  | EmptyString => 0
  | String c rest =>
      ((if Ascii.eqb c "?" then 1 else 0) + placeholders rest)%nat
  end.

End Template.

(** ** The route handlers *)

Module App.

Import Js Http Pool.
Local Open Scope handler_scope.

Definition failure (message : string) : json :=
  JObject [("success", JBool false); ("error", JStr message)].

(** ENDPOINT 1: GET /api/students/grade/:grade *)
Definition students_by_grade (req : request) : Pool.t -> outcome :=
  try_catch
    (let grade := params req "grade" in
     let query := Template.students_by_grade_sql in
     rows <- Pool.query query [PVal (Str grade)] ;;
     ret (res_json (JObject [("success", JBool true);
                             ("count", JNum (of_nat (length rows)));
                             ("data", JRows rows)])))
    (res_status_json 500 (failure "Failed to fetch students")).

(** ENDPOINT 2: GET /api/students/:studentId/enrollments *)
Definition student_enrollments (req : request) : Pool.t -> outcome :=
  try_catch
    (let studentId := params req "studentId" in
     let query := Template.student_enrollments_sql in
     rows <- Pool.query query [PVal (Str studentId)] ;;
     ret (res_json (JObject [("success", JBool true);
                             ("count", JNum (of_nat (length rows)));
                             ("data", JRows rows)])))
    (res_status_json 500 (failure "Failed to fetch enrollments")).

(** ENDPOINT 3: GET /api/students/all-with-enrollments *)
Definition all_with_enrollments (req : request) : Pool.t -> outcome :=
  try_catch
    (let query := Template.all_with_enrollments_sql in
     rows <- Pool.query query [] ;;
     ret (res_json (JObject [("success", JBool true);
                             ("count", JNum (of_nat (length rows)));
                             ("data", JRows rows)])))
    (res_status_json 500 (failure "Failed to fetch data")).

(** ENDPOINT 4: GET /api/analytics/students-per-grade *)
Definition students_per_grade (req : request) : Pool.t -> outcome :=
  try_catch
    (let query := Template.students_per_grade_sql in
     rows <- Pool.query query [] ;;
     ret (res_json (JObject [("success", JBool true);
                             ("data", JRows rows)])))
    (res_status_json 500 (failure "Failed to calculate analytics")).

(** ENDPOINT 5: GET /api/courses/popular/:minEnrollments *)
Definition popular_courses (req : request) : Pool.t -> outcome :=
  try_catch
    (let minEnrollments := params req "minEnrollments" in
     let query := Template.popular_courses_sql in
     rows <- Pool.query query [PNum (parseInt (Str minEnrollments))] ;;
     ret (res_json (JObject [("success", JBool true);
                             ("count", JNum (of_nat (length rows)));
                             ("data", JRows rows)])))
    (res_status_json 500 (failure "Failed to fetch popular courses")).

(** ENDPOINT 6: GET /api/analytics/student-performance?minGPA&grade *)
Definition student_performance (req : request) : Pool.t -> outcome :=
  try_catch
    (let minGPA := or_number (parseFloat (Http.query req "minGPA")) (Finite 0) in
     let grade := Http.query req "grade" in
     let query :=
       Template.student_performance_sql_head
       ++ (if truthy grade then Template.grade_predicate else "")
       ++ Template.student_performance_sql_tail in
     let params :=
       if truthy grade then [PVal grade; PNum minGPA] else [PNum minGPA] in
     rows <- Pool.query query params ;;
     ret (res_json (JObject [("success", JBool true);
                             ("filters",
                              JObject [("minGPA", JNum minGPA);
                                       ("grade", JVal (or grade (Str "all")))]);
                             ("count", JNum (of_nat (length rows)));
                             ("data", JRows rows)])))
    (res_status_json 500 (failure "Failed to fetch performance data")).

(** [v?.split(',') || []]: [undefined] short-circuits to the empty array,
    a string is split, and any other value has no [split] method, so the
    call throws a TypeError inside the [try] block. *)
Definition split_or_empty (v : value) : M (list string) :=
  match v with
  | Undefined => ret []
  | Str s => ret (split "," s)
  | Arr _ | Obj => throw
  end.

(** ENDPOINT 7: GET /api/students/in-courses?courseIds *)
Definition students_in_courses (req : request) : Pool.t -> outcome :=
  try_catch
    (courseIds <- split_or_empty (Http.query req "courseIds") ;;
     if Nat.eqb (length courseIds) 0 then
       ret (res_status_json 400
              (failure "Please provide courseIds as comma-separated values"))
     else
       let query := Template.students_in_courses_sql in
       rows <- Pool.query query [PVal (Arr courseIds); PVal (Arr courseIds)] ;;
       ret (res_json (JObject [("success", JBool true);
                               ("courseIds", JVal (Arr courseIds));
                               ("count", JNum (of_nat (length rows)));
                               ("data", JRows rows)])))
    (res_status_json 500 (failure "Failed to fetch students")).

(** ENDPOINT 8: GET /api/analytics/course-details/:courseId *)
Definition course_details (req : request) : Pool.t -> outcome :=
  try_catch
    (let courseId := params req "courseId" in
     let query := Template.course_details_sql in
     rows <- Pool.query query [PVal (Str courseId)] ;;
     match rows with
     | [] => ret (res_status_json 404 (failure "Course not found"))
     | row0 :: _ =>
         ret (res_json (JObject [("success", JBool true);
                                 ("data", JRow row0)]))
     end)
    (res_status_json 500 (failure "Failed to fetch course analytics")).

(** The thresholds of ENDPOINT 9, with their defaults. *)
Definition minCourses (req : request) : number :=
  or_number (parseInt (Http.query req "minCourses")) (Finite 3).
Definition minGPA (req : request) : number :=
  or_number (parseFloat (Http.query req "minGPA")) (Finite 3.5).

(** ENDPOINT 9: GET /api/analytics/top-performers?minCourses&minGPA *)
Definition top_performers (req : request) : Pool.t -> outcome :=
  try_catch
    (let minCourses := minCourses req in
     let minGPA := minGPA req in
     let query := Template.top_performers_sql in
     rows <- Pool.query query [PNum minCourses; PNum minGPA] ;;
     ret (res_json (JObject [("success", JBool true);
                             ("criteria",
                              JObject [("minCourses", JNum minCourses);
                                       ("minGPA", JNum minGPA)]);
                             ("count", JNum (of_nat (length rows)));
                             ("data", JRows rows)])))
    (res_status_json 500 (failure "Failed to fetch top performers")).

(** ENDPOINT 10: GET /api/analytics/departments *)
Definition departments (req : request) : Pool.t -> outcome :=
  try_catch
    (let query := Template.departments_sql in
     rows <- Pool.query query [] ;;
     ret (res_json (JObject [("success", JBool true);
                             ("count", JNum (of_nat (length rows)));
                             ("data", JRows rows)])))
    (res_status_json 500 (failure "Failed to fetch department analytics")).

(** The ten report routes. *)
Inductive operation : Type :=
| StudentsByGrade
| StudentEnrollments
| AllWithEnrollments
| StudentsPerGrade
| PopularCourses
| StudentPerformance
| StudentsInCourses
| CourseDetails
| TopPerformers
| Departments.

Definition handle (op : operation) : request -> Pool.t -> outcome :=
  match op with
  | StudentsByGrade => students_by_grade
  | StudentEnrollments => student_enrollments
  | AllWithEnrollments => all_with_enrollments
  | StudentsPerGrade => students_per_grade
  | PopularCourses => popular_courses
  | StudentPerformance => student_performance
  | StudentsInCourses => students_in_courses
  | CourseDetails => course_details
  | TopPerformers => top_performers
  | Departments => departments
  end.

(** The text of the only call of student-performance, with and without
    the optional predicate. *)
Definition student_performance_text (with_grade : bool) : string :=
  Template.student_performance_sql_head
  ++ (if with_grade then Template.grade_predicate else "")
  ++ Template.student_performance_sql_tail.

(** The static text each operation sends when it sends one. *)
Definition template (op : operation) (with_grade : bool) : string :=
  match op with
  | StudentsByGrade => Template.students_by_grade_sql
  | StudentEnrollments => Template.student_enrollments_sql
  | AllWithEnrollments => Template.all_with_enrollments_sql
  | StudentsPerGrade => Template.students_per_grade_sql
  | PopularCourses => Template.popular_courses_sql
  | StudentPerformance => student_performance_text with_grade
  | StudentsInCourses => Template.students_in_courses_sql
  | CourseDetails => Template.course_details_sql
  | TopPerformers => Template.top_performers_sql
  | Departments => Template.departments_sql
  end.

(** A number that [||] replaces by its default. *)
Definition is_zero_or_NaN (n : number) : Prop :=
  match n with
  | NaN => True
  | Infinity _ => False
  | Finite q => (q == 0)%Q
  end.

End App.

(** ** The schema (init.sql) *)

Module Schema.

Module Student.
Record t : Type := {
  student_id : Z;
  first_name : string;
  last_name : string;
  email : string;
  grade : Z;
  enrollment_date : Z
}.
End Student.

Module Course.
Record t : Type := {
  course_id : Z;
  course_name : string;
  department : string;
  credits : Z;
  description : option string
}.
End Course.

Module Enrollment.
(** "Grade received in the course (A, B, C, D, F, or NULL if in progress)" *)
Inductive letter : Type := A | B | C | D | F.
Record t : Type := {
  enrollment_id : Z;
  student_id : Z;
  course_id : Z;
  enrollment_date : Z;
  grade : option letter
}.
End Enrollment.

Record database : Type := {
  students : list Student.t;
  courses : list Course.t;
  enrollments : list Enrollment.t
}.

(** The key constraints the tables are created with. *)
Record constraints (db : database) : Prop := {
  students_primary_key : NoDup (map Student.student_id (students db));
  courses_primary_key : NoDup (map Course.course_id (courses db));
  enrollments_primary_key :
    NoDup (map Enrollment.enrollment_id (enrollments db));
  unique_enrollment :
    NoDup (map (fun e => (Enrollment.student_id e, Enrollment.course_id e))
               (enrollments db))
}.

End Schema.

(** ** Relational operators and SQL expressions

    Exact-value (DECIMAL) arithmetic is read in the rationals; a nullable
    expression is an [option], and a condition is three-valued
    ([None] is UNKNOWN). *)

Module Rel.

Local Open Scope Q_scope.

Section Joins.
Context {L R : Type}.

(** [ls INNER JOIN rs ON on] *)
Definition inner_join (on : L -> R -> bool) (ls : list L) (rs : list R)
  : list (L * R) :=
  flat_map (fun l => map (pair l) (filter (on l) rs)) ls.

(** [ls LEFT JOIN rs ON on]: a left row without a match is kept once,
    padded with NULLs. *)
Definition left_join (on : L -> R -> bool) (ls : list L) (rs : list R)
  : list (L * option R) :=
  flat_map (fun l =>
              match filter (on l) rs with
              | [] => [(l, None)]
              | matches => map (fun r => (l, Some r)) matches
              end) ls.

End Joins.

Section Grouping.
Context {Row K : Type}.
Variable key : Row -> K.
Variable eqb : K -> K -> bool.

(** The distinct values of a list, in order of first occurrence. *)
Fixpoint distinct (l : list K) : list K :=
  match l with
  | [] => []
  | k :: tl => k :: filter (fun k' => negb (eqb k k')) (distinct tl)
  end.

(** [GROUP BY key]: one group per distinct key, holding the rows with it.
    There is no group when there is no row. *)
Definition group_by (rows : list Row) : list (K * list Row) :=
  map (fun k => (k, filter (fun r => eqb (key r) k) rows))
      (distinct (map key rows)).

End Grouping.

(** Whether a block of joined rows is non-empty, that is, forms a group. *)
Definition has_rows {Row} (rows : list Row) : bool :=
  match rows with [] => false | _ => true end.

(** The values an aggregate sees: NULLs are skipped. *)
Definition non_null {A} (l : list (option A)) : list A :=
  flat_map (fun o => match o with Some a => [a] | None => [] end) l.

Definition total (xs : list Q) : Q := fold_right Qplus 0 xs.

(** [SUM(e)]: NULL when no row has a value. *)
Definition SUM (l : list (option Q)) : option Q :=
  match non_null l with
  | [] => None
  | xs => Some (total xs)
  end.

(** [AVG(e)]: the mean of the non-NULL values, NULL when there is none. *)
Definition AVG (l : list (option Q)) : option Q :=
  match non_null l with
  | [] => None
  | xs => Some (total xs / inject_Z (Z.of_nat (length xs)))
  end.

(** [COUNT(e)] and [COUNT( * )]. *)
Definition COUNT {A} (l : list (option A)) : Z := Z.of_nat (length (non_null l)).
Definition COUNT_star {A} (l : list A) : Z := Z.of_nat (length l).

(** [COUNT(DISTINCT e)] on integer expressions. *)
Definition COUNT_DISTINCT (l : list (option Z)) : Z :=
  Z.of_nat (length (distinct Z.eqb (non_null l))).

(** [MAX(e)] on dates. *)
Definition MAX (l : list (option Z)) : option Z :=
  match non_null l with
  | [] => None
  | x :: xs => Some (fold_right Z.max x xs)
  end.

(** [GROUP_CONCAT(e SEPARATOR sep)]: NULL when no row has a value. *)
Definition GROUP_CONCAT (sep : string) (l : list (option string))
  : option string :=
  match non_null l with
  | [] => None
  | xs => Some (String.concat sep xs)
  end.

(** [a / b]: NULL when an operand is NULL or the divisor is zero. *)
Definition div (a b : option Q) : option Q :=
  match a, b with
  | Some x, Some y => if Qeq_bool y 0 then None else Some (x / y)
  | _, _ => None
  end.

(** Rounding to the nearest integer, halves away from zero. *)
Definition round_half_away (q : Q) : Z :=
  if Qle_bool 0 q then Qfloor (q + (1 # 2)) else (- Qfloor (- q + (1 # 2)))%Z.

(** [ROUND(x, 2)] on exact values. *)
Definition ROUND2 (x : option Q) : option Q :=
  option_map (fun q => Qred (inject_Z (round_half_away (q * 100)) / 100)) x.

(** [a >= b] *)
Definition ge (a b : option Q) : option bool :=
  match a, b with
  | Some x, Some y => Some (Qle_bool y x)
  | _, _ => None
  end.

(** [a * b] *)
Definition mul (a b : option Q) : option Q :=
  match a, b with
  | Some x, Some y => Some (x * y)
  | _, _ => None
  end.

(** Descending order on nullable values: NULL sorts after every value. *)
Definition compare_desc (a b : option Q) : comparison :=
  match a, b with
  | Some x, Some y => Qcompare y x
  | Some _, None => Lt
  | None, Some _ => Gt
  | None, None => Eq
  end.

(** [a AND b] *)
Definition and3 (a b : option bool) : option bool :=
  match a, b with
  | Some false, _ | _, Some false => Some false
  | Some true, Some true => Some true
  | _, _ => None
  end.

(** A condition holds (WHERE, HAVING, WHEN) only when it is TRUE. *)
Definition holds (c : option bool) : bool :=
  match c with Some true => true | _ => false end.

(** [CASE WHEN c1 THEN v1 ... ELSE d END]: the first branch whose
    condition is TRUE. *)
Fixpoint CASE {A} (branches : list (option bool * A)) (ELSE : A) : A :=
  match branches with
  | [] => ELSE
  | (c, v) :: rest => if holds c then v else CASE rest ELSE
  end.

Definition letter_eqb (x y : Schema.Enrollment.letter) : bool :=
  match x, y with
  | Schema.Enrollment.A, Schema.Enrollment.A
  | Schema.Enrollment.B, Schema.Enrollment.B
  | Schema.Enrollment.C, Schema.Enrollment.C
  | Schema.Enrollment.D, Schema.Enrollment.D
  | Schema.Enrollment.F, Schema.Enrollment.F => true
  | _, _ => false
  end.

(** [e.grade = 'A'] and the like. *)
Definition grade_is (g : option Schema.Enrollment.letter)
  (l : Schema.Enrollment.letter) : option bool :=
  option_map (fun x => letter_eqb x l) g.

(** The grade-point CASE shared by student-performance, course-details,
    top-performers and departments: five WHEN branches, no ELSE. *)
Definition grade_points (g : option Schema.Enrollment.letter) : option Q :=
  CASE [(grade_is g Schema.Enrollment.A, Some 4.0);
        (grade_is g Schema.Enrollment.B, Some 3.0);
        (grade_is g Schema.Enrollment.C, Some 2.0);
        (grade_is g Schema.Enrollment.D, Some 1.0);
        (grade_is g Schema.Enrollment.F, Some 0.0)]
       None.

(** The grade-point CASE of popular-courses: four WHEN branches and
    [ELSE 0.0]. *)
Definition grade_points_else_zero (g : option Schema.Enrollment.letter)
  : option Q :=
  CASE [(grade_is g Schema.Enrollment.A, Some 4.0);
        (grade_is g Schema.Enrollment.B, Some 3.0);
        (grade_is g Schema.Enrollment.C, Some 2.0);
        (grade_is g Schema.Enrollment.D, Some 1.0)]
       (Some 0.0).

(** The credit-weighted CASE of top-performers: [4.0 * c.credits] and so
    on, no ELSE. *)
Definition weighted_points (g : option Schema.Enrollment.letter)
  (credits : Z) : option Q :=
  CASE [(grade_is g Schema.Enrollment.A, Some (4.0 * inject_Z credits));
        (grade_is g Schema.Enrollment.B, Some (3.0 * inject_Z credits));
        (grade_is g Schema.Enrollment.C, Some (2.0 * inject_Z credits));
        (grade_is g Schema.Enrollment.D, Some (1.0 * inject_Z credits));
        (grade_is g Schema.Enrollment.F, Some (0.0 * inject_Z credits))]
       None.

(** [CASE WHEN e.grade = l THEN 1 ELSE 0 END] *)
Definition one_if (g : option Schema.Enrollment.letter)
  (l : Schema.Enrollment.letter) : option Q :=
  CASE [(grade_is g l, Some 1)] (Some 0).

(** A result of [ORDER BY]: the input rearranged so that [le] holds from
    each row to every later one.  Which of several such arrangements the
    store returns (rows that compare equal) is left open. *)
Definition ordered_by {A} (le : A -> A -> bool) (input output : list A) : Prop :=
  Permutation input output /\ StronglySorted (fun a b => le a b = true) output.

(** One such arrangement: insertion sort. *)
Fixpoint insert {A} (le : A -> A -> bool) (a : A) (l : list A) : list A :=
  match l with
  | [] => [a]
  | b :: tl => if le a b then a :: l else b :: insert le a tl
  end.

Definition order_by {A} (le : A -> A -> bool) (l : list A) : list A :=
  fold_right (insert le) [] l.

(** [LIMIT n] *)
Definition LIMIT {A} (n : nat) (l : list A) : list A := firstn n l.

Definition int (z : Z) : Sql.value := Sql.Int z.
Definition dec (q : option Q) : Sql.value :=
  match q with Some x => Sql.Dec x | None => Sql.Null end.
Definition text (s : option string) : Sql.value :=
  match s with Some x => Sql.Text x | None => Sql.Null end.
Definition date (d : option Z) : Sql.value :=
  match d with Some x => Sql.Date x | None => Sql.Null end.

End Rel.

(** ** What the report queries return

    Each module reads one template of [Template] as a function of the
    tables: the FROM/JOIN clauses, WHERE, GROUP BY, the select list, HAVING,
    ORDER BY and LIMIT, in that order. *)

(** ENDPOINT 3, [Template.all_with_enrollments_sql]. *)
Module AllWithEnrollments.

Import Schema Rel.

Record result : Type := {
  student_id : Z;
  first_name : string;
  last_name : string;
  grade : Z;
  total_enrollments : Z;
  courses : option string
}.

Definition joined_row : Type :=
  (Student.t * option Enrollment.t) * option Course.t.

(** ON s.student_id = e.student_id *)
Definition on_student (s : Student.t) (e : Enrollment.t) : bool :=
  Student.student_id s =? Enrollment.student_id e.

(** ON e.course_id = c.course_id: not TRUE on a NULL-padded row. *)
Definition on_course (se : Student.t * option Enrollment.t) (c : Course.t)
  : bool :=
  match snd se with
  | Some e => Enrollment.course_id e =? Course.course_id c
  | None => false
  end.

(** FROM students s LEFT JOIN enrollments e ON s.student_id = e.student_id
    LEFT JOIN courses c ON e.course_id = c.course_id *)
Definition joined (db : database) : list joined_row :=
  left_join on_course
    (left_join on_student (Schema.students db) (Schema.enrollments db))
    (Schema.courses db).

(** The rows of the join that stem from one student. *)
Definition rows_of (db : database) (s : Student.t) : list joined_row :=
  left_join on_course
    (left_join on_student [s] (Schema.enrollments db))
    (Schema.courses db).

Definition key : Type := Z * string * string * Z.

(** GROUP BY s.student_id, s.first_name, s.last_name, s.grade *)
Definition student_key (s : Student.t) : key :=
  (Student.student_id s, Student.first_name s, Student.last_name s,
   Student.grade s).

Definition group_key (r : joined_row) : key := student_key (fst (fst r)).

Definition key_eqb (a b : key) : bool :=
  let '(id1, fn1, ln1, g1) := a in
  let '(id2, fn2, ln2, g2) := b in
  (id1 =? id2) && String.eqb fn1 fn2 && String.eqb ln1 ln2 && (g1 =? g2).

Definition select (g : key * list joined_row) : result :=
  let '(id, fn, ln, gr) := fst g in
  {| student_id := id;
     first_name := fn;
     last_name := ln;
     grade := gr;
     total_enrollments :=
       COUNT (map (fun r => option_map Enrollment.enrollment_id (snd (fst r)))
                  (snd g));
     courses :=
       GROUP_CONCAT ", "
         (map (fun r => option_map Course.course_name (snd r)) (snd g)) |}.

Definition grouped (db : database) : list result :=
  map select (group_by group_key key_eqb (joined db)).

Section Collation.
(** The order of the column's collation (utf8mb4_unicode_ci). *)
Variable collation_leb : string -> string -> bool.

(** ORDER BY s.last_name *)
Definition le (a b : result) : bool :=
  collation_leb (last_name a) (last_name b).

Definition results (db : database) (rs : list result) : Prop :=
  ordered_by le (grouped db) rs.

Definition run (db : database) : list result := order_by le (grouped db).

End Collation.

Definition to_row (r : result) : Sql.row :=
  [("student_id", int (student_id r));
   ("first_name", text (Some (first_name r)));
   ("last_name", text (Some (last_name r)));
   ("grade", int (grade r));
   ("total_enrollments", int (total_enrollments r));
   ("courses", text (courses r))].

End AllWithEnrollments.

(** ENDPOINT 5, [Template.popular_courses_sql]. *)
Module PopularCourses.

Import Schema Rel.

Record result : Type := {
  course_id : Z;
  course_name : string;
  credits : Z;
  enrollment_count : Z;
  average_gpa : option Q
}.

Definition joined_row : Type := Course.t * Enrollment.t.

(** FROM courses c INNER JOIN enrollments e ON c.course_id = e.course_id *)
Definition joined (db : database) : list joined_row :=
  inner_join (fun c e => Course.course_id c =? Enrollment.course_id e)
             (Schema.courses db) (Schema.enrollments db).

Definition key : Type := Z * string * Z.

(** GROUP BY c.course_id, c.course_name, c.credits *)
Definition group_key (r : joined_row) : key :=
  (Course.course_id (fst r), Course.course_name (fst r), Course.credits (fst r)).

Definition key_eqb (a b : key) : bool :=
  let '(id1, n1, c1) := a in
  let '(id2, n2, c2) := b in
  (id1 =? id2) && String.eqb n1 n2 && (c1 =? c2).

Definition select (g : key * list joined_row) : result :=
  let '(id, name, cr) := fst g in
  {| course_id := id;
     course_name := name;
     credits := cr;
     enrollment_count :=
       COUNT (map (fun r => Some (Enrollment.enrollment_id (snd r))) (snd g));
     average_gpa :=
       AVG (map (fun r => grade_points_else_zero (Enrollment.grade (snd r)))
                (snd g)) |}.

(** HAVING COUNT(e.enrollment_id) >= ? *)
Definition having (minEnrollments : Q) (r : result) : bool :=
  holds (ge (Some (inject_Z (enrollment_count r))) (Some minEnrollments)).

(** ORDER BY enrollment_count DESC, average_gpa DESC *)
Definition le (a b : result) : bool :=
  match enrollment_count b ?= enrollment_count a with
  | Lt => true
  | Gt => false
  | Eq => match compare_desc (average_gpa a) (average_gpa b) with
          | Gt => false
          | _ => true
          end
  end.

Definition qualifying (db : database) (minEnrollments : Q) : list result :=
  filter (having minEnrollments)
         (map select (group_by group_key key_eqb (joined db))).

Definition results (db : database) (minEnrollments : Q) (rs : list result)
  : Prop :=
  ordered_by le (qualifying db minEnrollments) rs.

Definition run (db : database) (minEnrollments : Q) : list result :=
  order_by le (qualifying db minEnrollments).

Definition to_row (r : result) : Sql.row :=
  [("course_id", int (course_id r));
   ("course_name", text (Some (course_name r)));
   ("credits", int (credits r));
   ("enrollment_count", int (enrollment_count r));
   ("average_gpa", dec (average_gpa r))].

End PopularCourses.

(** ENDPOINT 8, [Template.course_details_sql]. *)
Module CourseDetails.

Import Schema Rel.
Local Open Scope Q_scope.

Record result : Type := {
  course_id : Z;
  course_name : string;
  credits : Z;
  department : string;
  total_students : Z;
  grade_levels_represented : Z;
  count_A : option Q;
  count_B : option Q;
  count_C : option Q;
  count_D : option Q;
  count_F : option Q;
  percent_A : option Q;
  percent_B : option Q;
  average_gpa : option Q;
  latest_enrollment : option Z;
  top_student_example : option string
}.

Definition joined_row : Type :=
  (Course.t * option Enrollment.t) * option Student.t.

(** ON c.course_id = e.course_id *)
Definition on_course (c : Course.t) (e : Enrollment.t) : bool :=
  (Course.course_id c =? Enrollment.course_id e)%Z.

(** ON e.student_id = s.student_id: not TRUE on a NULL-padded row. *)
Definition on_student (ce : Course.t * option Enrollment.t) (s : Student.t)
  : bool :=
  match snd ce with
  | Some e => (Enrollment.student_id e =? Student.student_id s)%Z
  | None => false
  end.

(** FROM courses c LEFT JOIN enrollments e ON c.course_id = e.course_id
    LEFT JOIN students s ON e.student_id = s.student_id *)
Definition joined (db : database) : list joined_row :=
  left_join on_student
    (left_join on_course (Schema.courses db) (Schema.enrollments db))
    (Schema.students db).

(** The rows of the join that stem from one course. *)
Definition rows_of (db : database) (c : Course.t) : list joined_row :=
  left_join on_student
    (left_join on_course [c] (Schema.enrollments db))
    (Schema.students db).

(** WHERE c.course_id = ?, the bound value read as a number. *)
Definition matches (courseId : Q) (c : Course.t) : bool :=
  Qeq_bool (inject_Z (Course.course_id c)) courseId.

Definition where_ (courseId : Q) (r : joined_row) : bool :=
  matches courseId (fst (fst r)).

Definition key : Type := Z * string * Z * string.

(** GROUP BY c.course_id, c.course_name, c.credits, c.department *)
Definition course_key (c : Course.t) : key :=
  (Course.course_id c, Course.course_name c, Course.credits c,
   Course.department c).

Definition group_key (r : joined_row) : key := course_key (fst (fst r)).

Definition key_eqb (a b : key) : bool :=
  let '(id1, n1, c1, d1) := a in
  let '(id2, n2, c2, d2) := b in
  ((id1 =? id2)%Z && String.eqb n1 n2 && (c1 =? c2)%Z && String.eqb d1 d2)%bool.

(** [e.grade] on a joined row: NULL when the row has no enrollment. *)
Definition e_grade (r : joined_row) : option Enrollment.letter :=
  match snd (fst r) with
  | Some e => Enrollment.grade e
  | None => None
  end.

(** The scalar subquery: the name of a student with an A in the course,
    LIMIT 1; NULL when there is none.  The store may return any of them;
    the first in table order stands for its pick. *)
Definition top_student (db : database) (course : Z) : option string :=
  hd_error
    (map (fun se =>
            Student.first_name (fst se) ++ " " ++ Student.last_name (fst se))%string
       (filter
          (fun se =>
             ((Enrollment.course_id (snd se) =? course)%Z
              && holds (grade_is (Enrollment.grade (snd se)) Enrollment.A))%bool)
          (inner_join
             (fun s e => (Student.student_id s =? Enrollment.student_id e)%Z)
             (Schema.students db) (Schema.enrollments db)))).

Definition count_of (l : Enrollment.letter) (rows : list joined_row)
  : option Q :=
  SUM (map (fun r => one_if (e_grade r) l) rows).

Definition percent_of (l : Enrollment.letter) (rows : list joined_row)
  : option Q :=
  ROUND2 (div (mul (count_of l rows) (Some 100.0))
              (Some (inject_Z (COUNT_star rows)))).

Definition select (db : database) (g : key * list joined_row) : result :=
  let '(id, name, cr, dept) := fst g in
  let rows := snd g in
  {| course_id := id;
     course_name := name;
     credits := cr;
     department := dept;
     total_students :=
       COUNT_DISTINCT
         (map (fun r => option_map Enrollment.student_id (snd (fst r))) rows);
     grade_levels_represented :=
       COUNT_DISTINCT (map (fun r => option_map Student.grade (snd r)) rows);
     count_A := count_of Enrollment.A rows;
     count_B := count_of Enrollment.B rows;
     count_C := count_of Enrollment.C rows;
     count_D := count_of Enrollment.D rows;
     count_F := count_of Enrollment.F rows;
     percent_A := percent_of Enrollment.A rows;
     percent_B := percent_of Enrollment.B rows;
     average_gpa := ROUND2 (AVG (map (fun r => grade_points (e_grade r)) rows));
     latest_enrollment :=
       MAX (map (fun r => option_map Enrollment.enrollment_date (snd (fst r)))
                rows);
     top_student_example := top_student db id |}.

(** No ORDER BY: the rows come in any order. *)
Definition grouped (db : database) (courseId : Q) : list result :=
  map (select db)
      (group_by group_key key_eqb (filter (where_ courseId) (joined db))).

Definition results (db : database) (courseId : Q) (rs : list result) : Prop :=
  Permutation (grouped db courseId) rs.

Definition run (db : database) (courseId : Q) : list result :=
  grouped db courseId.

Definition to_row (r : result) : Sql.row :=
  [("course_id", int (course_id r));
   ("course_name", text (Some (course_name r)));
   ("credits", int (credits r));
   ("department", text (Some (department r)));
   ("total_students", int (total_students r));
   ("grade_levels_represented", int (grade_levels_represented r));
   ("count_A", dec (count_A r));
   ("count_B", dec (count_B r));
   ("count_C", dec (count_C r));
   ("count_D", dec (count_D r));
   ("count_F", dec (count_F r));
   ("percent_A", dec (percent_A r));
   ("percent_B", dec (percent_B r));
   ("average_gpa", dec (average_gpa r));
   ("latest_enrollment", date (latest_enrollment r));
   ("top_student_example", text (top_student_example r))].

End CourseDetails.

(** ENDPOINT 9, [Template.top_performers_sql]. *)
Module TopPerformers.

Import Schema Rel.
Local Open Scope Q_scope.

Record result : Type := {
  student_id : Z;
  first_name : string;
  last_name : string;
  email : string;
  student_grade : Z;
  courses_completed : Z;
  total_credits_earned : option Q;
  weighted_gpa : option Q;
  a_count : option Q;
  performance_rating : string
}.

Definition joined_row : Type := (Student.t * Enrollment.t) * Course.t.

(** ON s.student_id = e.student_id *)
Definition on_student (s : Student.t) (e : Enrollment.t) : bool :=
  (Student.student_id s =? Enrollment.student_id e)%Z.

(** ON e.course_id = c.course_id *)
Definition on_course (se : Student.t * Enrollment.t) (c : Course.t) : bool :=
  (Enrollment.course_id (snd se) =? Course.course_id c)%Z.

(** FROM students s INNER JOIN enrollments e ON s.student_id = e.student_id
    INNER JOIN courses c ON e.course_id = c.course_id *)
Definition joined (db : database) : list joined_row :=
  inner_join on_course
    (inner_join on_student (Schema.students db) (Schema.enrollments db))
    (Schema.courses db).

(** The rows of the join that stem from one student. *)
Definition rows_of (db : database) (s : Student.t) : list joined_row :=
  inner_join on_course
    (inner_join on_student [s] (Schema.enrollments db))
    (Schema.courses db).

Definition key : Type := Z * string * string * string * Z.

(** GROUP BY s.student_id, s.first_name, s.last_name, s.email, s.grade *)
Definition student_key (s : Student.t) : key :=
  (Student.student_id s, Student.first_name s, Student.last_name s,
   Student.email s, Student.grade s).

Definition group_key (r : joined_row) : key := student_key (fst (fst r)).

Definition key_eqb (a b : key) : bool :=
  let '(id1, fn1, ln1, em1, g1) := a in
  let '(id2, fn2, ln2, em2, g2) := b in
  ((id1 =? id2)%Z && String.eqb fn1 fn2 && String.eqb ln1 ln2
   && String.eqb em1 em2 && (g1 =? g2)%Z)%bool.

Definition e_grade (r : joined_row) : option Enrollment.letter :=
  Enrollment.grade (snd (fst r)).

Definition c_credits (r : joined_row) : Z := Course.credits (snd r).

(** ROUND(SUM(CASE ... END) / SUM(c.credits), 2) *)
Definition weighted_gpa_of (rows : list joined_row) : option Q :=
  ROUND2
    (div (SUM (map (fun r => weighted_points (e_grade r) (c_credits r)) rows))
         (SUM (map (fun r => Some (inject_Z (c_credits r))) rows))).

(** The unweighted AVG(CASE ... END) behind performance_rating. *)
Definition average_gpa_of (rows : list joined_row) : option Q :=
  AVG (map (fun r => grade_points (e_grade r)) rows).

Definition rating_of (rows : list joined_row) : string :=
  CASE [(ge (average_gpa_of rows) (Some 3.8), "Outstanding"%string);
        (ge (average_gpa_of rows) (Some 3.5), "Excellent"%string);
        (ge (average_gpa_of rows) (Some 3.0), "Good"%string)]
       "Satisfactory"%string.

Definition select (g : key * list joined_row) : result :=
  let '(id, fn, ln, em, gr) := fst g in
  let rows := snd g in
  {| student_id := id;
     first_name := fn;
     last_name := ln;
     email := em;
     student_grade := gr;
     courses_completed :=
       COUNT_DISTINCT
         (map (fun r => Some (Enrollment.course_id (snd (fst r)))) rows);
     total_credits_earned :=
       SUM (map (fun r => Some (inject_Z (c_credits r))) rows);
     weighted_gpa := weighted_gpa_of rows;
     a_count := SUM (map (fun r => one_if (e_grade r) Enrollment.A) rows);
     performance_rating := rating_of rows |}.

Definition grouped (db : database) : list result :=
  map select (group_by group_key key_eqb (joined db)).

(** HAVING COUNT(DISTINCT e.course_id) >= ? AND ROUND(...) >= ? *)
Definition having (minCourses minGPA : Q) (r : result) : bool :=
  holds (and3 (ge (Some (inject_Z (courses_completed r))) (Some minCourses))
              (ge (weighted_gpa r) (Some minGPA))).

(** ORDER BY weighted_gpa DESC, courses_completed DESC *)
Definition le (a b : result) : bool :=
  match compare_desc (weighted_gpa a) (weighted_gpa b) with
  | Lt => true
  | Gt => false
  | Eq => (courses_completed b <=? courses_completed a)%Z
  end.

(** The same order spelt out on rows that have a weighted GPA: a higher
    weighted_gpa first, and among equal ones no fewer courses_completed. *)
Definition ranks_before (a b : result) : Prop :=
  match weighted_gpa a, weighted_gpa b with
  | Some ga, Some gb =>
      gb < ga \/ (ga == gb /\ (courses_completed b <= courses_completed a)%Z)
  | _, _ => False
  end.

Definition qualifying (db : database) (minCourses minGPA : Q) : list result :=
  filter (having minCourses minGPA) (grouped db).

(** ... LIMIT 20 *)
Definition results (db : database) (minCourses minGPA : Q)
  (rs : list result) : Prop :=
  exists sorted,
    ordered_by le (qualifying db minCourses minGPA) sorted
    /\ rs = LIMIT 20 sorted.

Definition run (db : database) (minCourses minGPA : Q) : list result :=
  LIMIT 20 (order_by le (qualifying db minCourses minGPA)).

Definition to_row (r : result) : Sql.row :=
  [("student_id", int (student_id r));
   ("first_name", text (Some (first_name r)));
   ("last_name", text (Some (last_name r)));
   ("email", text (Some (email r)));
   ("student_grade", int (student_grade r));
   ("courses_completed", int (courses_completed r));
   ("total_credits_earned", dec (total_credits_earned r));
   ("weighted_gpa", dec (weighted_gpa r));
   ("a_count", dec (a_count r));
   ("performance_rating", text (Some (performance_rating r)))].

End TopPerformers.

(** ** The weighted GPA in the words of the specification *)

Module Spec.

Import Schema.
Local Open Scope Q_scope.

(** "grade points A→4.0, B→3.0, C→2.0, D→1.0, F→0.0" *)
Definition grade_point (l : Enrollment.letter) : Q :=
  match l with
  | Enrollment.A => 4.0
  | Enrollment.B => 3.0
  | Enrollment.C => 2.0
  | Enrollment.D => 1.0
  | Enrollment.F => 0.0
  end.

(** Σ(grade_point × credits) *)
Definition sum_points (es : list (Enrollment.letter * Z)) : Q :=
  fold_right (fun e acc => grade_point (fst e) * inject_Z (snd e) + acc) 0 es.

(** Σ(credits) *)
Definition sum_credits (es : list (Enrollment.letter * Z)) : Q :=
  fold_right (fun e acc => inject_Z (snd e) + acc) 0 es.

(** The integer nearest to a number that is not negative; a number
    halfway between two integers goes up. *)
Definition nearest (y : Q) : Z :=
  let n := Qfloor y in
  if Qle_bool (1 # 2) (y - inject_Z n) then (n + 1)%Z else n.

(** round(x, 2): the nearest number with two decimals, a value halfway
    between two of them going away from zero. *)
Definition round2 (x : Q) : Q :=
  let hundredths := inject_Z (nearest (Qabs x * 100)) / 100 in
  if Qle_bool 0 x then hundredths else - hundredths.

(** "round(Σ(grade_point × credits) / Σ(credits), 2)" *)
Definition credit_weighted_gpa (es : list (Enrollment.letter * Z)) : Q :=
  round2 (sum_points es / sum_credits es).

(** "null grade denotes in progress and must be excluded from GPA-style
    aggregates": the graded enrollments of a student, each with its letter
    and the credits of its course. *)
Definition graded (t : list (option Enrollment.letter * Z))
  : list (Enrollment.letter * Z) :=
  flat_map (fun e => match fst e with
                     | Some l => [(l, snd e)]
                     | None => []
                     end) t.

End Spec.

(** ** Sample data: two small databases and a few requests *)

Module Sample.

Import Schema.

Definition emily : Student.t :=
  {| Student.student_id := 1; Student.first_name := "Emily";
     Student.last_name := "Brown"; Student.email := "emily.brown@school.edu";
     Student.grade := 9; Student.enrollment_date := 0 |}.

Definition john : Student.t :=
  {| Student.student_id := 2; Student.first_name := "John";
     Student.last_name := "Smith"; Student.email := "john.smith@school.edu";
     Student.grade := 10; Student.enrollment_date := 0 |}.

Definition algebra : Course.t :=
  {| Course.course_id := 1; Course.course_name := "Algebra I";
     Course.department := "Mathematics"; Course.credits := 4;
     Course.description := None |}.

Definition biology : Course.t :=
  {| Course.course_id := 2; Course.course_name := "Biology";
     Course.department := "Science"; Course.credits := 3;
     Course.description := None |}.

Definition chemistry : Course.t :=
  {| Course.course_id := 3; Course.course_name := "Chemistry";
     Course.department := "Science"; Course.credits := 4;
     Course.description := None |}.

Definition enrollment (id student course day : Z)
  (grade : option Enrollment.letter) : Enrollment.t :=
  {| Enrollment.enrollment_id := id; Enrollment.student_id := student;
     Enrollment.course_id := course; Enrollment.enrollment_date := day;
     Enrollment.grade := grade |}.

(** Emily has an A in Algebra I (4 credits) and a B in Biology (3
    credits); John is not enrolled; nobody takes Chemistry. *)
Definition graded : database :=
  {| students := [emily; john];
     courses := [algebra; biology; chemistry];
     enrollments := [enrollment 1 1 1 10 (Some Enrollment.A);
                     enrollment 2 1 2 11 (Some Enrollment.B)] |}.

(** Emily has an A in Algebra I and is still taking Chemistry; John is
    still taking Algebra I. *)
Definition in_progress : database :=
  {| students := [emily; john];
     courses := [algebra; biology; chemistry];
     enrollments := [enrollment 1 1 1 10 (Some Enrollment.A);
                     enrollment 2 2 1 11 None;
                     enrollment 3 1 3 12 None] |}.

Definition study_skills : Course.t :=
  {| Course.course_id := 4; Course.course_name := "Study Skills";
     Course.department := "General"; Course.credits := 1;
     Course.description := None |}.

(** Emily has a B in Algebra I, an A in Biology and a D in Study Skills
    (1 credit): 25 grade points on 8 credits.  John has a B in Algebra I
    and an A in Biology: 24 grade points on 7 credits. *)
Definition halfway : database :=
  {| students := [emily; john];
     courses := [algebra; biology; chemistry; study_skills];
     enrollments := [enrollment 1 1 1 10 (Some Enrollment.B);
                     enrollment 2 1 2 11 (Some Enrollment.A);
                     enrollment 3 1 4 12 (Some Enrollment.D);
                     enrollment 4 2 1 10 (Some Enrollment.B);
                     enrollment 5 2 2 11 (Some Enrollment.A)] |}.

(** A school of thirty pupils, numbered from 1. *)
Definition two_digits (n : Z) : string :=
  String (ascii_of_nat (Z.to_nat (48 + n / 10)))
    (String (ascii_of_nat (Z.to_nat (48 + n mod 10))) "").

Definition pupil (n : Z) : Student.t :=
  {| Student.student_id := n; Student.first_name := "Pupil";
     Student.last_name := "Number " ++ two_digits n;
     Student.email := "pupil" ++ two_digits n ++ "@school.edu";
     Student.grade := 9 + n mod 4; Student.enrollment_date := 0 |}.

(** Every pupil takes Algebra I and Biology, the first six also
    Chemistry, with an A there.  Pupils 3, 6, 9, ... have two A; pupils
    1, 4, 7, ... a B in Algebra I and an A in Biology; pupils 2, 5, 8, ...
    an A in Algebra I and a B in Biology. *)
Definition pupil_enrollments (n : Z) : list Enrollment.t :=
  [enrollment (3 * n - 2) n 1 20
     (Some (if n mod 3 =? 1 then Enrollment.B else Enrollment.A));
   enrollment (3 * n - 1) n 2 21
     (Some (if n mod 3 =? 2 then Enrollment.B else Enrollment.A))]
  ++ (if n <=? 6 then [enrollment (3 * n) n 3 22 (Some Enrollment.A)]
      else []).

Definition numbers : list Z := map Z.of_nat (seq 1 30).

Definition crowd : database :=
  {| students := map pupil numbers;
     courses := [algebra; biology; chemistry; study_skills];
     enrollments := flat_map pupil_enrollments numbers |}.

(** The number the store reads from the text of a bound number, for the
    thresholds of the requests below: 1, 2 and 3.5 are written in full. *)
Definition as_written (q : Q) : Q := q.

(** A reading of a bound string as a number: its numeric prefix, else 0. *)
Definition number_of_string (s : string) : Q :=
  match Js.parseFloat (Js.Str s) with
  | Js.Finite q => q
  | _ => 0%Q
  end.

(** A pool that answers every call with the given rows. *)
Definition answering (rows : list Sql.row) : Pool.t := fun _ => Some rows.

(** A pool that finds no rows. *)
Definition no_rows : Pool.t := answering [].

(** Requests to student-performance, students-in-courses and
    top-performers. *)
Definition grade_10_request : Http.request :=
  Http.make [] [("grade", Js.Str "10")].
Definition grade_11_request : Http.request :=
  Http.make [] [("grade", Js.Str "11")].
Definition empty_grade_request : Http.request :=
  Http.make [] [("grade", Js.Str "")].
Definition empty_courseIds_request : Http.request :=
  Http.make [] [("courseIds", Js.Str "")].
Definition zero_thresholds_request : Http.request :=
  Http.make [] [("minCourses", Js.Str "0"); ("minGPA", Js.Str "0")].
Definition two_courses_request : Http.request :=
  Http.make [] [("minCourses", Js.Str "2"); ("minGPA", Js.Str "3.5")].

End Sample.

(** ** The failure messages of the handlers *)

Module Envelope.

Import App.

(** The [error] text of each handler's [catch] block. *)
Definition error_message (op : operation) : string :=
  match op with
  | StudentsByGrade => "Failed to fetch students"
  | StudentEnrollments => "Failed to fetch enrollments"
  | AllWithEnrollments => "Failed to fetch data"
  | StudentsPerGrade => "Failed to calculate analytics"
  | PopularCourses => "Failed to fetch popular courses"
  | StudentPerformance => "Failed to fetch performance data"
  | StudentsInCourses => "Failed to fetch students"
  | CourseDetails => "Failed to fetch course analytics"
  | TopPerformers => "Failed to fetch top performers"
  | Departments => "Failed to fetch department analytics"
  end.

(** A query value on which [.split] is not a function. *)
Definition has_no_split (v : Js.value) : Prop :=
  match v with
  | Js.Arr _ | Js.Obj => True
  | Js.Undefined | Js.Str _ => False
  end.

(** How many times a character occurs in a string. *)
Fixpoint occurrences (c : ascii) (s : string) : nat :=
  match s with
  | EmptyString => 0
  | String x rest => ((if Ascii.eqb x c then 1 else 0) + occurrences c rest)%nat
  end.

End Envelope.

(** ** The route table

    The [app.get] registrations of app.js in their order.  A path is the
    path of a GET request, given by its segments as received (before
    percent-decoding) and without the one trailing slash the framework
    tolerates; the framework matches literal segments without regard to
    ASCII case, lets a [:name] segment match any non-empty segment, and
    takes the first registered route that matches.  What that route
    captured is then percent-decoded: the handler finds the decoded
    values in [req.params], and when a captured segment does not decode
    the framework answers 400 itself and no handler runs. *)

Module Router.

Import App.

Inductive endpoint : Type :=
| Report (op : operation)
| HealthCheck
| Index.

Inductive segment : Type :=
| Lit (text : string)
| Param (name : string).

Definition routes : list (list segment * endpoint) :=
  [([Lit "api"; Lit "students"; Lit "grade"; Param "grade"],
    Report StudentsByGrade);
   ([Lit "api"; Lit "students"; Param "studentId"; Lit "enrollments"],
    Report StudentEnrollments);
   ([Lit "api"; Lit "students"; Lit "all-with-enrollments"],
    Report AllWithEnrollments);
   ([Lit "api"; Lit "analytics"; Lit "students-per-grade"],
    Report StudentsPerGrade);
   ([Lit "api"; Lit "courses"; Lit "popular"; Param "minEnrollments"],
    Report PopularCourses);
   ([Lit "api"; Lit "analytics"; Lit "student-performance"],
    Report StudentPerformance);
   ([Lit "api"; Lit "students"; Lit "in-courses"],
    Report StudentsInCourses);
   ([Lit "api"; Lit "analytics"; Lit "course-details"; Param "courseId"],
    Report CourseDetails);
   ([Lit "api"; Lit "analytics"; Lit "top-performers"],
    Report TopPerformers);
   ([Lit "api"; Lit "analytics"; Lit "departments"],
    Report Departments);
   ([Lit "health"], HealthCheck);
   ([], Index)].

Definition lower (c : ascii) : ascii :=
  let n := nat_of_ascii c in
  if ((65 <=? n) && (n <=? 90))%nat then ascii_of_nat (n + 32) else c.

Fixpoint lowercase (s : string) : string :=
  match s with
  | EmptyString => EmptyString
  | String c rest => String (lower c) (lowercase rest)
  end.

(** Equality up to ASCII case. *)
Definition same_text (a b : string) : bool :=
  String.eqb (lowercase a) (lowercase b).

(** The segments a pattern captures from a path, as received, when it
    matches. *)
Fixpoint match_path (pattern : list segment) (path : list string)
  : option (list (string * string)) :=
  match pattern, path with
  | [], [] => Some []
  | Lit text :: pattern', x :: path' =>
      if same_text text x then match_path pattern' path' else None
  | Param name :: pattern', x :: path' =>
      if String.eqb x "" then None
      else option_map (cons (name, x)) (match_path pattern' path')
  | _, _ => None
  end.

(** The first registered route that matches, with its captures; [None]
    when no route matches. *)
Fixpoint first_match (rs : list (list segment * endpoint)) (path : list string)
  : option (endpoint * list (string * string)) :=
  match rs with
  | [] => None
  | (pattern, e) :: rest =>
      match match_path pattern path with
      | Some captures => Some (e, captures)
      | None => first_match rest path
      end
  end.

(** The captures decoded into [req.params]; [None] when one of them does
    not decode. *)
Fixpoint decode_params (captures : list (string * string))
  : option (list (string * string)) :=
  match captures with
  | [] => Some []
  | (name, raw) :: rest =>
      match Js.decodeURIComponent raw, decode_params rest with
      | Some v, Some ps => Some ((name, v) :: ps)
      | _, _ => None
      end
  end.

(** What becomes of a request. *)
Inductive outcome : Type :=
| Served (e : endpoint) (params : list (string * string))
| BadRequest
| NoRoute.

Definition dispatch (path : list string) : outcome :=
  match first_match routes path with
  | None => NoRoute
  | Some (e, captures) =>
      match decode_params captures with
      | Some params => Served e params
      | None => BadRequest
      end
  end.

(** Whether two patterns can match one path: the same length and no
    position with two different literals. *)
Fixpoint overlap (p q : list segment) : bool :=
  match p, q with
  | [], [] => true
  | Lit a :: p', Lit b :: q' => same_text a b && overlap p' q'
  | _ :: p', _ :: q' => overlap p' q'
  | _, _ => false
  end.

(** The paths on which both students-by-grade and student-enrollments
    match. *)
Definition grade_enrollments_path (path : list string) : Prop :=
  exists a s g e,
    path = [a; s; g; e]
    /\ same_text "api" a = true /\ same_text "students" s = true
    /\ same_text "grade" g = true /\ same_text "enrollments" e = true.

End Router.

(** ** Start-up

    [initializeDatabase] and the start of the server, as the sequence of
    things they do.  What the environment decides is how each attempt to
    connect ends. *)

Module Startup.

(** How the [try] block of one attempt ends. *)
Inductive attempt : Type :=
| Connected
| QueryRejected
| CreatePoolThrew.

Inductive event : Type :=
| CreatePool
| TestQuery
| LogConnected
| LogFailure
| SetTimeout (ms : Z)
| Listen.

(** One run of [initializeDatabase]. *)
Definition initializeDatabase (a : attempt) : list event :=
  match a with
  | Connected => [CreatePool; TestQuery; LogConnected]
  | QueryRejected => [CreatePool; TestQuery; LogFailure; SetTimeout 5000]
  | CreatePoolThrew => [LogFailure; SetTimeout 5000]
  end.

Definition failed (a : attempt) : bool :=
  match a with Connected => false | _ => true end.

(** The runs started by the timers: each failed attempt has scheduled the
    next one. *)
Fixpoint retries (attempts : list attempt) : list event :=
  match attempts with
  | [] => []
  | a :: rest =>
      initializeDatabase a ++ (if failed a then retries rest else [])
  end.

(** [initializeDatabase().then(() => app.listen(...))]: the first run,
    then [listen] when its promise resolves (the [catch] makes it resolve
    also after a failure), then the runs started by the timers. *)
Definition start (attempts : list attempt) : list event :=
  match attempts with
  | [] => []
  | a :: rest =>
      initializeDatabase a ++ Listen :: (if failed a then retries rest else [])
  end.

Definition is_create (e : event) : bool :=
  match e with CreatePool => true | _ => false end.
Definition is_timeout (e : event) : bool :=
  match e with SetTimeout _ => true | _ => false end.
Definition is_listen (e : event) : bool :=
  match e with Listen => true | _ => false end.

End Startup.

(** ** Counting in the tables *)

Module Tables.

Import Schema.

(** The enrollments in a course, and those of a student. *)
Definition enrollments_in (db : database) (c : Course.t) : list Enrollment.t :=
  filter (fun e => Course.course_id c =? Enrollment.course_id e)
         (enrollments db).

Definition enrollments_of (db : database) (s : Student.t) : list Enrollment.t :=
  filter (fun e => Student.student_id s =? Enrollment.student_id e)
         (enrollments db).

(** A grade point: between 0 and 4. *)
Definition in_gpa_range (x : Q) : Prop := (0 <= x /\ x <= 4)%Q.

(** A row count as a number. *)
Definition count_Q (n : nat) : Q := inject_Z (Z.of_nat n).

(** The group key of a course in popular-courses, and the rows of its join
    that stem from one course. *)
Definition pop_course_key (c : Course.t) : PopularCourses.key :=
  (Course.course_id c, Course.course_name c, Course.credits c).

Definition pop_rows_of (db : database) (c : Course.t)
  : list PopularCourses.joined_row :=
  map (pair c) (enrollments_in db c).

(** The course an enrollment refers to. *)
Definition course_of (db : database) (e : Enrollment.t) : option Course.t :=
  find (fun c => Enrollment.course_id e =? Course.course_id c) (courses db).

(** Its credits; 0 for an enrollment without a course, which the foreign
    key excludes. *)
Definition credits_of (db : database) (e : Enrollment.t) : Z :=
  match course_of db e with
  | Some c => Course.credits c
  | None => 0
  end.

(** The enrollments of a student, each with its letter grade (none while
    in progress) and the credits of its course. *)
Definition transcript_of (db : database) (s : Student.t)
  : list (option Enrollment.letter * Z) :=
  map (fun e => (Enrollment.grade e, credits_of db e)) (enrollments_of db s).

(** The credits of all enrollments, graded or in progress. *)
Definition enrolled_credits (t : list (option Enrollment.letter * Z)) : Q :=
  fold_right (fun e acc => inject_Z (snd e) + acc)%Q 0%Q t.

(** The number of different courses a student is enrolled in. *)
Definition course_count (db : database) (s : Student.t) : Z :=
  Z.of_nat
    (length (nodup Z.eq_dec
               (map Enrollment.course_id (enrollments_of db s)))).

(** The weighted_gpa expression of top-performers,
    ROUND(SUM(CASE ... END) / SUM(c.credits), 2), on the enrollments of
    one student.  The quotient is taken exactly; the store keeps five
    decimals of it or more before it rounds to two, which gives the same
    two decimals as long as the credits are fewer than 1000. *)
Definition weighted_gpa_on (t : list (option Enrollment.letter * Z))
  : option Q :=
  Rel.ROUND2
    (Rel.div
       (Rel.SUM (map (fun e => Rel.weighted_points (fst e) (snd e)) t))
       (Rel.SUM (map (fun e => Some (inject_Z (snd e))) t))).

(** A row of top-performers is the row of a student: it has the columns
    of the student, the number of the student's courses and the
    weighted_gpa of the student's enrollments. *)
Definition top_row_of (db : database) (s : Student.t)
  (r : TopPerformers.result) : Prop :=
  TopPerformers.student_id r = Student.student_id s
  /\ TopPerformers.first_name r = Student.first_name s
  /\ TopPerformers.last_name r = Student.last_name s
  /\ TopPerformers.email r = Student.email s
  /\ TopPerformers.student_grade r = Student.grade s
  /\ TopPerformers.courses_completed r = course_count db s
  /\ TopPerformers.weighted_gpa r = weighted_gpa_on (transcript_of db s).

(** A student meets the thresholds of top-performers. *)
Definition meets_thresholds (db : database) (minCourses minGPA : Q)
  (s : Student.t) : Prop :=
  (minCourses <= inject_Z (course_count db s))%Q
  /\ exists g,
       weighted_gpa_on (transcript_of db s) = Some g /\ (minGPA <= g)%Q.

End Tables.

From Stdlib Require DecimalString.

(** ** The foreign keys of enrollments *)

Module References.

Import Schema.

(** FOREIGN KEY (student_id) REFERENCES students(student_id) *)
Definition has_student (db : database) (e : Enrollment.t) : bool :=
  existsb (fun s => Student.student_id s =? Enrollment.student_id e)
          (students db).

(** FOREIGN KEY (course_id) REFERENCES courses(course_id) *)
Definition has_course (db : database) (e : Enrollment.t) : bool :=
  existsb (fun c => Course.course_id c =? Enrollment.course_id e)
          (courses db).

Definition foreign_keys (db : database) : Prop :=
  Forall (fun e => has_student db e = true /\ has_course db e = true)
         (enrollments db).

(** The text of a CHAR(1) letter grade. *)
Definition letter_text (l : Enrollment.letter) : string :=
  match l with
  | Enrollment.A => "A"
  | Enrollment.B => "B"
  | Enrollment.C => "C"
  | Enrollment.D => "D"
  | Enrollment.F => "F"
  end.

End References.

(** ** The remaining report queries *)

(** ENDPOINT 2, [Template.student_enrollments_sql]. *)
Module StudentEnrollments.

Import Schema Rel.

Record result : Type := {
  student_id : Z;
  first_name : string;
  last_name : string;
  course_id : Z;
  course_name : string;
  credits : Z;
  enrollment_date : Z;
  grade : option Enrollment.letter
}.

Definition joined_row : Type := (Student.t * Enrollment.t) * Course.t.

(** ON s.student_id = e.student_id *)
Definition on_student (s : Student.t) (e : Enrollment.t) : bool :=
  Student.student_id s =? Enrollment.student_id e.

(** ON e.course_id = c.course_id *)
Definition on_course (se : Student.t * Enrollment.t) (c : Course.t) : bool :=
  Enrollment.course_id (snd se) =? Course.course_id c.

(** FROM students s INNER JOIN enrollments e ON s.student_id = e.student_id
    INNER JOIN courses c ON e.course_id = c.course_id *)
Definition joined (db : database) : list joined_row :=
  inner_join on_course
    (inner_join on_student (Schema.students db) (Schema.enrollments db))
    (Schema.courses db).

(** WHERE s.student_id = ?, the bound value read as a number. *)
Definition student_matches (studentId : Q) (s : Student.t) : bool :=
  Qeq_bool (inject_Z (Student.student_id s)) studentId.

Definition where_ (studentId : Q) (r : joined_row) : bool :=
  student_matches studentId (fst (fst r)).

Definition select (r : joined_row) : result :=
  let '((s, e), c) := r in
  {| student_id := Student.student_id s;
     first_name := Student.first_name s;
     last_name := Student.last_name s;
     course_id := Course.course_id c;
     course_name := Course.course_name c;
     credits := Course.credits c;
     enrollment_date := Enrollment.enrollment_date e;
     grade := Enrollment.grade e |}.

(** ORDER BY e.enrollment_date DESC *)
Definition le (a b : result) : bool :=
  enrollment_date b <=? enrollment_date a.

Definition selected (db : database) (studentId : Q) : list result :=
  map select (filter (where_ studentId) (joined db)).

Definition results (db : database) (studentId : Q) (rs : list result) : Prop :=
  ordered_by le (selected db studentId) rs.

Definition run (db : database) (studentId : Q) : list result :=
  order_by le (selected db studentId).

Definition to_row (r : result) : Sql.row :=
  [("student_id", int (student_id r));
   ("first_name", text (Some (first_name r)));
   ("last_name", text (Some (last_name r)));
   ("course_id", int (course_id r));
   ("course_name", text (Some (course_name r)));
   ("credits", int (credits r));
   ("enrollment_date", date (Some (enrollment_date r)));
   ("grade", text (option_map References.letter_text (grade r)))].

(** The enrollments the filter is about: those whose student_id equals
    the bound value. *)
Definition enrollments_with (db : database) (studentId : Q)
  : list Enrollment.t :=
  filter (fun e => Qeq_bool (inject_Z (Enrollment.student_id e)) studentId)
         (Schema.enrollments db).

End StudentEnrollments.

(** ENDPOINT 4, [Template.students_per_grade_sql]. *)
Module StudentsPerGrade.

Import Schema Rel.

Record result : Type := {
  grade : Z;
  student_count : Z;
  unique_emails : Z
}.

Section Collation.
(** Equality of two emails in the collation of the column
    (utf8mb4_unicode_ci). *)
Variable email_eqb : string -> string -> bool.

(** [COUNT(DISTINCT email)] *)
Definition COUNT_DISTINCT_email (l : list (option string)) : Z :=
  Z.of_nat (length (distinct email_eqb (non_null l))).

Definition select (g : Z * list Student.t) : result :=
  {| grade := fst g;
     student_count := COUNT_star (snd g);
     unique_emails :=
       COUNT_DISTINCT_email (map (fun s => Some (Student.email s)) (snd g)) |}.

(** FROM students GROUP BY grade *)
Definition grouped (db : database) : list result :=
  map select (group_by Student.grade Z.eqb (Schema.students db)).

(** ORDER BY grade *)
Definition le (a b : result) : bool := grade a <=? grade b.

Definition results (db : database) (rs : list result) : Prop :=
  ordered_by le (grouped db) rs.

Definition run (db : database) : list result := order_by le (grouped db).

End Collation.

Definition to_row (r : result) : Sql.row :=
  [("grade", int (grade r));
   ("student_count", int (student_count r));
   ("unique_emails", int (unique_emails r))].

(** The students of one grade level. *)
Definition students_in (db : database) (g : Z) : list Student.t :=
  filter (fun s => Student.grade s =? g) (Schema.students db).

(** UNIQUE (email): no two rows of the table have equal emails. *)
Definition unique_email (email_eqb : string -> string -> bool)
  (db : database) : Prop :=
  ForallOrdPairs
    (fun a b => email_eqb (Student.email a) (Student.email b) = false)
    (Schema.students db).

End StudentsPerGrade.

(** ENDPOINT 6, [App.student_performance_text]. *)
Module StudentPerformance.

Import Schema Rel.
Local Open Scope Q_scope.

Record result : Type := {
  student_id : Z;
  first_name : string;
  last_name : string;
  student_grade : Z;
  courses_taken : Z;
  total_credits : option Q;
  gpa : option Q;
  course_history : option string
}.

Definition joined_row : Type := (Student.t * Enrollment.t) * Course.t.

(** FROM students s INNER JOIN enrollments e ON s.student_id = e.student_id
    INNER JOIN courses c ON e.course_id = c.course_id *)
Definition joined (db : database) : list joined_row :=
  inner_join StudentEnrollments.on_course
    (inner_join StudentEnrollments.on_student
       (Schema.students db) (Schema.enrollments db))
    (Schema.courses db).

(** WHERE 1=1 [AND s.grade = ?]: [None] when the predicate is not spliced
    in, else the bound value read as a number. *)
Definition where_ (grade : option Q) (r : joined_row) : bool :=
  match grade with
  | None => true
  | Some g => Qeq_bool (inject_Z (Student.grade (fst (fst r)))) g
  end.

Definition key : Type := Z * string * string * Z.

(** GROUP BY s.student_id, s.first_name, s.last_name, s.grade *)
Definition student_key (s : Student.t) : key :=
  (Student.student_id s, Student.first_name s, Student.last_name s,
   Student.grade s).

Definition group_key (r : joined_row) : key := student_key (fst (fst r)).

Definition key_eqb (a b : key) : bool :=
  let '(id1, fn1, ln1, g1) := a in
  let '(id2, fn2, ln2, g2) := b in
  ((id1 =? id2)%Z && String.eqb fn1 fn2 && String.eqb ln1 ln2
   && (g1 =? g2)%Z)%bool.

Definition e_grade (r : joined_row) : option Enrollment.letter :=
  Enrollment.grade (snd (fst r)).

(** AVG(CASE ... END), in the select list and in HAVING. *)
Definition gpa_of (rows : list joined_row) : option Q :=
  AVG (map (fun r => grade_points (e_grade r)) rows).

(** CONCAT(c.course_name, ' (', e.grade, ')'): NULL when the grade is. *)
Definition history_entry (r : joined_row) : option string :=
  option_map
    (fun l =>
       (Course.course_name (snd r) ++ " (" ++ References.letter_text l ++ ")")%string)
    (e_grade r).

(** ORDER BY e.enrollment_date DESC, inside GROUP_CONCAT. *)
Definition later_first (a b : joined_row) : bool :=
  (Enrollment.enrollment_date (snd (fst b))
   <=? Enrollment.enrollment_date (snd (fst a)))%Z.

(** GROUP_CONCAT(... SEPARATOR ' | ') over the rows in the given order. *)
Definition history_of (ordered : list joined_row) : option string :=
  GROUP_CONCAT " | " (map history_entry ordered).

Definition select (g : key * list joined_row) (history : option string)
  : result :=
  let '(id, fn, ln, gr) := fst g in
  let rows := snd g in
  {| student_id := id;
     first_name := fn;
     last_name := ln;
     student_grade := gr;
     courses_taken :=
       COUNT (map (fun r => Some (Enrollment.enrollment_id (snd (fst r)))) rows);
     total_credits :=
       SUM (map (fun r => Some (inject_Z (Course.credits (snd r)))) rows);
     gpa := gpa_of rows;
     course_history := history |}.

(** The row of a group: the entries of course_history come latest first,
    in an order among equal dates that is the store's choice. *)
Definition row_of (g : key * list joined_row) (r : result) : Prop :=
  exists ordered,
    ordered_by later_first (snd g) ordered
    /\ r = select g (history_of ordered).

Definition run_row (g : key * list joined_row) : result :=
  select g (history_of (order_by later_first (snd g))).

Definition groups (db : database) (grade : option Q)
  : list (key * list joined_row) :=
  group_by group_key key_eqb (filter (where_ grade) (joined db)).

(** HAVING AVG(CASE ... END) >= ? *)
Definition having (minGPA : Q) (r : result) : bool :=
  holds (ge (gpa r) (Some minGPA)).

(** ORDER BY gpa DESC, total_credits DESC *)
Definition le (a b : result) : bool :=
  match compare_desc (gpa a) (gpa b) with
  | Lt => true
  | Gt => false
  | Eq => match compare_desc (total_credits a) (total_credits b) with
          | Gt => false
          | _ => true
          end
  end.

Definition results (db : database) (grade : option Q) (minGPA : Q)
  (rs : list result) : Prop :=
  exists rows,
    Forall2 row_of (groups db grade) rows
    /\ ordered_by le (filter (having minGPA) rows) rs.

Definition run (db : database) (grade : option Q) (minGPA : Q)
  : list result :=
  order_by le (filter (having minGPA) (map run_row (groups db grade))).

Definition to_row (r : result) : Sql.row :=
  [("student_id", int (student_id r));
   ("first_name", text (Some (first_name r)));
   ("last_name", text (Some (last_name r)));
   ("student_grade", int (student_grade r));
   ("courses_taken", int (courses_taken r));
   ("total_credits", dec (total_credits r));
   ("gpa", dec (gpa r));
   ("course_history", text (course_history r))].

(** A student none of whose enrollments has a grade yet. *)
Definition nothing_graded (db : database) (id : Z) : Prop :=
  forall e, In e (Schema.enrollments db) ->
    Enrollment.student_id e = id -> Enrollment.grade e = None.

End StudentPerformance.

(** ENDPOINT 10, [Template.departments_sql]. *)
Module Departments.

Import Schema Rel.
Local Open Scope Q_scope.

Record result : Type := {
  department : string;
  total_courses : Z;
  total_students : Z;
  total_credits_offered : option Q;
  avg_credits_per_course : option Q;
  total_enrollments : Z;
  avg_enrollments_per_course : option Q;
  department_avg_gpa : option Q;
  grade_distribution : option string;
  success_rate_percent : option Q
}.

Definition joined_row : Type := Course.t * option Enrollment.t.

(** The rows of the join that stem from one course: one per enrollment
    in it, or a single NULL-padded row. *)
Definition rows_of (db : database) (c : Course.t) : list joined_row :=
  left_join CourseDetails.on_course [c] (Schema.enrollments db).

(** FROM courses c LEFT JOIN enrollments e ON c.course_id = e.course_id *)
Definition joined (db : database) : list joined_row :=
  left_join CourseDetails.on_course (Schema.courses db) (Schema.enrollments db).

Definition e_grade (r : joined_row) : option Enrollment.letter :=
  match snd r with
  | Some e => Enrollment.grade e
  | None => None
  end.

Definition c_credits (r : joined_row) : option Q :=
  Some (inject_Z (Course.credits (fst r))).

(** [e.grade IN ('A', 'B', 'C')] *)
Definition grade_in (g : option Enrollment.letter)
  (ls : list Enrollment.letter) : option bool :=
  option_map (fun x => existsb (letter_eqb x) ls) g.

(** [CASE WHEN e.grade IN ('A', 'B', 'C') THEN 1 ELSE 0 END] *)
Definition one_if_in (g : option Enrollment.letter)
  (ls : list Enrollment.letter) : option Q :=
  CASE [(grade_in g ls, Some 1)] (Some 0).

Definition count_of (l : Enrollment.letter) (rows : list joined_row)
  : option Q :=
  SUM (map (fun r => one_if (e_grade r) l) rows).

(** The text of a whole number inside CONCAT. *)
Definition number_text (q : option Q) : option string :=
  option_map
    (fun x => DecimalString.NilZero.string_of_int (Z.to_int (Qfloor x))) q.

(** [CONCAT(a, b, ...)]: NULL when an argument is. *)
Fixpoint CONCAT (parts : list (option string)) : option string :=
  match parts with
  | [] => Some ""%string
  | None :: _ => None
  | Some s :: rest => option_map (String.append s) (CONCAT rest)
  end.

Definition enrollment_ids (rows : list joined_row) : list (option Z) :=
  map (fun r => option_map Enrollment.enrollment_id (snd r)) rows.

Definition course_ids (rows : list joined_row) : list (option Z) :=
  map (fun r => Some (Course.course_id (fst r))) rows.

Definition success_rate_of (rows : list joined_row) : option Q :=
  ROUND2
    (div (mul (SUM (map (fun r =>
                           one_if_in (e_grade r)
                             [Enrollment.A; Enrollment.B; Enrollment.C])
                        rows))
              (Some 100.0))
         (Some (inject_Z (COUNT (enrollment_ids rows))))).

Definition select (g : string * list joined_row) : result :=
  let rows := snd g in
  {| department := fst g;
     total_courses := COUNT_DISTINCT (course_ids rows);
     total_students :=
       COUNT_DISTINCT
         (map (fun r => option_map Enrollment.student_id (snd r)) rows);
     total_credits_offered := SUM (map c_credits rows);
     avg_credits_per_course := AVG (map c_credits rows);
     total_enrollments := COUNT (enrollment_ids rows);
     avg_enrollments_per_course :=
       ROUND2
         (div (mul (Some (inject_Z (COUNT (enrollment_ids rows)))) (Some 1.0))
              (Some (inject_Z (COUNT_DISTINCT (course_ids rows)))));
     department_avg_gpa :=
       ROUND2 (AVG (map (fun r => grade_points (e_grade r)) rows));
     grade_distribution :=
       CONCAT [Some "A:"%string; number_text (count_of Enrollment.A rows);
               Some " "%string;
               Some "B:"%string; number_text (count_of Enrollment.B rows);
               Some " "%string;
               Some "C:"%string; number_text (count_of Enrollment.C rows)];
     success_rate_percent := success_rate_of rows |}.

(** HAVING COUNT(e.enrollment_id) > 0 *)
Definition having (r : result) : bool := (0 <? total_enrollments r)%Z.

(** ORDER BY total_enrollments DESC, department_avg_gpa DESC *)
Definition le (a b : result) : bool :=
  match (total_enrollments b ?= total_enrollments a)%Z with
  | Lt => true
  | Gt => false
  | Eq => match compare_desc (department_avg_gpa a) (department_avg_gpa b) with
          | Gt => false
          | _ => true
          end
  end.

Section Collation.
(** Equality of two department names in the collation of the column
    (utf8mb4_unicode_ci).  Of the spellings of a group the first in table
    order stands for the one the store shows. *)
Variable department_eqb : string -> string -> bool.

(** The courses of a department. *)
Definition courses_of (db : database) (d : string) : list Course.t :=
  filter (fun c => department_eqb (Course.department c) d)
         (Schema.courses db).

(** GROUP BY c.department *)
Definition grouped (db : database) : list result :=
  map select
      (group_by (fun r => Course.department (fst r)) department_eqb
                (joined db)).

Definition qualifying (db : database) : list result :=
  filter having (grouped db).

Definition results (db : database) (rs : list result) : Prop :=
  ordered_by le (qualifying db) rs.

Definition run (db : database) : list result := order_by le (qualifying db).

End Collation.

Definition to_row (r : result) : Sql.row :=
  [("department", text (Some (department r)));
   ("total_courses", int (total_courses r));
   ("total_students", int (total_students r));
   ("total_credits_offered", dec (total_credits_offered r));
   ("avg_credits_per_course", dec (avg_credits_per_course r));
   ("total_enrollments", int (total_enrollments r));
   ("avg_enrollments_per_course", dec (avg_enrollments_per_course r));
   ("department_avg_gpa", dec (department_avg_gpa r));
   ("grade_distribution", text (grade_distribution r));
   ("success_rate_percent", dec (success_rate_percent r))].

(** The number of rows a course contributes to the join. *)
Definition weight (db : database) (c : Course.t) : nat :=
  Nat.max 1 (length (Tables.enrollments_in db c)).

(** The credits of the courses, each taken as often as the course has
    rows in the join. *)
Definition credits_by_row (db : database) (cs : list Course.t) : Q :=
  total (map (fun c => inject_Z (Course.credits c)
                       * inject_Z (Z.of_nat (weight db c))) cs).

End Departments.

(** ENDPOINT 7, [Template.students_in_courses_sql]. *)
Module StudentsInCourses.

Import Schema Rel.

Record result : Type := {
  student_id : Z;
  first_name : string;
  last_name : string;
  email : string;
  grade : Z;
  matching_course_count : Z
}.

(** [course_id IN (?)]: the bound array is spliced in as a list of
    values, each read as a number when compared with the column. *)
Definition course_listed (ids : list Q) (e : Enrollment.t) : bool :=
  existsb (fun id => Qeq_bool (inject_Z (Enrollment.course_id e)) id) ids.

(** The enrollments of a student in the listed courses. *)
Definition matching (db : database) (ids : list Q) (s : Student.t)
  : list Enrollment.t :=
  filter (fun e =>
            (Enrollment.student_id e =? Student.student_id s)
            && course_listed ids e)
         (Schema.enrollments db).

(** (SELECT COUNT( * ) FROM enrollments e2
     WHERE e2.student_id = s.student_id AND e2.course_id IN (?)) *)
Definition matching_count (db : database) (ids : list Q) (s : Student.t) : Z :=
  COUNT_star (matching db ids s).

(** SELECT DISTINCT student_id FROM enrollments WHERE course_id IN (?) *)
Definition enrolled_ids (db : database) (ids : list Q) : list Z :=
  distinct Z.eqb
    (map Enrollment.student_id
         (filter (course_listed ids) (Schema.enrollments db))).

(** WHERE s.student_id IN (...) *)
Definition where_ (db : database) (ids : list Q) (s : Student.t) : bool :=
  existsb (Z.eqb (Student.student_id s)) (enrolled_ids db ids).

(** The select list; [counted] is the array bound to the first
    placeholder. *)
Definition select (db : database) (counted : list Q) (s : Student.t)
  : result :=
  {| student_id := Student.student_id s;
     first_name := Student.first_name s;
     last_name := Student.last_name s;
     email := Student.email s;
     grade := Student.grade s;
     matching_course_count := matching_count db counted s |}.

Section Collation.
(** Equality and order of strings in the collation of the columns
    (utf8mb4_unicode_ci). *)
Variable text_eqb : string -> string -> bool.
Variable collation_leb : string -> string -> bool.

(** Two rows that SELECT DISTINCT takes for the same. *)
Definition row_eqb (a b : result) : bool :=
  (student_id a =? student_id b)
  && text_eqb (first_name a) (first_name b)
  && text_eqb (last_name a) (last_name b)
  && text_eqb (email a) (email b)
  && (grade a =? grade b)
  && (matching_course_count a =? matching_course_count b).

(** SELECT DISTINCT ... FROM students s WHERE ...; [counted] and [listed]
    are the arrays bound to the two placeholders, in their order. *)
Definition selected (db : database) (counted listed : list Q) : list result :=
  distinct row_eqb
    (map (select db counted) (filter (where_ db listed) (Schema.students db))).

(** ORDER BY matching_course_count DESC, s.last_name *)
Definition le (a b : result) : bool :=
  match matching_course_count b ?= matching_course_count a with
  | Lt => true
  | Gt => false
  | Eq => collation_leb (last_name a) (last_name b)
  end.

Definition results (db : database) (counted listed : list Q)
  (rs : list result) : Prop :=
  ordered_by le (selected db counted listed) rs.

Definition run (db : database) (counted listed : list Q) : list result :=
  order_by le (selected db counted listed).

End Collation.

Definition to_row (r : result) : Sql.row :=
  [("student_id", int (student_id r));
   ("first_name", text (Some (first_name r)));
   ("last_name", text (Some (last_name r)));
   ("email", text (Some (email r)));
   ("grade", int (grade r));
   ("matching_course_count", int (matching_course_count r))].

(** The students with an enrollment in a listed course. *)
Definition enrolled (db : database) (ids : list Q) : list Student.t :=
  filter (fun s => 0 <? matching_count db ids s) (Schema.students db).

End StudentsInCourses.

(** * Properties of the handlers *)

(** Unfolds a handler down to the reply of the pool. *)
Ltac run_handler :=
  unfold App.handle, App.students_by_grade, App.student_enrollments,
    App.all_with_enrollments, App.students_per_grade, App.popular_courses,
    App.student_performance, App.students_in_courses, App.course_details,
    App.top_performers, App.departments,
    Pool.try_catch, Pool.bind, Pool.query, Pool.ret, Pool.throw,
    App.split_or_empty; simpl.

Section Handlers.

Import Js Http Pool App.

(** ** What a handler sends to the pool *)

(** A handler that awaits one query and then answers makes exactly that
    call, whatever the pool replies. *)
Lemma calls_query_ret (text : string) (vs : list param)
  (finish : list Sql.row -> response) (h : response) pool :
  calls (try_catch (bind (Pool.query text vs) (fun rows => ret (finish rows))) h pool)
  = [{| sql := text; values := vs |}].
Proof.
  unfold try_catch, bind, Pool.query, ret.
  destruct (pool _); reflexivity.
Qed.

Lemma student_performance_calls req pool :
  calls (student_performance req pool)
  = [{| sql := student_performance_text (truthy (Http.query req "grade"));
        values :=
          if truthy (Http.query req "grade")
          then [PVal (Http.query req "grade");
                PNum (or_number (parseFloat (Http.query req "minGPA")) (Finite 0))]
          else [PNum (or_number (parseFloat (Http.query req "minGPA")) (Finite 0))] |}].
Proof.
  unfold student_performance. apply calls_query_ret.
Qed.

Lemma course_details_calls req pool :
  calls (course_details req pool)
  = [{| sql := Template.course_details_sql;
        values := [PVal (Str (params req "courseId"))] |}].
Proof.
  run_handler. destruct (pool _) as [[|r rs]|]; reflexivity.
Qed.

Lemma split_not_empty sep s : split sep s <> [].
Proof.
  destruct s as [|c rest]; simpl; [discriminate|].
  destruct (Ascii.eqb c sep); [discriminate|].
  destruct (split sep rest); discriminate.
Qed.

(** An absent [courseIds] is answered with 400 and no call is made. *)
Lemma absent_courseIds_is_rejected req pool :
  Http.query req "courseIds" = Undefined ->
  students_in_courses req pool
  = {| calls := [];
       reply := res_status_json 400
                  (failure "Please provide courseIds as comma-separated values") |}.
Proof.
  intros H. run_handler. rewrite H. reflexivity.
Qed.

(** A string [courseIds] is split at the commas and the list is bound
    twice. *)
Lemma courseIds_list_is_bound_twice req pool ids :
  Http.query req "courseIds" = Str ids ->
  calls (students_in_courses req pool)
  = [{| sql := Template.students_in_courses_sql;
        values := [PVal (Arr (split "," ids)); PVal (Arr (split "," ids))] |}].
Proof.
  intros H. run_handler. rewrite H. simpl.
  pose proof (split_not_empty "," ids) as Hne.
  destruct (split "," ids) as [|x xs]; [contradiction|]. simpl.
  destruct (pool _); reflexivity.
Qed.

Lemma students_in_courses_calls req pool c :
  In c (calls (students_in_courses req pool)) ->
  sql c = Template.students_in_courses_sql.
Proof.
  destruct (Http.query req "courseIds") as [|ids| |] eqn:E.
  - rewrite absent_courseIds_is_rejected by assumption. intros [].
  - rewrite (courseIds_list_is_bound_twice _ _ _ E). intros [<-|[]]. reflexivity.
  - run_handler. rewrite E. intros [].
  - run_handler. rewrite E. intros [].
Qed.

Lemma call_text op req pool c :
  In c (calls (handle op req pool)) ->
  sql c = template op (truthy (Http.query req "grade")).
Proof.
  destruct op; simpl.
  1-5, 9-10: unfold students_by_grade, student_enrollments,
    all_with_enrollments, students_per_grade, popular_courses, top_performers,
    departments; rewrite calls_query_ret; intros [<-|[]]; reflexivity.
  - rewrite student_performance_calls. intros [<-|[]]. reflexivity.
  - apply students_in_courses_calls.
  - rewrite course_details_calls. intros [<-|[]]. reflexivity.
Qed.

(** Every call binds as many values as its text has placeholders. *)
Lemma bound_values_match_placeholders op req pool c :
  In c (calls (handle op req pool)) ->
  Template.placeholders (sql c) = length (values c).
Proof.
  destruct op; simpl.
  1-5, 9-10: unfold students_by_grade, student_enrollments,
    all_with_enrollments, students_per_grade, popular_courses, top_performers,
    departments; rewrite calls_query_ret; intros [<-|[]]; reflexivity.
  - rewrite student_performance_calls. intros [<-|[]].
    destruct (truthy (Http.query req "grade")); reflexivity.
  - destruct (Http.query req "courseIds") as [|ids| |] eqn:E.
    + rewrite absent_courseIds_is_rejected by assumption. intros [].
    + rewrite (courseIds_list_is_bound_twice _ _ _ E). intros [<-|[]].
      reflexivity.
    + run_handler. rewrite E. intros [].
    + run_handler. rewrite E. intros [].
  - rewrite course_details_calls. intros [<-|[]]. reflexivity.
Qed.

(** C1 (amended).  For each of the ten report operations, the text sent to
    the pool is the operation's static template whatever the values of the
    path and query parameters; the one variation is the grade predicate of
    student-performance, which is present exactly when the grade parameter
    is truthy (supplied and not the empty string).  Two requests to one
    operation therefore send the same text, provided that for
    student-performance their grade values are both truthy or both falsy. *)
Theorem query_text_ignores_parameter_values
  op req1 req2 pool1 pool2 c1 c2 :
  (op = StudentPerformance ->
   truthy (Http.query req1 "grade") = truthy (Http.query req2 "grade")) ->
  In c1 (calls (handle op req1 pool1)) ->
  In c2 (calls (handle op req2 pool2)) ->
  sql c1 = sql c2
  /\ sql c1 = template op (truthy (Http.query req1 "grade")).
Proof.
  intros Hgrade H1 H2.
  apply call_text in H1. apply call_text in H2.
  split; [|exact H1].
  rewrite H1, H2.
  destruct op; try reflexivity.
  simpl. rewrite (Hgrade eq_refl). reflexivity.
Qed.

(** C2 (amended).  Student-performance makes one call.  When the grade
    parameter is absent or the empty string, its text is the template
    without the predicate and its only bound value is minGPA; when grade is
    any other value, the text has the predicate "AND s.grade = ?" spliced in
    and the bound values are grade, then minGPA.  The head of the template
    has no placeholder, the predicate has one and the tail (the HAVING
    threshold) has one, so the values follow the order of the placeholders. *)
Theorem student_performance_binds_in_placeholder_order req pool :
  let grade := Http.query req "grade" in
  let minGPA := or_number (parseFloat (Http.query req "minGPA")) (Finite 0) in
  calls (student_performance req pool)
  = (if truthy grade
     then [{| sql := Template.student_performance_sql_head
                     ++ Template.grade_predicate
                     ++ Template.student_performance_sql_tail;
              values := [PVal grade; PNum minGPA] |}]
     else [{| sql := Template.student_performance_sql_head
                     ++ Template.student_performance_sql_tail;
              values := [PNum minGPA] |}])
  /\ Template.placeholders Template.student_performance_sql_head = 0%nat
  /\ Template.placeholders Template.grade_predicate = 1%nat
  /\ Template.placeholders Template.student_performance_sql_tail = 1%nat
  /\ (truthy grade = false <-> grade = Undefined \/ grade = Str "").
Proof.
  intros grade minGPA. split; [|repeat split; try reflexivity].
  - rewrite student_performance_calls. fold grade. fold minGPA.
    unfold student_performance_text. destruct (truthy grade); reflexivity.
  - destruct grade as [|s| |]; simpl; try discriminate; auto.
    destruct s; simpl; [auto|discriminate].
  - intros [->| ->]; reflexivity.
Qed.

Lemma query_make_single ps k0 v k :
  k <> k0 -> Http.query (make ps [(k0, v)]) k = Undefined.
Proof.
  intros H. unfold make, lookup. cbn [Http.query find fst].
  destruct (String.eqb_spec k0 k) as [E|_]; [|reflexivity].
  symmetry in E. contradiction.
Qed.

(** Two student-performance requests with grades "10" and "11" send the
    same text. *)
Lemma query_text_ignores_parameter_values_witness :
  sql {| sql := student_performance_text true;
         values := [PVal (Str "10"); PNum (Finite 0)] |}
  = sql {| sql := student_performance_text true;
           values := [PVal (Str "11"); PNum (Finite 0)] |}
  /\ sql {| sql := student_performance_text true;
            values := [PVal (Str "10"); PNum (Finite 0)] |}
     = template StudentPerformance true.
Proof.
  apply (query_text_ignores_parameter_values StudentPerformance
           Sample.grade_10_request Sample.grade_11_request Sample.no_rows Sample.no_rows).
  - intros _. reflexivity.
  - left. reflexivity.
  - left. reflexivity.
Defined.

(** C1 as stated fails: two student-performance requests that both supply
    grade and differ only in its value ("" and "10") send different
    texts. *)
Lemma query_text_differs_for_empty_grade :
  Http.query Sample.empty_grade_request "grade" = Str ""
  /\ Http.query Sample.grade_10_request "grade" = Str "10"
  /\ (forall k, k <> "grade" ->
        Http.query Sample.empty_grade_request k = Http.query Sample.grade_10_request k)
  /\ (forall k, params Sample.empty_grade_request k = params Sample.grade_10_request k)
  /\ (forall pool c1 c2,
        In c1 (calls (handle StudentPerformance Sample.empty_grade_request pool)) ->
        In c2 (calls (handle StudentPerformance Sample.grade_10_request pool)) ->
        sql c1 <> sql c2).
Proof.
  split; [reflexivity|]. split; [reflexivity|].
  split; [|split; [reflexivity|]].
  - intros k Hk. unfold Sample.empty_grade_request, Sample.grade_10_request.
    rewrite !query_make_single by exact Hk. reflexivity.
  - intros pool c1 c2 H1 H2 E.
    apply call_text in H1. apply call_text in H2.
    rewrite H1, H2 in E.
    apply (f_equal String.length) in E. vm_compute in E. discriminate.
Qed.

(** C2 as stated fails: with grade supplied as the empty string the call
    has no grade predicate and binds minGPA alone. *)
Lemma supplied_empty_grade_binds_minGPA_only :
  Http.query Sample.empty_grade_request "grade" = Str ""
  /\ (forall pool,
        calls (student_performance Sample.empty_grade_request pool)
        = [{| sql := Template.student_performance_sql_head
                     ++ Template.student_performance_sql_tail;
              values := [PNum (Finite 0)] |}])
  /\ Template.placeholders (Template.student_performance_sql_head
                            ++ Template.student_performance_sql_tail) = 1%nat.
Proof.
  repeat split.
  intros pool. rewrite student_performance_calls. reflexivity.
Qed.

(** C3, at the input where the code departs from it: with
    [?courseIds=] the split yields the one-element list [[""]], the 400
    guard does not fire, and the query is sent with that list bound
    twice. *)
Theorem empty_courseIds_value_reaches_the_store :
  Http.query Sample.empty_courseIds_request "courseIds" = Str ""
  /\ (forall pool,
        calls (students_in_courses Sample.empty_courseIds_request pool)
        = [{| sql := Template.students_in_courses_sql;
              values := [PVal (Arr [""]); PVal (Arr [""])] |}]
        /\ status (reply (students_in_courses Sample.empty_courseIds_request pool))
           <> 400).
Proof.
  split; [reflexivity|]. intros pool. split.
  - apply (courseIds_list_is_bound_twice Sample.empty_courseIds_request pool "").
    reflexivity.
  - run_handler. destruct (pool _); simpl; discriminate.
Qed.

(** ** The thresholds of top-performers *)

Lemma or_number_default n d : is_zero_or_NaN n -> or_number n d = d.
Proof.
  destruct n as [|neg|q]; simpl; intros H; try reflexivity; try contradiction.
  unfold or_number. simpl.
  apply Qeq_bool_iff in H. rewrite H. reflexivity.
Qed.

Lemma or_number_not_zero n d :
  ~ is_zero_or_NaN d -> ~ is_zero_or_NaN (or_number n d).
Proof.
  intros Hd. unfold or_number.
  destruct (truthy_number n) eqn:E; [|exact Hd].
  destruct n as [|neg|q]; simpl in *; try discriminate; try tauto.
  intros H. apply Qeq_bool_iff in H. rewrite H in E. discriminate.
Qed.

(** C9.  In top-performers a minCourses value that parses to 0 or NaN is
    replaced by 3 and a minGPA value that parses to 0 or NaN by 3.5; the
    thresholds bound to the query are therefore never zero, and
    [?minGPA=0] is handled exactly as a request without minGPA. *)
Theorem top_performers_thresholds_default_when_falsy :
  (forall req, is_zero_or_NaN (parseInt (Http.query req "minCourses")) ->
     minCourses req = Finite 3)
  /\ (forall req, is_zero_or_NaN (parseFloat (Http.query req "minGPA")) ->
        minGPA req = Finite 3.5)
  /\ (forall req pool,
        calls (top_performers req pool)
        = [{| sql := Template.top_performers_sql;
              values := [PNum (minCourses req); PNum (minGPA req)] |}]
        /\ ~ is_zero_or_NaN (minCourses req)
        /\ ~ is_zero_or_NaN (minGPA req))
  /\ (forall req pool,
        top_performers (with_query req "minGPA" (Str "0")) pool
        = top_performers (with_query req "minGPA" Undefined) pool).
Proof.
  split; [|split; [|split]].
  - intros req H. apply or_number_default, H.
  - intros req H. apply or_number_default, H.
  - intros req pool. split; [|split].
    + unfold top_performers. apply calls_query_ret.
    + apply or_number_not_zero. simpl. discriminate.
    + apply or_number_not_zero. simpl. discriminate.
  - intros req pool. reflexivity.
Qed.

(** [?minCourses=0&minGPA=0] is served with the thresholds 3 and 3.5. *)
Lemma top_performers_thresholds_default_when_falsy_witness :
  minCourses Sample.zero_thresholds_request = Finite 3
  /\ minGPA Sample.zero_thresholds_request = Finite 3.5.
Proof.
  split.
  - apply (proj1 top_performers_thresholds_default_when_falsy).
    vm_compute. reflexivity.
  - apply (proj1 (proj2 top_performers_thresholds_default_when_falsy)).
    vm_compute. reflexivity.
Defined.

(** ** The success envelope *)

(** C10.  Whenever the body of a response has a count field, the handler
    has made one call, the pool has answered it with rows, the data field
    of the same body holds exactly those rows, in their order, and count
    is their number.  And every operation but students-per-grade and
    course-details, whose envelopes have no count, answers a call that
    returned rows with such a body. *)
Theorem count_is_number_of_data_rows op req pool :
  (forall c,
     field "count" (body (reply (handle op req pool))) = Some c ->
     exists call rows,
       calls (handle op req pool) = [call]
       /\ pool call = Some rows
       /\ field "data" (body (reply (handle op req pool))) = Some (JRows rows)
       /\ c = JNum (of_nat (length rows)))
  /\ (op <> StudentsPerGrade -> op <> CourseDetails ->
      forall call rows,
        In call (calls (handle op req pool)) -> pool call = Some rows ->
        field "count" (body (reply (handle op req pool)))
        = Some (JNum (of_nat (length rows)))
        /\ field "data" (body (reply (handle op req pool)))
           = Some (JRows rows)).
Proof.
  split.
  - intros c. destruct op; run_handler.
    1-6, 9-10: destruct (pool _) as [rows|] eqn:E; cbn; intros H;
      try discriminate; inversion H; subst;
      eexists; exists rows; repeat split; exact E.
    + destruct (Http.query req "courseIds") as [|ids| |]; cbn;
        try discriminate.
      destruct (length (split "," ids)); cbn; [discriminate|].
      destruct (pool _) as [rows|] eqn:E; cbn; intros H; try discriminate;
        inversion H; subst; eexists; exists rows; repeat split; exact E.
    + destruct (pool _) as [[|r rows]|]; cbn; discriminate.
  - intros Hper Hdet call rows. destruct op; try contradiction; run_handler.
    1-5, 7-8: destruct (pool _) as [rows'|] eqn:E; cbn;
      intros [<-|[]] H; rewrite E in H; inversion H; subst;
      split; reflexivity.
    destruct (Http.query req "courseIds") as [|ids| |]; cbn;
      try contradiction.
    destruct (length (split "," ids)); cbn; [contradiction|].
    destruct (pool _) as [rows'|] eqn:E; cbn;
      intros [<-|[]] H; rewrite E in H; inversion H; subst;
      split; reflexivity.
Qed.

(** Students-by-grade against a pool that returns two rows: count is 2
    and data holds the two rows. *)
Lemma count_is_number_of_data_rows_witness :
  exists call rows,
    calls (handle StudentsByGrade Sample.grade_10_request
             (Sample.answering [[("student_id", Sql.Int 2)];
                                [("student_id", Sql.Int 5)]]))
    = [call]
    /\ Sample.answering [[("student_id", Sql.Int 2)];
                         [("student_id", Sql.Int 5)]] call
       = Some rows
    /\ field "data"
         (body (reply (handle StudentsByGrade Sample.grade_10_request
                         (Sample.answering [[("student_id", Sql.Int 2)];
                                            [("student_id", Sql.Int 5)]]))))
       = Some (JRows rows)
    /\ JNum (of_nat 2) = JNum (of_nat (length rows)).
Proof.
  apply (proj1 (count_is_number_of_data_rows StudentsByGrade
                  Sample.grade_10_request
                  (Sample.answering [[("student_id", Sql.Int 2)];
                                     [("student_id", Sql.Int 5)]]))).
  reflexivity.
Defined.

End Handlers.

(** * Properties of the queries *)

(** ** Joins and grouping *)

Section FilterFacts.

Context {A : Type}.

Lemma filter_all (p : A -> bool) (l : list A) :
  (forall a, In a l -> p a = true) -> filter p l = l.
Proof.
  induction l as [|a l IH]; simpl; intros H; [reflexivity|].
  rewrite (H a (or_introl eq_refl)), IH; auto.
Qed.

Lemma filter_none (p : A -> bool) (l : list A) :
  (forall a, In a l -> p a = false) -> filter p l = [].
Proof.
  induction l as [|a l IH]; simpl; intros H; [reflexivity|].
  rewrite (H a (or_introl eq_refl)), IH; auto.
Qed.

End FilterFacts.

Section ListFacts.

Context {A B C : Type}.

Lemma flat_map_flat_map (f : B -> list C) (g : A -> list B) (l : list A) :
  flat_map f (flat_map g l) = flat_map (fun x => flat_map f (g x)) l.
Proof.
  induction l as [|a l IH]; simpl; [reflexivity|].
  rewrite flat_map_app, IH. reflexivity.
Qed.

(** A filter that is constant on each block selects whole blocks. *)
Lemma filter_flat_map (p : B -> bool) (q : A -> bool) (f : A -> list B)
  (l : list A) :
  (forall a b, In a l -> In b (f a) -> p b = q a) ->
  filter p (flat_map f l) = flat_map f (filter q l).
Proof.
  induction l as [|a l IH]; simpl; intros H; [reflexivity|].
  rewrite filter_app, IH by (intros; apply H; auto).
  destruct (q a) eqn:E; simpl.
  - rewrite filter_all; [reflexivity|].
    intros b Hb. rewrite (H a b); auto.
  - rewrite filter_none; [reflexivity|].
    intros b Hb. rewrite (H a b); auto.
Qed.

Lemma NoDup_map_finer (f : A -> B) (g : A -> C) (l : list A) :
  (forall x y, g x = g y -> f x = f y) ->
  NoDup (map f l) -> NoDup (map g l).
Proof.
  intros Hfg. induction l as [|a l IH]; simpl; intros H; [constructor|].
  inversion H as [|? ? Hnotin Hnodup]; subst. constructor; [|auto].
  intros Hin. apply in_map_iff in Hin as (y & Hy & Hin).
  apply Hnotin. rewrite <- (Hfg _ _ Hy). apply in_map, Hin.
Qed.

Lemma NoDup_map_injective (f : A -> B) (l : list A) x y :
  NoDup (map f l) -> In x l -> In y l -> f x = f y -> x = y.
Proof.
  induction l as [|a l IH]; simpl; intros H Hx Hy E; [contradiction|].
  inversion H as [|? ? Hnotin Hnodup]; subst.
  destruct Hx as [->|Hx], Hy as [->|Hy]; auto.
  - exfalso. apply Hnotin. rewrite E. apply in_map, Hy.
  - exfalso. apply Hnotin. rewrite <- E. apply in_map, Hx.
Qed.

End ListFacts.

Section GroupFacts.

Import Rel.
Context {Row K : Type}.
Variable key : Row -> K.
Variable eqb : K -> K -> bool.
Hypothesis eqb_eq : forall a b, eqb a b = true <-> a = b.

Lemma eqb_refl_key k : eqb k k = true.
Proof. apply eqb_eq. reflexivity. Qed.

Lemma distinct_In k l : In k (distinct eqb l) -> In k l.
Proof.
  induction l as [|a l IH]; simpl; [auto|].
  intros [->|H]; [auto|]. apply filter_In in H as [H _]. auto.
Qed.

Lemma filter_other_keys k l :
  ~ In k l -> filter (fun k' => negb (eqb k k')) l = l.
Proof.
  intros H. apply filter_all. intros a Ha.
  destruct (eqb k a) eqn:E; [|reflexivity].
  apply eqb_eq in E. subst. contradiction.
Qed.

(** Leading repetitions of a key that does not occur later collapse to
    one. *)
Lemma distinct_leading k n l :
  ~ In k l ->
  filter (fun k' => negb (eqb k k')) (distinct eqb (repeat k n ++ l))
  = distinct eqb l.
Proof.
  intros H. induction n as [|n IH]; simpl.
  - apply filter_other_keys. intros Hin. apply H, distinct_In, Hin.
  - rewrite eqb_refl_key. simpl. rewrite IH.
    apply filter_other_keys. intros Hin. apply H, distinct_In, Hin.
Qed.

Lemma map_key_block (rows : list Row) k :
  (forall r, In r rows -> key r = k) ->
  map key rows = repeat k (length rows).
Proof.
  induction rows as [|r rows IH]; simpl; intros H; [reflexivity|].
  rewrite (H r), IH; auto.
Qed.

(** A non-empty run of rows with one key, followed by rows with other
    keys, is the first group. *)
Lemma group_by_app_block (block rest : list Row) k :
  block <> [] ->
  (forall r, In r block -> key r = k) ->
  (forall r, In r rest -> key r <> k) ->
  group_by key eqb (block ++ rest) = (k, block) :: group_by key eqb rest.
Proof.
  intros Hne Hblock Hrest. unfold group_by.
  rewrite map_app, (map_key_block block k Hblock).
  destruct (length block) as [|n] eqn:Hlen.
  { destruct block; [contradiction|discriminate]. }
  assert (Hk : ~ In k (map key rest)).
  { intros Hin. apply in_map_iff in Hin as (r & Hr & Hin).
    exact (Hrest r Hin Hr). }
  simpl. rewrite (distinct_leading k _ _ Hk).
  f_equal.
  - f_equal. rewrite filter_app. rewrite filter_all, filter_none.
    + apply app_nil_r.
    + intros r Hr. destruct (eqb (key r) k) eqn:E; [|reflexivity].
      apply eqb_eq in E. exfalso. exact (Hrest r Hr E).
    + intros r Hr. rewrite (Hblock r Hr). apply eqb_refl_key.
  - apply map_ext_in. intros k' Hk'. f_equal.
    rewrite filter_app, filter_none; [reflexivity|].
    intros r Hr. destruct (eqb (key r) k') eqn:E; [|reflexivity].
    apply eqb_eq in E. exfalso. apply Hk.
    rewrite <- (Hblock r Hr), E. apply distinct_In, Hk'.
Qed.

(** Grouping rows that come in blocks, one block per source row with
    pairwise different keys: the groups are the non-empty blocks. *)
Lemma group_by_blocks {S} (skey : S -> K) (block : S -> list Row)
  (l : list S) :
  NoDup (map skey l) ->
  (forall s r, In s l -> In r (block s) -> key r = skey s) ->
  group_by key eqb (flat_map block l)
  = map (fun s => (skey s, block s)) (filter (fun s => has_rows (block s)) l).
Proof.
  induction l as [|s l IH]; simpl; intros Hnd Hkey; [reflexivity|].
  inversion Hnd as [|? ? Hnotin Hnd']; subst.
  destruct (block s) as [|r0 rows] eqn:Hb; simpl has_rows; cbn iota.
  - simpl. apply IH; auto.
  - rewrite <- Hb at 1. rewrite group_by_app_block with (k := skey s).
    + cbn [map]. rewrite Hb. f_equal. apply IH; auto.
    + rewrite Hb. discriminate.
    + intros r Hr. apply Hkey; auto.
    + intros r Hr E. apply in_flat_map in Hr as (s' & Hs' & Hr).
      apply Hnotin. rewrite <- E, (Hkey s' r); auto. apply in_map, Hs'.
Qed.

End GroupFacts.

(** ** ORDER BY *)

Section OrderFacts.

Import Rel.
Context {A : Type}.
Variable le : A -> A -> bool.
Hypothesis le_total : forall a b, le a b = true \/ le b a = true.
Hypothesis le_trans : forall a b c, le a b = true -> le b c = true -> le a c = true.

Lemma insert_Permutation a l : Permutation (a :: l) (insert le a l).
Proof.
  induction l as [|b l IH]; simpl; [reflexivity|].
  destruct (le a b); [reflexivity|].
  rewrite perm_swap. apply perm_skip, IH.
Qed.

Lemma order_by_Permutation l : Permutation l (order_by le l).
Proof.
  induction l as [|a l IH]; simpl; [constructor|].
  rewrite <- insert_Permutation. apply perm_skip, IH.
Qed.

Lemma insert_sorted a l :
  StronglySorted (fun x y => le x y = true) l ->
  StronglySorted (fun x y => le x y = true) (insert le a l).
Proof.
  induction 1 as [|b l Hs IH Hall]; simpl; [repeat constructor|].
  destruct (le a b) eqn:E.
  - constructor; [constructor; assumption|].
    constructor; [exact E|].
    rewrite Forall_forall in *. intros x Hx. apply (le_trans a b x E), Hall, Hx.
  - constructor; [exact IH|].
    rewrite Forall_forall in *. intros x Hx.
    apply (Permutation_in _ (Permutation_sym (insert_Permutation a l))) in Hx.
    destruct Hx as [<-|Hx]; [|apply Hall, Hx].
    destruct (le_total a b) as [H|H]; [congruence|exact H].
Qed.

(** Insertion sort returns one of the arrangements ORDER BY allows. *)
Lemma order_by_ordered l : ordered_by le l (order_by le l).
Proof.
  split; [apply order_by_Permutation|].
  induction l as [|a l IH]; simpl; [constructor|]. apply insert_sorted, IH.
Qed.

End OrderFacts.

Section JoinFacts.

Import Rel.
Context {L R : Type}.

Lemma left_join_has_rows (on : L -> R -> bool) (ls : list L) (rs : list R) :
  ls <> [] -> left_join on ls rs <> [].
Proof.
  destruct ls as [|l ls]; [contradiction|]. intros _. unfold left_join. simpl.
  destruct (filter (on l) rs); discriminate.
Qed.

Lemma left_join_fst (on : L -> R -> bool) (ls : list L) (rs : list R) x :
  In x (left_join on ls rs) -> In (fst x) ls.
Proof.
  unfold left_join. intros H. apply in_flat_map in H as (l & Hl & H).
  destruct (filter (on l) rs) as [|r0 ms].
  - destruct H as [<-|[]]. exact Hl.
  - apply in_map_iff in H as (r & <- & _). exact Hl.
Qed.

Lemma inner_join_fst (on : L -> R -> bool) (ls : list L) (rs : list R) x :
  In x (inner_join on ls rs) -> In (fst x) ls.
Proof.
  unfold inner_join. intros H. apply in_flat_map in H as (l & Hl & H).
  apply in_map_iff in H as (r & <- & _). exact Hl.
Qed.

(** A left row without a match is kept once, padded with NULL. *)
Lemma left_join_unmatched (on : L -> R -> bool) (l : L) (rs : list R) :
  (forall r, In r rs -> on l r = false) ->
  left_join on [l] rs = [(l, None)].
Proof.
  intros H. unfold left_join. simpl. rewrite filter_none by exact H.
  reflexivity.
Qed.

End JoinFacts.

(** ** All students with enrollments *)

Section AllWithEnrollmentsFacts.

Import Schema Rel AllWithEnrollments.

Lemma all_key_eqb_eq a b : AllWithEnrollments.key_eqb a b = true <-> a = b.
Proof.
  destruct a as [[[id1 fn1] ln1] g1], b as [[[id2 fn2] ln2] g2].
  unfold AllWithEnrollments.key_eqb.
  rewrite !andb_true_iff, !Z.eqb_eq, !String.eqb_eq.
  split; [intros [[[-> ->] ->] ->]; reflexivity|].
  intros E. inversion E. auto.
Qed.

Lemma all_joined_by_student db :
  joined db = flat_map (rows_of db) (Schema.students db).
Proof.
  unfold joined, rows_of, left_join.
  rewrite flat_map_flat_map. apply flat_map_ext. intros s.
  simpl. rewrite app_nil_r. reflexivity.
Qed.

Lemma all_rows_of_key db s r : In r (rows_of db s) -> group_key r = student_key s.
Proof.
  intros H. unfold group_key. apply left_join_fst, left_join_fst in H.
  destruct H as [<-|[]]. reflexivity.
Qed.

Lemma all_rows_of_has_rows db s : has_rows (rows_of db s) = true.
Proof.
  assert (H : rows_of db s <> []).
  { apply left_join_has_rows, left_join_has_rows. discriminate. }
  destruct (rows_of db s); [contradiction|reflexivity].
Qed.

(** Under the primary key of students the grouped result has one row per
    student, computed from that student's rows of the join. *)
Lemma all_grouped_by_student db :
  NoDup (map Student.student_id (Schema.students db)) ->
  grouped db
  = map (fun s => select (student_key s, rows_of db s)) (Schema.students db).
Proof.
  intros Hpk. unfold grouped. rewrite all_joined_by_student.
  rewrite (group_by_blocks group_key key_eqb all_key_eqb_eq student_key).
  - rewrite filter_all by (intros; apply all_rows_of_has_rows).
    rewrite map_map. reflexivity.
  - revert Hpk. apply NoDup_map_finer. intros x y E. inversion E. reflexivity.
  - intros s r _. apply all_rows_of_key.
Qed.

Lemma all_rows_of_unenrolled db s :
  (forall e, In e (Schema.enrollments db) ->
     Enrollment.student_id e <> Student.student_id s) ->
  rows_of db s = [((s, None), None)].
Proof.
  intros H. unfold rows_of.
  rewrite (left_join_unmatched on_student).
  - apply left_join_unmatched. reflexivity.
  - intros e He. apply Z.eqb_neq. intros E. exact (H e He (eq_sym E)).
Qed.

(** With a total and transitive collation order, the executable reading
    is one of the results the store may return. *)
Lemma all_run_is_result leb db :
  (forall a b, leb a b = true \/ leb b a = true) ->
  (forall a b c, leb a b = true -> leb b c = true -> leb a c = true) ->
  results leb db (run leb db).
Proof.
  intros Htotal Htrans. apply order_by_ordered; unfold le.
  - intros a b. apply Htotal.
  - intros a b c. apply Htrans.
Qed.

End AllWithEnrollmentsFacts.

Section AllWithEnrollmentsClaim.

Import Schema Rel Js Http Pool App AllWithEnrollments.

(** C5.  Under the primary key of students, all-students-with-enrollments
    answers 200 with one row per student whatever the enrollments table
    holds: count is the number of students, the rows carry the students'
    columns each exactly once, and a student without enrollments has
    total_enrollments 0 and courses NULL. *)
Theorem all_with_enrollments_one_row_per_student
  (collation_leb : string -> string -> bool) db pool req rs :
  NoDup (map Student.student_id (Schema.students db)) ->
  results collation_leb db rs ->
  pool {| sql := Template.all_with_enrollments_sql; values := [] |}
  = Some (map to_row rs) ->
  reply (all_with_enrollments req pool)
  = res_json (JObject [("success", JBool true);
                       ("count", JNum (of_nat (length (Schema.students db))));
                       ("data", JRows (map to_row rs))])
  /\ Permutation
       (map student_key (Schema.students db))
       (map (fun r => (student_id r, first_name r, last_name r, grade r)) rs)
  /\ (forall s,
        In s (Schema.students db) ->
        (forall e, In e (Schema.enrollments db) ->
           Enrollment.student_id e <> Student.student_id s) ->
        In {| student_id := Student.student_id s;
              first_name := Student.first_name s;
              last_name := Student.last_name s;
              grade := Student.grade s;
              total_enrollments := 0;
              courses := None |} rs).
Proof.
  intros Hpk [Hperm _] Hpool.
  rewrite (all_grouped_by_student db Hpk) in Hperm.
  split; [|split].
  - run_handler. rewrite Hpool. simpl. unfold res_json. do 4 f_equal.
    rewrite length_map, <- (Permutation_length Hperm), length_map.
    reflexivity.
  - apply (Permutation_map
             (fun r => (student_id r, first_name r, last_name r, grade r)))
      in Hperm.
    rewrite map_map in Hperm. exact Hperm.
  - intros s Hs Hnone. apply (Permutation_in _ Hperm).
    apply in_map_iff. exists s. split; [|exact Hs].
    rewrite (all_rows_of_unenrolled db s Hnone). reflexivity.
Qed.

End AllWithEnrollmentsClaim.

(** On the graded sample: two students, two rows, and John, who is not
    enrolled, has total_enrollments 0 and courses NULL. *)
Lemma all_with_enrollments_one_row_per_student_witness :
  Http.field "count"
    (Http.body
       (Pool.reply
          (App.all_with_enrollments Sample.grade_10_request
             (Sample.answering
                (map AllWithEnrollments.to_row
                   (AllWithEnrollments.run String.leb Sample.graded))))))
  = Some (Http.JNum (Js.of_nat 2))
  /\ In {| AllWithEnrollments.student_id := 2;
           AllWithEnrollments.first_name := "John";
           AllWithEnrollments.last_name := "Smith";
           AllWithEnrollments.grade := 10;
           AllWithEnrollments.total_enrollments := 0;
           AllWithEnrollments.courses := None |}
        (AllWithEnrollments.run String.leb Sample.graded).
Proof.
  assert (Hpk : NoDup (map Schema.Student.student_id
                         (Schema.students Sample.graded))).
  { repeat constructor; simpl; intuition discriminate. }
  assert (Hrs : AllWithEnrollments.results String.leb Sample.graded
                  (AllWithEnrollments.run String.leb Sample.graded)).
  { split; [apply Permutation_refl|]. repeat constructor. }
  destruct (all_with_enrollments_one_row_per_student String.leb Sample.graded
              (Sample.answering
                 (map AllWithEnrollments.to_row
                    (AllWithEnrollments.run String.leb Sample.graded)))
              Sample.grade_10_request _ Hpk Hrs eq_refl) as (Hreply & _ & Hrow).
  split.
  - rewrite Hreply. reflexivity.
  - apply (Hrow Sample.john).
    + right. left. reflexivity.
    + intros e [<-|[<-|[]]]; discriminate.
Defined.

(** ** Course details *)

Section CourseDetailsFacts.

Import Schema Rel CourseDetails.

Lemma course_key_eqb_eq a b : CourseDetails.key_eqb a b = true <-> a = b.
Proof.
  destruct a as [[[id1 n1] c1] d1], b as [[[id2 n2] c2] d2].
  unfold CourseDetails.key_eqb.
  rewrite !andb_true_iff, !Z.eqb_eq, !String.eqb_eq.
  split; [intros [[[-> ->] ->] ->]; reflexivity|].
  intros E. inversion E. auto.
Qed.

Lemma course_joined_by_course db :
  joined db = flat_map (rows_of db) (Schema.courses db).
Proof.
  unfold joined, rows_of, left_join.
  rewrite flat_map_flat_map. apply flat_map_ext. intros c.
  simpl. rewrite app_nil_r. reflexivity.
Qed.

Lemma course_rows_of_fst db c r : In r (rows_of db c) -> fst (fst r) = c.
Proof.
  intros H. apply left_join_fst, left_join_fst in H.
  destruct H as [<-|[]]. reflexivity.
Qed.

(** The WHERE clause keeps the rows of the courses whose id is the bound
    value. *)
Lemma course_where_by_course db courseId :
  filter (where_ courseId) (joined db)
  = flat_map (rows_of db) (filter (matches courseId) (Schema.courses db)).
Proof.
  rewrite course_joined_by_course. apply filter_flat_map.
  intros c r _ Hr. unfold where_. rewrite (course_rows_of_fst db c r Hr).
  reflexivity.
Qed.

Lemma matches_same_id courseId c c' :
  matches courseId c = true -> matches courseId c' = true ->
  Course.course_id c = Course.course_id c'.
Proof.
  unfold matches. intros H H'.
  apply Qeq_bool_iff in H, H'. rewrite <- H' in H.
  unfold Qeq in H. simpl in H. lia.
Qed.

(** Under the primary key of courses the bound value selects at most one
    course. *)
Lemma matches_only db courseId c :
  NoDup (map Course.course_id (Schema.courses db)) ->
  In c (Schema.courses db) -> matches courseId c = true ->
  filter (matches courseId) (Schema.courses db) = [c].
Proof.
  intros Hpk Hc Hm.
  induction (Schema.courses db) as [|a l IH]; [contradiction|].
  inversion Hpk as [|? ? Hnotin Hpk']; subst. simpl.
  destruct Hc as [->|Hc].
  - rewrite Hm. f_equal. apply filter_none. intros x Hx.
    destruct (matches courseId x) eqn:E; [|reflexivity].
    exfalso. apply Hnotin. rewrite (matches_same_id courseId c x Hm E).
    apply in_map, Hx.
  - destruct (matches courseId a) eqn:E.
    + exfalso. apply Hnotin. rewrite (matches_same_id courseId a c E Hm).
      apply in_map, Hc.
    + apply IH; assumption.
Qed.

Lemma inner_join_snd {L R} (on : L -> R -> bool) (ls : list L) (rs : list R) x :
  In x (inner_join on ls rs) -> In (snd x) rs.
Proof.
  unfold inner_join. intros H. apply in_flat_map in H as (l & _ & H).
  apply in_map_iff in H as (r & <- & H). apply filter_In in H as [H _].
  exact H.
Qed.

Lemma top_student_none db course :
  (forall e, In e (Schema.enrollments db) -> Enrollment.course_id e <> course) ->
  top_student db course = None.
Proof.
  intros H. unfold top_student. rewrite filter_none; [reflexivity|].
  intros se Hse. apply inner_join_snd in Hse.
  apply andb_false_iff. left. apply Z.eqb_neq. apply H, Hse.
Qed.

Lemma course_rows_of_unenrolled db c :
  (forall e, In e (Schema.enrollments db) ->
     Enrollment.course_id e <> Course.course_id c) ->
  rows_of db c = [((c, None), None)].
Proof.
  intros H. unfold rows_of.
  rewrite (left_join_unmatched on_course).
  - apply left_join_unmatched. reflexivity.
  - intros e He. apply Z.eqb_neq. intros E. exact (H e He (eq_sym E)).
Qed.

(** No course with the bound id: no group, no row. *)
Lemma course_grouped_unknown db courseId :
  (forall c, In c (Schema.courses db) -> matches courseId c = false) ->
  grouped db courseId = [].
Proof.
  intros H. unfold grouped.
  rewrite course_where_by_course, filter_none by exact H. reflexivity.
Qed.

Lemma course_rows_of_has_rows db c : has_rows (rows_of db c) = true.
Proof.
  assert (H : rows_of db c <> []).
  { apply left_join_has_rows, left_join_has_rows. discriminate. }
  destruct (rows_of db c); [contradiction|reflexivity].
Qed.

(** The id of a course: exactly one row, computed from that course's rows
    of the join (the LEFT JOIN keeps a course without enrollments). *)
Lemma course_grouped_known db courseId c :
  NoDup (map Course.course_id (Schema.courses db)) ->
  In c (Schema.courses db) -> matches courseId c = true ->
  grouped db courseId = [select db (course_key c, rows_of db c)].
Proof.
  intros Hpk Hc Hm. unfold grouped.
  rewrite course_where_by_course, (matches_only db courseId c Hpk Hc Hm).
  rewrite (group_by_blocks group_key key_eqb course_key_eqb_eq course_key).
  - cbn [filter]. rewrite course_rows_of_has_rows. reflexivity.
  - repeat constructor. intros [].
  - intros c' r [<-|[]] Hr. unfold group_key.
    rewrite (course_rows_of_fst db c r Hr). reflexivity.
Qed.

(** The row of a course without enrollments, built from the single
    NULL-padded row of the join. *)
Lemma course_select_unenrolled db c :
  (forall e, In e (Schema.enrollments db) ->
     Enrollment.course_id e <> Course.course_id c) ->
  select db (course_key c, rows_of db c)
  = {| course_id := Course.course_id c;
       course_name := Course.course_name c;
       credits := Course.credits c;
       department := Course.department c;
       total_students := 0;
       grade_levels_represented := 0;
       count_A := Some 0%Q;
       count_B := Some 0%Q;
       count_C := Some 0%Q;
       count_D := Some 0%Q;
       count_F := Some 0%Q;
       percent_A := Some 0%Q;
       percent_B := Some 0%Q;
       average_gpa := None;
       latest_enrollment := None;
       top_student_example := None |}.
Proof.
  intros Hnone. rewrite (course_rows_of_unenrolled db c Hnone).
  unfold select. cbn [fst snd course_key].
  rewrite (top_student_none db _ Hnone). reflexivity.
Qed.

End CourseDetailsFacts.

Section CourseDetailsClaim.

Import Schema Rel Js Http Pool App CourseDetails.

(** How the store reads a bound string as a number when it compares it
    with an integer column. *)
Variable number_of_string : string -> Q.

(** C6.  Under the primary key of courses: when no course has the queried
    id, course-details answers 404 with success false and the error
    "Course not found", and the body has no data field; when the id is
    that of a course, it answers 200 with one data object, never 404; and
    for a course without enrollments that object has total_students,
    grade_levels_represented, count_A .. count_F, percent_A and percent_B
    zero and average_gpa, latest_enrollment and top_student_example NULL. *)
Theorem course_details_unknown_id_and_empty_course db pool req rs :
  let courseId := number_of_string (params req "courseId") in
  NoDup (map Course.course_id (Schema.courses db)) ->
  results db courseId rs ->
  pool {| sql := Template.course_details_sql;
          values := [PVal (Str (params req "courseId"))] |}
  = Some (map to_row rs) ->
  ((forall c, In c (Schema.courses db) -> matches courseId c = false) ->
   reply (course_details req pool)
   = res_status_json 404 (failure "Course not found")
   /\ field "data" (body (reply (course_details req pool))) = None)
  /\ (forall c,
        In c (Schema.courses db) -> matches courseId c = true ->
        reply (course_details req pool)
        = res_json
            (JObject
               [("success", JBool true);
                ("data",
                 JRow (to_row (select db (course_key c, rows_of db c))))]))
  /\ (forall c,
        In c (Schema.courses db) -> matches courseId c = true ->
        (forall e, In e (Schema.enrollments db) ->
           Enrollment.course_id e <> Course.course_id c) ->
        reply (course_details req pool)
        = res_json
            (JObject
               [("success", JBool true);
                ("data",
                 JRow (to_row
                         {| course_id := Course.course_id c;
                            course_name := Course.course_name c;
                            credits := Course.credits c;
                            department := Course.department c;
                            total_students := 0;
                            grade_levels_represented := 0;
                            count_A := Some 0%Q;
                            count_B := Some 0%Q;
                            count_C := Some 0%Q;
                            count_D := Some 0%Q;
                            count_F := Some 0%Q;
                            percent_A := Some 0%Q;
                            percent_B := Some 0%Q;
                            average_gpa := None;
                            latest_enrollment := None;
                            top_student_example := None |}))])).
Proof.
  intros courseId Hpk Hrs Hpool. unfold results in Hrs.
  assert (Hknown : forall c,
             In c (Schema.courses db) -> matches courseId c = true ->
             reply (course_details req pool)
             = res_json
                 (JObject
                    [("success", JBool true);
                     ("data",
                      JRow (to_row (select db (course_key c, rows_of db c))))])).
  { intros c Hc Hm.
    rewrite (course_grouped_known db courseId c Hpk Hc Hm) in Hrs.
    apply Permutation_length_1_inv in Hrs. subst rs.
    run_handler. rewrite Hpool. reflexivity. }
  split; [|split].
  - intros Hunknown.
    rewrite (course_grouped_unknown db courseId Hunknown) in Hrs.
    apply Permutation_nil in Hrs. subst rs.
    run_handler. rewrite Hpool. simpl. split; reflexivity.
  - exact Hknown.
  - intros c Hc Hm Hnone.
    rewrite (Hknown c Hc Hm), (course_select_unenrolled db c Hnone).
    reflexivity.
Qed.

End CourseDetailsClaim.

(** ** Top performers *)

Section SortedFacts.

Context {A : Type}.
Variable R : A -> A -> Prop.

Lemma In_firstn n (l : list A) x : In x (firstn n l) -> In x l.
Proof.
  intros H. rewrite <- (firstn_skipn n l). apply in_or_app. left. exact H.
Qed.

Lemma StronglySorted_app_inv (l1 l2 : list A) :
  StronglySorted R (l1 ++ l2) ->
  StronglySorted R l1 /\ forall x y, In x l1 -> In y l2 -> R x y.
Proof.
  induction l1 as [|a l1 IH]; simpl; intros H.
  - split; [constructor|]. intros x y [].
  - inversion H as [|? ? Hs Hall]; subst. destruct (IH Hs) as [Hs1 Hcross].
    split.
    + constructor; [exact Hs1|].
      apply Forall_app in Hall. tauto.
    + intros x y [<-|Hx] Hy; [|auto].
      rewrite Forall_forall in Hall. apply Hall, in_or_app. auto.
Qed.

Lemma StronglySorted_weaken (R' : A -> A -> Prop) (l : list A) :
  (forall a b, In a l -> In b l -> R a b -> R' a b) ->
  StronglySorted R l -> StronglySorted R' l.
Proof.
  induction l as [|a l IH]; intros Himp H; [constructor|].
  inversion H as [|? ? Hs Hall]; subst. constructor.
  - apply IH; [|exact Hs]. intros x y Hx Hy. apply Himp; simpl; auto.
  - rewrite Forall_forall in *. intros b Hb.
    apply Himp; simpl; auto.
Qed.

End SortedFacts.

Section TopPerformersFacts.

Import Schema Rel TopPerformers.
Local Open Scope Q_scope.

Lemma top_key_eqb_eq a b : TopPerformers.key_eqb a b = true <-> a = b.
Proof.
  destruct a as [[[[id1 fn1] ln1] em1] g1], b as [[[[id2 fn2] ln2] em2] g2].
  unfold TopPerformers.key_eqb.
  rewrite !andb_true_iff, !Z.eqb_eq, !String.eqb_eq.
  split; [intros [[[[-> ->] ->] ->] ->]; reflexivity|].
  intros E. inversion E. auto.
Qed.

Lemma top_joined_by_student db :
  joined db = flat_map (rows_of db) (Schema.students db).
Proof.
  unfold joined, rows_of, inner_join.
  rewrite flat_map_flat_map. apply flat_map_ext. intros s.
  simpl. rewrite app_nil_r. reflexivity.
Qed.

Lemma top_rows_of_key db s r :
  In r (rows_of db s) -> group_key r = student_key s.
Proof.
  intros H. unfold group_key. apply inner_join_fst, inner_join_fst in H.
  destruct H as [<-|[]]. reflexivity.
Qed.

(** Under the primary key of students there is one row per student that
    has at least one enrollment with a course, computed from that
    student's rows of the join. *)
Lemma top_grouped_by_student db :
  NoDup (map Student.student_id (Schema.students db)) ->
  grouped db
  = map (fun s => select (student_key s, rows_of db s))
        (filter (fun s => has_rows (rows_of db s)) (Schema.students db)).
Proof.
  intros Hpk. unfold grouped. rewrite top_joined_by_student.
  rewrite (group_by_blocks group_key key_eqb top_key_eqb_eq student_key).
  - rewrite map_map. reflexivity.
  - revert Hpk. apply NoDup_map_finer. intros x y E. inversion E. reflexivity.
  - intros s r _. apply top_rows_of_key.
Qed.

Lemma top_row_of_student db s r :
  NoDup (map Student.student_id (Schema.students db)) ->
  In s (Schema.students db) -> In r (grouped db) ->
  student_id r = Student.student_id s ->
  r = select (student_key s, rows_of db s) /\ rows_of db s <> [].
Proof.
  intros Hpk Hs Hr Hid. rewrite (top_grouped_by_student db Hpk) in Hr.
  apply in_map_iff in Hr as (s' & <- & Hs').
  apply filter_In in Hs' as [Hs' Hrows].
  assert (s' = s) as ->.
  { apply (NoDup_map_injective Student.student_id _ _ _ Hpk Hs' Hs).
    exact Hid. }
  split; [reflexivity|]. destruct (rows_of db s); discriminate.
Qed.

(** Every returned row is a grouped row that passed HAVING. *)
Lemma top_results_qualify db mc mg rs r :
  results db mc mg rs -> In r rs ->
  In r (grouped db) /\ having mc mg r = true.
Proof.
  intros (sorted & [Hperm _] & ->) Hr. apply In_firstn in Hr.
  apply (Permutation_in _ (Permutation_sym Hperm)) in Hr.
  apply filter_In in Hr. exact Hr.
Qed.

Lemma having_spec mc mg r :
  having mc mg r = true <->
  mc <= inject_Z (courses_completed r)
  /\ exists g, weighted_gpa r = Some g /\ mg <= g.
Proof.
  unfold having, ge. destruct (weighted_gpa r) as [g|]; simpl.
  - destruct (Qle_bool mc (inject_Z (courses_completed r))) eqn:E1,
      (Qle_bool mg g) eqn:E2; simpl; split; try discriminate.
    + intros _. apply Qle_bool_iff in E1, E2. eauto.
    + reflexivity.
    + intros (_ & g' & Hg & Hle). inversion Hg; subst.
      apply Qle_bool_iff in Hle. congruence.
    + intros (Hle & _). apply Qle_bool_iff in Hle. congruence.
    + intros (Hle & _). apply Qle_bool_iff in Hle. congruence.
  - destruct (Qle_bool mc (inject_Z (courses_completed r))); simpl;
      split; try discriminate; intros (_ & g & Hg & _); discriminate.
Qed.

Lemma le_ranks_before a b ga gb :
  weighted_gpa a = Some ga -> weighted_gpa b = Some gb ->
  le a b = true -> ranks_before a b.
Proof.
  unfold le, ranks_before, compare_desc. intros -> ->.
  destruct (gb ?= ga) eqn:E; intros H; try discriminate.
  - right. apply Qeq_alt in E. split; [symmetry; exact E|].
    apply Z.leb_le, H.
  - left. apply Qlt_alt, E.
Qed.

End TopPerformersFacts.

Section TopPerformersOrder.

Import Schema Rel TopPerformers.
Local Open Scope Q_scope.

Ltac compare_facts :=
  repeat match goal with
    | H : (_ ?= _) = Eq |- _ => apply Qeq_alt in H
    | H : (_ ?= _) = Lt |- _ => apply Qlt_alt in H
    | H : (_ ?= _) = Gt |- _ => apply Qgt_alt in H
    | H : (_ <=? _)%Z = true |- _ => apply Z.leb_le in H
    | |- (_ <=? _)%Z = true => apply Z.leb_le
    end.

Lemma top_le_total a b : le a b = true \/ le b a = true.
Proof.
  unfold le, compare_desc.
  destruct (weighted_gpa a) as [x|], (weighted_gpa b) as [y|]; auto.
  - destruct (y ?= x) eqn:E1, (x ?= y) eqn:E2; auto; compare_facts;
      try lra.
    destruct (Z.le_ge_cases (courses_completed b) (courses_completed a));
      [left|right]; compare_facts; assumption.
  - destruct (Z.le_ge_cases (courses_completed b) (courses_completed a));
      [left|right]; compare_facts; assumption.
Qed.

Lemma top_le_trans a b c : le a b = true -> le b c = true -> le a c = true.
Proof.
  unfold le, compare_desc.
  destruct (weighted_gpa a) as [x|], (weighted_gpa b) as [y|],
    (weighted_gpa c) as [z|]; auto; try discriminate.
  - destruct (y ?= x) eqn:E1, (z ?= y) eqn:E2, (z ?= x) eqn:E3;
      intros H1 H2; try discriminate; try reflexivity; compare_facts;
      try lra; lia.
  - intros H1 H2. compare_facts. lia.
Qed.

(** The executable reading is one of the results the store may return. *)
Lemma top_run_is_result db mc mg : results db mc mg (run db mc mg).
Proof.
  exists (order_by le (qualifying db mc mg)). split; [|reflexivity].
  apply order_by_ordered; [apply top_le_total|apply top_le_trans].
Qed.

End TopPerformersOrder.

Section AggregateFacts.

Import Schema Rel Js Http Pool App TopPerformers.
Local Open Scope Q_scope.

Lemma weighted_points_graded l cr :
  weighted_points (Some l) cr = Some (Spec.grade_point l * inject_Z cr).
Proof. destruct l; reflexivity. Qed.

Lemma total_points es :
  total (map (fun e => Spec.grade_point (fst e) * inject_Z (snd e)) es)
  = Spec.sum_points es.
Proof.
  induction es as [|e es IH]; simpl; [reflexivity|]. rewrite IH. reflexivity.
Qed.

Lemma total_credits es :
  total (map (fun e : Enrollment.letter * Z => inject_Z (snd e)) es)
  = Spec.sum_credits es.
Proof.
  induction es as [|e es IH]; simpl; [reflexivity|]. rewrite IH. reflexivity.
Qed.

Lemma non_null_map_Some {A B} (f : A -> B) (l : list A) :
  non_null (map (fun a => Some (f a)) l) = map f l.
Proof.
  unfold non_null.
  induction l as [|a l IH]; simpl; [reflexivity|]. rewrite IH. reflexivity.
Qed.

Lemma SUM_map_Some {A} (f : A -> Q) (l : list A) :
  l <> [] -> SUM (map (fun a => Some (f a)) l) = Some (total (map f l)).
Proof.
  intros H. unfold SUM. rewrite non_null_map_Some.
  destruct l; [contradiction|reflexivity].
Qed.

End AggregateFacts.

(** ** The statements on the sample databases *)

(** On the graded sample: course 99 does not exist and gives 404;
    Chemistry (course 3) has no enrollment and gives the all-zero row. *)
Lemma course_details_unknown_id_and_empty_course_witness :
  Http.status
    (Pool.reply
       (App.course_details (Http.make [("courseId", "99")] [])
          (Sample.answering
             (map CourseDetails.to_row
                (CourseDetails.run Sample.graded
                   (Sample.number_of_string "99"))))))
  = 404
  /\ Http.field "data"
       (Http.body
          (Pool.reply
             (App.course_details (Http.make [("courseId", "3")] [])
                (Sample.answering
                   (map CourseDetails.to_row
                      (CourseDetails.run Sample.graded
                         (Sample.number_of_string "3")))))))
     = Some (Http.JRow
               [("course_id", Sql.Int 3);
                ("course_name", Sql.Text "Chemistry");
                ("credits", Sql.Int 4);
                ("department", Sql.Text "Science");
                ("total_students", Sql.Int 0);
                ("grade_levels_represented", Sql.Int 0);
                ("count_A", Sql.Dec 0);
                ("count_B", Sql.Dec 0);
                ("count_C", Sql.Dec 0);
                ("count_D", Sql.Dec 0);
                ("count_F", Sql.Dec 0);
                ("percent_A", Sql.Dec 0);
                ("percent_B", Sql.Dec 0);
                ("average_gpa", Sql.Null);
                ("latest_enrollment", Sql.Null);
                ("top_student_example", Sql.Null)]).
Proof.
  assert (Hpk : NoDup (map Schema.Course.course_id
                         (Schema.courses Sample.graded))).
  { repeat constructor; simpl; intuition discriminate. }
  split.
  - destruct (course_details_unknown_id_and_empty_course
                Sample.number_of_string Sample.graded
                (Sample.answering
                   (map CourseDetails.to_row
                      (CourseDetails.run Sample.graded
                         (Sample.number_of_string "99"))))
                (Http.make [("courseId", "99")] []) _ Hpk
                (Permutation_refl _) eq_refl) as [Hunknown _].
    destruct Hunknown as [Hreply _].
    + intros c [<-|[<-|[<-|[]]]]; reflexivity.
    + rewrite Hreply. reflexivity.
  - destruct (course_details_unknown_id_and_empty_course
                Sample.number_of_string Sample.graded
                (Sample.answering
                   (map CourseDetails.to_row
                      (CourseDetails.run Sample.graded
                         (Sample.number_of_string "3"))))
                (Http.make [("courseId", "3")] []) _ Hpk
                (Permutation_refl _) eq_refl) as (_ & _ & Hempty).
    rewrite (Hempty Sample.chemistry).
    + reflexivity.
    + right. right. left. reflexivity.
    + reflexivity.
    + intros e [<-|[<-|[]]]; discriminate.
Defined.

(** ** Enrollments in progress *)

(** The five-branch CASE gives NULL on a NULL grade and AVG skips it: a
    group's average is that of its graded enrollments. *)
Lemma average_skips_in_progress (grades : list (option Schema.Enrollment.letter)) :
  Rel.AVG (map Rel.grade_points (None :: grades))
  = Rel.AVG (map Rel.grade_points grades).
Proof. reflexivity. Qed.

(** C4, at the inputs where the code departs from it.  In the database
    where John's enrollment in Algebra I is in progress (NULL) and Emily
    has an A there, popular-courses reports average_gpa 2.0 for Algebra I:
    the ELSE 0.0 branch counts the NULL grade as 0.0, while course-details
    reports 4.00 for the same course.  In the same database Emily's
    weighted_gpa in top-performers is 2.00: the credits of her course in
    progress stay in SUM(c.credits). *)
Theorem popular_courses_average_counts_in_progress_as_zero :
  (exists r g,
     In r (PopularCourses.run Sample.in_progress 1)
     /\ PopularCourses.course_id r = 1
     /\ PopularCourses.enrollment_count r = 2
     /\ PopularCourses.average_gpa r = Some g
     /\ (g == 2.0)%Q)
  /\ map CourseDetails.average_gpa (CourseDetails.run Sample.in_progress 1)
     = [Some 4%Q]
  /\ map TopPerformers.weighted_gpa (TopPerformers.run Sample.in_progress 1 1)
     = [Some 2%Q].
Proof.
  split; [|split; reflexivity].
  eexists. eexists. split; [left; reflexivity|].
  repeat split.
Qed.

(** * Further properties of the handlers *)

Section HandlerOutcomes.

Import Js Http Pool App Envelope.

(** The shape of what a handler did: it made no call, or one call that the
    pool answered or rejected. *)
Lemma handler_cases op req pool :
  (calls (handle op req pool) = []
   /\ op = StudentsInCourses
   /\ ((Http.query req "courseIds" = Undefined
        /\ reply (handle op req pool)
           = res_status_json 400
               (failure "Please provide courseIds as comma-separated values"))
       \/ (has_no_split (Http.query req "courseIds")
           /\ reply (handle op req pool)
              = res_status_json 500 (failure (error_message op)))))
  \/ (exists c,
        calls (handle op req pool) = [c]
        /\ pool c = None
        /\ reply (handle op req pool)
           = res_status_json 500 (failure (error_message op)))
  \/ (exists c rows,
        calls (handle op req pool) = [c]
        /\ pool c = Some rows
        /\ ((status (reply (handle op req pool)) = 200
             /\ field "success" (body (reply (handle op req pool)))
                = Some (JBool true))
            \/ (op = CourseDetails /\ rows = []
                /\ reply (handle op req pool)
                   = res_status_json 404 (failure "Course not found")))).
Proof.
  destruct op; run_handler.
  1-6, 9-10:
    destruct (pool _) as [rows|] eqn:E; simpl;
    [right; right; eexists; exists rows; repeat split; try exact E; left;
     split; reflexivity
    |right; left; eexists; repeat split; exact E].
  - destruct (Http.query req "courseIds") as [|ids| |] eqn:Eq; simpl.
    + left. repeat split. left. split; reflexivity.
    + pose proof (split_not_empty "," ids) as Hne.
      destruct (split "," ids) as [|x xs]; [contradiction|]. simpl.
      destruct (pool _) as [rows|] eqn:E; simpl;
        [right; right; eexists; exists rows; repeat split; try exact E; left;
         split; reflexivity
        |right; left; eexists; repeat split; exact E].
    + left. repeat split. right. split; [exact I|reflexivity].
    + left. repeat split. right. split; [exact I|reflexivity].
  - destruct (pool _) as [[|r rows]|] eqn:E; simpl.
    + right. right. eexists. exists []. repeat split; try exact E.
      right. repeat split.
    + right. right. eexists. eexists. repeat split; try exact E.
      left. split; reflexivity.
    + right. left. eexists. repeat split. exact E.
Qed.

Ltac by_handler_cases op req pool :=
  destruct (handler_cases op req pool)
    as [(Hcalls & Hop & [(Hq & Hreply)|(Hq & Hreply)])
       |[(c0 & Hcalls & Hpool & Hreply)
        |(c0 & rows0 & Hcalls & Hpool
          & [(Hstatus & Hsuccess)|(Hop & Hrows & Hreply)])]].

(** X1.  When the pool rejects the call a handler makes, the handler
    answers 500 with success false and its own fixed error text: the text
    depends on the operation only, not on the request. *)
Theorem rejected_call_gives_generic_500 op req pool c :
  In c (calls (handle op req pool)) ->
  pool c = None ->
  reply (handle op req pool)
  = res_status_json 500 (failure (error_message op)).
Proof.
  intros Hin Hnone. by_handler_cases op req pool.
  - rewrite Hcalls in Hin. destruct Hin.
  - rewrite Hcalls in Hin. destruct Hin.
  - exact Hreply.
  - rewrite Hcalls in Hin. destruct Hin as [<-|[]]. congruence.
  - rewrite Hcalls in Hin. destruct Hin as [<-|[]]. congruence.
Qed.

(** A pool that rejects every call. *)
Lemma rejected_call_gives_generic_500_witness :
  reply (handle Departments Sample.grade_10_request (fun _ => None))
  = res_status_json 500 (failure "Failed to fetch department analytics").
Proof.
  apply (rejected_call_gives_generic_500 Departments Sample.grade_10_request
           (fun _ => None)
           {| sql := Template.departments_sql; values := [] |}).
  - left. reflexivity.
  - reflexivity.
Defined.

(** X2.  A handler answers 400 exactly when it is students-in-courses and
    the request has no courseIds parameter; it then makes no call.  No
    other operation validates its input: none of them answers 400. *)
Theorem bad_request_only_for_absent_courseIds op req pool :
  (status (reply (handle op req pool)) = 400
   <-> op = StudentsInCourses /\ Http.query req "courseIds" = Undefined)
  /\ (status (reply (handle op req pool)) = 400 ->
      calls (handle op req pool) = []).
Proof.
  split; [split|].
  - by_handler_cases op req pool; try rewrite Hreply; simpl;
      try discriminate; try tauto.
    rewrite Hstatus. discriminate.
  - intros [-> Hq]. simpl.
    rewrite absent_courseIds_is_rejected by exact Hq. reflexivity.
  - by_handler_cases op req pool; try rewrite Hreply; simpl;
      try discriminate; try tauto.
    rewrite Hstatus. discriminate.
Qed.

(** X3.  A handler answers 404 exactly when it is course-details and the
    pool answers its call with no row. *)
Theorem not_found_only_for_course_details_without_rows op req pool :
  status (reply (handle op req pool)) = 404
  <-> op = CourseDetails
      /\ pool {| sql := Template.course_details_sql;
                 values := [PVal (Str (params req "courseId"))] |}
         = Some [].
Proof.
  split.
  - by_handler_cases op req pool; try rewrite Hreply; simpl;
      try discriminate.
    + rewrite Hstatus. discriminate.
    + intros _. split; [exact Hop|]. subst op rows0. simpl in Hcalls.
      rewrite course_details_calls in Hcalls. inversion Hcalls. subst c0.
      exact Hpool.
  - intros [-> Hpool]. run_handler. rewrite Hpool. reflexivity.
Qed.

(** X4.  students-in-courses answers a courseIds given as a repeated key
    (an array) or in bracket syntax (an object) with 500 and the text
    "Failed to fetch students", without sending a query: such a value has
    no [split] method, so the call throws inside the [try] block before
    the 400 guard is reached.  For this handler that and a rejected query
    are the only causes of a 500. *)
Theorem malformed_courseIds_is_a_server_error req pool :
  (has_no_split (Http.query req "courseIds") ->
   students_in_courses req pool
   = {| calls := [];
        reply := res_status_json 500 (failure "Failed to fetch students") |})
  /\ (status (reply (students_in_courses req pool)) = 500
      <-> has_no_split (Http.query req "courseIds")
          \/ exists c,
               In c (calls (students_in_courses req pool)) /\ pool c = None).
Proof.
  split.
  - intros H. run_handler.
    destruct (Http.query req "courseIds"); simpl in *; try contradiction;
      reflexivity.
  - split.
    + by_handler_cases StudentsInCourses req pool;
        change (handle StudentsInCourses req pool)
          with (students_in_courses req pool) in *;
        try rewrite Hreply; simpl; try discriminate.
      * intros _. left. exact Hq.
      * intros _. right. exists c0. rewrite Hcalls.
        split; [left; reflexivity|exact Hpool].
      * rewrite Hstatus. discriminate.
    + intros [Hq|(c & Hin & Hnone)].
      * run_handler.
        destruct (Http.query req "courseIds"); simpl in *;
          try contradiction; reflexivity.
      * by_handler_cases StudentsInCourses req pool;
          change (handle StudentsInCourses req pool)
            with (students_in_courses req pool) in *;
          try rewrite Hreply; try reflexivity;
          rewrite Hcalls in Hin; simpl in Hin; try contradiction;
          destruct Hin as [<-|[]]; congruence.
Qed.

(** A repeated key, [?courseIds=1&courseIds=2]. *)
Lemma malformed_courseIds_is_a_server_error_witness :
  students_in_courses (Http.make [] [("courseIds", Arr ["1"; "2"])])
    Sample.no_rows
  = {| calls := [];
       reply := res_status_json 500 (failure "Failed to fetch students") |}.
Proof.
  apply (proj1 (malformed_courseIds_is_a_server_error
                  (Http.make [] [("courseIds", Arr ["1"; "2"])])
                  Sample.no_rows)).
  exact I.
Defined.

(** X5.  The envelope agrees with the status: the body has success true
    exactly when the status is 200, and every other body is
    {success: false, error: <text>} with nothing else in it. *)
Theorem success_flag_agrees_with_status op req pool :
  (field "success" (body (reply (handle op req pool))) = Some (JBool true)
   <-> status (reply (handle op req pool)) = 200)
  /\ (status (reply (handle op req pool)) = 200
      \/ exists message,
           body (reply (handle op req pool)) = failure message).
Proof.
  split; [split|].
  - by_handler_cases op req pool; try rewrite Hreply; simpl;
      try discriminate. intros _. exact Hstatus.
  - by_handler_cases op req pool; try rewrite Hreply; simpl;
      try discriminate. intros _. exact Hsuccess.
  - by_handler_cases op req pool; try rewrite Hreply; simpl; eauto.
Qed.

(** X6.  A handler makes at most one call to the pool per request, and
    the call binds exactly as many values as its text has placeholders. *)
Theorem one_call_with_matching_placeholders op req pool :
  (length (calls (handle op req pool)) <= 1)%nat
  /\ Forall (fun c => Template.placeholders (sql c) = length (values c))
        (calls (handle op req pool)).
Proof.
  split.
  - by_handler_cases op req pool; rewrite Hcalls; simpl; lia.
  - apply Forall_forall. intros c Hc.
    apply (bound_values_match_placeholders op req pool c Hc).
Qed.

Lemma concat_split sep s :
  String.concat (String sep "") (split sep s) = s.
Proof.
  induction s as [|c rest IH]; [reflexivity|]. simpl.
  pose proof (split_not_empty sep rest) as Hne.
  destruct (Ascii.eqb_spec c sep) as [->|Hc].
  - destruct (split sep rest) as [|p ps]; [contradiction|].
    change (String.concat (String sep "") ("" :: p :: ps))
      with ("" ++ String sep "" ++ String.concat (String sep "") (p :: ps)).
    rewrite IH. reflexivity.
  - destruct (split sep rest) as [|p ps]; [contradiction|].
    destruct ps; simpl in *; rewrite <- IH; reflexivity.
Qed.

Lemma split_pieces sep s :
  Forall (fun piece => occurrences sep piece = 0%nat) (split sep s)
  /\ length (split sep s) = S (occurrences sep s).
Proof.
  induction s as [|c rest [IHp IHl]]; [split; [repeat constructor|reflexivity]|].
  simpl. pose proof (split_not_empty sep rest) as Hne.
  destruct (Ascii.eqb c sep) eqn:E.
  - split; [constructor; [reflexivity|exact IHp]|]. simpl. rewrite IHl.
    reflexivity.
  - destruct (split sep rest) as [|p ps]; [contradiction|].
    inversion IHp as [|? ? Hp Hps]; subst. split.
    + constructor; [|exact Hps]. simpl. rewrite E. exact Hp.
    + simpl in *. exact IHl.
Qed.

(** X7.  For a string courseIds, students-in-courses binds the pieces
    between the commas as they are: joined by commas they give the
    parameter back, so nothing is trimmed, dropped or reordered (an empty
    piece stays an empty id), and there is one more piece than commas. *)
Theorem courseIds_are_bound_as_written req pool ids c :
  Http.query req "courseIds" = Str ids ->
  In c (calls (students_in_courses req pool)) ->
  exists pieces,
    values c = [PVal (Arr pieces); PVal (Arr pieces)]
    /\ String.concat "," pieces = ids
    /\ Forall (fun piece => occurrences "," piece = 0%nat) pieces
    /\ length pieces = S (occurrences "," ids).
Proof.
  intros Hq Hc. rewrite (courseIds_list_is_bound_twice req pool ids Hq) in Hc.
  destruct Hc as [<-|[]]. exists (split "," ids).
  split; [reflexivity|]. split; [apply concat_split|apply split_pieces].
Qed.

Lemma courseIds_are_bound_as_written_witness :
  exists pieces,
    values {| sql := Template.students_in_courses_sql;
              values := [PVal (Arr ["1"; ""; " 2"]); PVal (Arr ["1"; ""; " 2"])] |}
    = [PVal (Arr pieces); PVal (Arr pieces)]
    /\ String.concat "," pieces = "1,, 2"
    /\ Forall (fun piece => occurrences "," piece = 0%nat) pieces
    /\ length pieces = S (occurrences "," "1,, 2").
Proof.
  apply (courseIds_are_bound_as_written
           (Http.make [] [("courseIds", Str "1,, 2")]) Sample.no_rows "1,, 2").
  - reflexivity.
  - left. reflexivity.
Defined.

End HandlerOutcomes.

(** * The route table and the start-up sequence *)

Section RouterFacts.

Import App Router.

Lemma same_text_trans a b x :
  same_text a x = true -> same_text b x = true -> same_text a b = true.
Proof.
  unfold same_text. intros Ha Hb.
  apply String.eqb_eq in Ha, Hb. apply String.eqb_eq. congruence.
Qed.

(** Two patterns that match one path overlap. *)
Lemma match_path_overlap p q path cs1 cs2 :
  match_path p path = Some cs1 -> match_path q path = Some cs2 ->
  overlap p q = true.
Proof.
  revert q path cs1 cs2.
  induction p as [|s p IH]; intros q path cs1 cs2 H1 H2;
    destruct q as [|t q], path as [|x path]; simpl in *;
    try discriminate; try reflexivity;
    try (destruct s; discriminate); try (destruct t; discriminate).
  destruct s as [a|n], t as [b|m].
  - destruct (same_text a x) eqn:Ea; [|discriminate].
    destruct (same_text b x) eqn:Eb; [|discriminate].
    rewrite (same_text_trans a b x Ea Eb). simpl. exact (IH _ _ _ _ H1 H2).
  - destruct (same_text a x); [|discriminate].
    destruct (String.eqb x ""); [discriminate|].
    destruct (match_path q path) eqn:E; [|discriminate].
    exact (IH _ _ _ _ H1 E).
  - destruct (String.eqb x ""); [discriminate|].
    destruct (same_text b x); [|discriminate].
    destruct (match_path p path) eqn:E; [|discriminate].
    exact (IH _ _ _ _ E H2).
  - destruct (String.eqb x ""); [discriminate|].
    destruct (match_path p path) eqn:E; [|discriminate].
    destruct (match_path q path) eqn:E'; [|discriminate].
    exact (IH _ _ _ _ E E').
Qed.

Lemma both_students_routes path cs1 cs2 :
  match_path [Lit "api"; Lit "students"; Lit "grade"; Param "grade"] path
  = Some cs1 ->
  match_path [Lit "api"; Lit "students"; Param "studentId"; Lit "enrollments"]
    path = Some cs2 ->
  grade_enrollments_path path.
Proof.
  destruct path as [|a [|s [|g [|e [|x path]]]]]; cbn [match_path];
    try discriminate.
  - destruct (same_text "api" a); discriminate.
  - destruct (same_text "api" a); [|discriminate].
    destruct (same_text "students" s); discriminate.
  - destruct (same_text "api" a); [|discriminate].
    destruct (same_text "students" s); [|discriminate].
    destruct (same_text "grade" g); discriminate.
  - destruct (same_text "api" a) eqn:Ea; [|discriminate].
    destruct (same_text "students" s) eqn:Es; [|discriminate].
    destruct (same_text "grade" g) eqn:Eg; [|discriminate].
    destruct (String.eqb g ""); [discriminate|].
    destruct (same_text "enrollments" e) eqn:Ee; [|discriminate].
    intros _ _. exists a, s, g, e. auto.
  - destruct (same_text "api" a); [|discriminate].
    destruct (same_text "students" s); [|discriminate].
    destruct (same_text "grade" g); [|discriminate].
    destruct (String.eqb e ""); discriminate.
Qed.

(** X8.  The route table is unambiguous but for one family of paths: two
    registered routes that match the same path lead to the same handler,
    except that /api/students/grade/enrollments (in any letter case)
    matches both students-by-grade and student-enrollments. *)
Theorem routes_overlap_only_on_grade_enrollments
  p1 e1 p2 e2 path cs1 cs2 :
  In (p1, e1) routes -> In (p2, e2) routes ->
  match_path p1 path = Some cs1 -> match_path p2 path = Some cs2 ->
  e1 = e2
  \/ (grade_enrollments_path path
      /\ ((e1 = Report StudentsByGrade /\ e2 = Report StudentEnrollments)
          \/ (e1 = Report StudentEnrollments /\ e2 = Report StudentsByGrade))).
Proof.
  intros H1 H2 M1 M2.
  pose proof (match_path_overlap p1 p2 path cs1 cs2 M1 M2) as Hov.
  unfold routes in H1, H2. simpl in H1, H2.
  repeat (destruct H1 as [H1|H1]; [inversion H1; subst p1 e1; clear H1|]);
    try contradiction;
    repeat (destruct H2 as [H2|H2]; [inversion H2; subst p2 e2; clear H2|]);
    try contradiction;
    try (left; reflexivity);
    try (vm_compute in Hov; discriminate).
  - right. split; [exact (both_students_routes path cs1 cs2 M1 M2)|]. auto.
  - right. split; [exact (both_students_routes path cs2 cs1 M2 M1)|]. auto.
Qed.

Lemma routes_overlap_only_on_grade_enrollments_witness :
  Report StudentsByGrade = Report StudentEnrollments
  \/ (grade_enrollments_path ["api"; "students"; "Grade"; "enrollments"]
      /\ ((Report StudentsByGrade = Report StudentsByGrade
           /\ Report StudentEnrollments = Report StudentEnrollments)
          \/ (Report StudentsByGrade = Report StudentEnrollments
              /\ Report StudentEnrollments = Report StudentsByGrade))).
Proof.
  apply (routes_overlap_only_on_grade_enrollments
           [Lit "api"; Lit "students"; Lit "grade"; Param "grade"] _
           [Lit "api"; Lit "students"; Param "studentId"; Lit "enrollments"] _
           ["api"; "students"; "Grade"; "enrollments"]
           [("grade", "enrollments")] [("studentId", "Grade")]).
  - left. reflexivity.
  - right. left. reflexivity.
  - reflexivity.
  - reflexivity.
Defined.

(** X9.  Because students-by-grade is registered first, a request
    GET /api/students/<segment>/enrollments with a non-empty segment is
    served by students-by-grade, with grade "enrollments", when the
    segment as received is "grade" in any letter case; with every other
    segment it is served by student-enrollments, with studentId the
    percent-decoded segment, or answered 400 by the framework when the
    segment does not decode.  So the enrollments of a student whose id is
    "grade" can be requested only with an escaped spelling of the id. *)
Theorem student_enrollments_is_shadowed_for_grade id :
  id <> "" ->
  dispatch ["api"; "students"; id; "enrollments"]
  = if same_text "grade" id
    then Served (Report StudentsByGrade) [("grade", "enrollments")]
    else match Js.decodeURIComponent id with
         | Some studentId =>
             Served (Report StudentEnrollments) [("studentId", studentId)]
         | None => BadRequest
         end.
Proof.
  intros Hid. unfold dispatch, routes. cbn [first_match match_path].
  change (same_text "api" "api") with true.
  change (same_text "students" "students") with true.
  change (same_text "enrollments" "enrollments") with true.
  cbn iota.
  destruct (same_text "grade" id); [reflexivity|].
  destruct (String.eqb_spec id "") as [->|_]; [contradiction|].
  cbn [option_map decode_params].
  destruct (Js.decodeURIComponent id); reflexivity.
Qed.

(** The ids 7 and Grade, the id grade with an escaped letter, and a
    segment that does not decode. *)
Lemma student_enrollments_is_shadowed_for_grade_witness :
  dispatch ["api"; "students"; "7"; "enrollments"]
  = Served (Report StudentEnrollments) [("studentId", "7")]
  /\ dispatch ["api"; "students"; "Grade"; "enrollments"]
     = Served (Report StudentsByGrade) [("grade", "enrollments")]
  /\ dispatch ["api"; "students"; "gr%61de"; "enrollments"]
     = Served (Report StudentEnrollments) [("studentId", "grade")]
  /\ dispatch ["api"; "students"; "%zz"; "enrollments"] = BadRequest.
Proof.
  split; [|split; [|split]].
  - apply (student_enrollments_is_shadowed_for_grade "7"). discriminate.
  - apply (student_enrollments_is_shadowed_for_grade "Grade"). discriminate.
  - apply (student_enrollments_is_shadowed_for_grade "gr%61de"). discriminate.
  - apply (student_enrollments_is_shadowed_for_grade "%zz"). discriminate.
Defined.

End RouterFacts.

Section StartupFacts.

Import Startup.
Local Open Scope list_scope.

Lemma retries_of_failures fs rest :
  Forall (fun a => failed a = true) fs ->
  retries (fs ++ rest) = retries fs ++ retries rest.
Proof.
  induction 1 as [|a fs Ha _ IH]; simpl; [reflexivity|].
  rewrite Ha, IH, app_assoc. reflexivity.
Qed.

Lemma retries_timeouts fs :
  Forall (fun a => failed a = true) fs ->
  length (filter is_timeout (retries fs)) = length fs
  /\ filter is_listen (retries fs) = [].
Proof.
  induction 1 as [|a fs Ha _ [IHt IHl]]; simpl; [split; reflexivity|].
  rewrite Ha, !filter_app, length_app, IHt, IHl.
  destruct a; try discriminate; split; reflexivity.
Qed.

(** X10.  When the attempts to connect fail a number of times and then one
    succeeds: the server starts listening right after the first attempt,
    whether or not it succeeded, and does so once; every failed attempt
    sets one timer of 5000 ms for the next; and after the successful
    attempt nothing more is tried. *)
Theorem startup_listens_after_first_attempt_and_retries_until_connected
  fs rest :
  Forall (fun a => failed a = true) fs ->
  start (fs ++ Connected :: rest) = start (fs ++ [Connected])
  /\ (exists later,
        start (fs ++ Connected :: rest)
        = initializeDatabase (hd Connected fs) ++ Listen :: later
        /\ filter is_listen later = [])
  /\ length (filter is_timeout (start (fs ++ Connected :: rest))) = length fs
  /\ Forall (fun e => forall ms, e = SetTimeout ms -> ms = 5000)
       (start (fs ++ Connected :: rest)).
Proof.
  intros Hfs. destruct Hfs as [|a fs Ha Hfs].
  - simpl. split; [reflexivity|]. split; [exists []; split; reflexivity|].
    split; [reflexivity|]. repeat constructor; discriminate.
  - cbn [app start hd]. rewrite Ha.
    rewrite !(retries_of_failures fs _ Hfs). cbn [retries failed].
    rewrite !app_nil_r.
    destruct (retries_timeouts fs Hfs) as [Ht Hl].
    split; [reflexivity|]. split; [|split].
    + eexists. split; [reflexivity|]. rewrite filter_app, Hl. reflexivity.
    + rewrite filter_app. cbn [filter is_timeout].
      rewrite filter_app, !length_app, Ht.
      destruct a; try discriminate; simpl; lia.
    + apply Forall_app. split.
      { destruct a; repeat constructor; intros ms E; inversion E;
          reflexivity || discriminate. }
      constructor; [discriminate|]. apply Forall_app. split.
      * clear Ht Hl. induction Hfs as [|b fs Hb _ IH]; simpl; [constructor|].
        rewrite Hb. apply Forall_app. split; [|exact IH].
        destruct b; repeat constructor; intros ms E; inversion E;
          reflexivity || discriminate.
      * repeat constructor; discriminate.
Qed.

Lemma startup_listens_after_first_attempt_and_retries_until_connected_witness :
  length (filter is_timeout
            (start ([QueryRejected; CreatePoolThrew] ++ Connected :: [QueryRejected])))
  = 2%nat.
Proof.
  apply (startup_listens_after_first_attempt_and_retries_until_connected
           [QueryRejected; CreatePoolThrew] [QueryRejected]).
  repeat constructor.
Defined.

End StartupFacts.

(** * Further properties of the queries *)

(** ** GROUP BY partitions the rows *)

Lemma flat_map_agree {A B} (f g : A -> list B) (l : list A) :
  (forall a, In a l -> f a = g a) -> flat_map f l = flat_map g l.
Proof.
  induction l as [|a l IH]; simpl; intros H; [reflexivity|].
  rewrite (H a), IH; auto.
Qed.

Lemma flat_map_nil {A B} (l : list A) :
  flat_map (fun _ : A => @nil B) l = [].
Proof. induction l; simpl; auto. Qed.

Section PartitionFacts.

Import Rel.
Context {Row K : Type}.
Variable key : Row -> K.
Variable eqb : K -> K -> bool.
Hypothesis eqb_eq : forall a b, eqb a b = true <-> a = b.

Lemma In_distinct k l : In k l -> In k (distinct eqb l).
Proof.
  induction l as [|a l IH]; simpl; [auto|].
  intros [->|H]; [auto|].
  destruct (eqb a k) eqn:E.
  - left. apply eqb_eq, E.
  - right. apply filter_In. split; [auto|]. rewrite E. reflexivity.
Qed.

Lemma distinct_NoDup l : NoDup (distinct eqb l).
Proof.
  induction l as [|a l IH]; simpl; constructor.
  - intros H. apply filter_In in H as [_ H].
    rewrite (proj2 (eqb_eq a a) eq_refl) in H. discriminate.
  - apply NoDup_filter, IH.
Qed.

(** A group holds the rows with its key, and there is at least one. *)
Lemma group_by_In k g rows :
  In (k, g) (group_by key eqb rows) ->
  g = filter (fun r => eqb (key r) k) rows /\ g <> []
  /\ Forall (fun r => key r = k /\ In r rows) g.
Proof.
  unfold group_by. intros H. apply in_map_iff in H as (k' & E & Hk).
  inversion E; subst k' g. clear E.
  split; [reflexivity|]. split.
  - apply (distinct_In eqb) in Hk. apply in_map_iff in Hk as (r & <- & Hr).
    intros Hnil.
    assert (Hin : In r (filter (fun r0 => eqb (key r0) (key r)) rows)).
    { apply filter_In. split; [exact Hr|]. apply eqb_eq. reflexivity. }
    rewrite Hnil in Hin. destruct Hin.
  - apply Forall_forall. intros r Hr. apply filter_In in Hr as [Hr E].
    split; [apply eqb_eq, E|exact Hr].
Qed.

Lemma flat_map_one_more (F : K -> list Row) (r : Row) (ks : list K) :
  NoDup ks -> In (key r) ks ->
  Permutation
    (r :: flat_map F ks)
    (flat_map (fun k => if eqb (key r) k then r :: F k else F k) ks).
Proof.
  induction ks as [|k ks IH]; simpl; intros Hnd Hin; [contradiction|].
  inversion Hnd as [|? ? Hnotin Hnd']; subst.
  destruct (eqb (key r) k) eqn:E.
  - apply eqb_eq in E. subst k. simpl. apply perm_skip.
    apply Permutation_app_head.
    apply Permutation_refl'. apply flat_map_agree.
    intros k Hk.
    destruct (eqb (key r) k) eqn:E'; [|reflexivity].
    apply eqb_eq in E'. subst k. contradiction.
  - destruct Hin as [Hin|Hin].
    + subst k. rewrite (proj2 (eqb_eq _ _) eq_refl) in E. discriminate.
    + rewrite (Permutation_middle (F k) (flat_map F ks) r).
      apply Permutation_app_head. apply IH; assumption.
Qed.

Lemma groups_over_keys rows ks :
  NoDup ks -> (forall r, In r rows -> In (key r) ks) ->
  Permutation rows
    (flat_map (fun k => filter (fun r => eqb (key r) k) rows) ks).
Proof.
  intros Hnd. induction rows as [|r rows IH]; intros Hkeys.
  - simpl. rewrite flat_map_nil. constructor.
  - simpl filter.
    rewrite <- (flat_map_one_more
                  (fun k => filter (fun r0 => eqb (key r0) k) rows) r ks Hnd)
      by (apply Hkeys; left; reflexivity).
    apply perm_skip. apply IH. intros r0 Hr0. apply Hkeys. right. exact Hr0.
Qed.

(** The groups, put together, are the rows. *)
Lemma group_by_partition rows :
  Permutation rows (flat_map snd (group_by key eqb rows)).
Proof.
  unfold group_by. rewrite flat_map_concat_map, map_map, <- flat_map_concat_map.
  apply groups_over_keys; [apply distinct_NoDup|].
  intros r Hr. apply In_distinct, in_map, Hr.
Qed.

Lemma group_by_keys_NoDup rows : NoDup (map fst (group_by key eqb rows)).
Proof.
  unfold group_by. rewrite map_map. simpl. rewrite map_id.
  apply distinct_NoDup.
Qed.

End PartitionFacts.

(** ** Averages *)

Section AverageFacts.

Import Schema Rel Tables.
Local Open Scope Q_scope.

Lemma count_Q_S n : count_Q (S n) == count_Q n + 1.
Proof.
  unfold count_Q. rewrite Nat2Z.inj_succ, <- Z.add_1_r, inject_Z_plus.
  reflexivity.
Qed.

Lemma count_Q_pos n : 0 < count_Q (S n).
Proof. unfold count_Q, Qlt. simpl. lia. Qed.

Lemma total_in_range xs :
  Forall in_gpa_range xs ->
  0 <= total xs /\ total xs <= 4 * count_Q (length xs).
Proof.
  induction 1 as [|x xs [Hx0 Hx4] _ [IH0 IH4]]; simpl.
  - split; unfold Qle; simpl; lia.
  - rewrite count_Q_S. split; lra.
Qed.

Lemma mean_in_range x xs :
  Forall in_gpa_range (x :: xs) ->
  in_gpa_range (total (x :: xs) / count_Q (length (x :: xs))).
Proof.
  intros H. destruct (total_in_range _ H) as [H0 H4].
  pose proof (count_Q_pos (length xs)) as Hpos. split.
  - apply Qle_shift_div_l; [exact Hpos|]. lra.
  - apply Qle_shift_div_r; [exact Hpos|]. exact H4.
Qed.

(** An average of grade points, when it is not NULL, is between 0 and 4. *)
Lemma AVG_in_range (l : list (option Q)) g :
  Forall in_gpa_range (non_null l) -> AVG l = Some g -> in_gpa_range g.
Proof.
  unfold AVG. intros H. destruct (non_null l) as [|x xs]; [discriminate|].
  intros E. inversion E. apply mean_in_range, H.
Qed.

Lemma AVG_some_in_range (l : list (option Q)) :
  Forall in_gpa_range (non_null l) -> non_null l <> [] ->
  exists g, AVG l = Some g /\ in_gpa_range g.
Proof.
  unfold AVG. intros H Hne. destruct (non_null l) as [|x xs]; [contradiction|].
  eexists. split; [reflexivity|]. apply mean_in_range, H.
Qed.

Lemma grade_points_in_range g x :
  grade_points g = Some x -> in_gpa_range x.
Proof.
  destruct g as [[]|]; simpl; intros E; inversion E; split; lra.
Qed.

Lemma grade_points_else_zero_in_range g :
  exists x, grade_points_else_zero g = Some x /\ in_gpa_range x.
Proof.
  destruct g as [[]|]; simpl; eexists; (split; [reflexivity|split; lra]).
Qed.

Lemma non_null_In {A} (l : list (option A)) x :
  In x (non_null l) <-> In (Some x) l.
Proof.
  unfold non_null. rewrite in_flat_map. split.
  - intros ([y|] & Hy & Hx); [|destruct Hx].
    destruct Hx as [<-|[]]. exact Hy.
  - intros H. exists (Some x). split; [exact H|left; reflexivity].
Qed.

End AverageFacts.

(** ** Popular courses *)

Section PopularCoursesFacts.

Import Schema Rel Tables PopularCourses.
Local Open Scope Q_scope.

Lemma pop_key_eqb_eq a b : PopularCourses.key_eqb a b = true <-> a = b.
Proof.
  destruct a as [[id1 n1] c1], b as [[id2 n2] c2].
  unfold PopularCourses.key_eqb.
  rewrite !andb_true_iff, !Z.eqb_eq, !String.eqb_eq.
  split; [intros [[-> ->] ->]; reflexivity|].
  intros E. inversion E. auto.
Qed.

Lemma pop_select_count k rows :
  enrollment_count (select (k, rows)) = Z.of_nat (length rows).
Proof.
  destruct k as [[id name] cr]. unfold select. cbn [fst snd enrollment_count].
  unfold COUNT. rewrite non_null_map_Some, length_map. reflexivity.
Qed.

Lemma pop_select_average k rows :
  rows <> [] ->
  exists g, average_gpa (select (k, rows)) = Some g /\ in_gpa_range g.
Proof.
  intros Hne. destruct k as [[id name] cr]. unfold select.
  cbn [fst snd average_gpa]. apply AVG_some_in_range.
  - apply Forall_forall. intros x Hx. apply non_null_In in Hx.
    apply in_map_iff in Hx as (r & Hr & _).
    destruct (grade_points_else_zero_in_range (Enrollment.grade (snd r)))
      as (y & Hy & Hrange).
    congruence.
  - destruct rows as [|r rows]; [contradiction|]. simpl.
    destruct (grade_points_else_zero_in_range (Enrollment.grade (snd r)))
      as (y & -> & _).
    discriminate.
Qed.

(** X11.  Every row of popular-courses belongs to a course with at least
    one enrollment and at least as many as the threshold, and its
    average_gpa is never NULL and lies between 0 and 4. *)
Theorem popular_courses_rows_are_enrolled_and_in_range db minEnrollments rs r :
  results db minEnrollments rs ->
  In r rs ->
  (1 <= enrollment_count r)%Z
  /\ minEnrollments <= inject_Z (enrollment_count r)
  /\ exists g, average_gpa r = Some g /\ 0 <= g /\ g <= 4.
Proof.
  intros [Hperm _] Hr.
  apply (Permutation_in _ (Permutation_sym Hperm)) in Hr.
  apply filter_In in Hr as [Hr Hhaving].
  apply in_map_iff in Hr as ([k rows] & <- & Hg).
  apply (group_by_In group_key key_eqb pop_key_eqb_eq) in Hg
    as (_ & Hne & _).
  split; [|split].
  - rewrite pop_select_count. destruct rows; [contradiction|]. simpl length.
    lia.
  - unfold having, ge, holds in Hhaving.
    destruct (Qle_bool minEnrollments
                (inject_Z (enrollment_count (select (k, rows))))) eqn:E;
      [|discriminate].
    apply Qle_bool_iff, E.
  - destruct (pop_select_average k rows Hne) as (g & Hg & H0 & H4). eauto.
Qed.

Lemma popular_courses_rows_are_enrolled_and_in_range_witness :
  Forall (fun r =>
            (1 <= enrollment_count r)%Z
            /\ 1 <= inject_Z (enrollment_count r)
            /\ exists g, average_gpa r = Some g /\ 0 <= g /\ g <= 4)
    (PopularCourses.run Sample.in_progress 1).
Proof.
  apply Forall_forall. intros r.
  apply (popular_courses_rows_are_enrolled_and_in_range Sample.in_progress 1
           (PopularCourses.run Sample.in_progress 1) r).
  split; [apply Permutation_refl|]. repeat constructor.
Defined.

Lemma NoDup_map_filter {A B} (f : A -> B) (p : A -> bool) (l : list A) :
  NoDup (map f l) -> NoDup (map f (filter p l)).
Proof.
  induction l as [|a l IH]; simpl; intros H; [constructor|].
  inversion H as [|? ? Hnotin Hnd]; subst.
  destruct (p a); simpl; [constructor|]; auto.
  intros Hin. apply Hnotin. apply in_map_iff in Hin as (x & Hx & Hin).
  apply filter_In in Hin as [Hin _]. rewrite <- Hx. apply in_map, Hin.
Qed.

Lemma filter_map_commute {A B} (f : A -> B) (p : B -> bool) (l : list A) :
  filter p (map f l) = map f (filter (fun a => p (f a)) l).
Proof.
  induction l as [|a l IH]; simpl; [reflexivity|].
  destruct (p (f a)); simpl; rewrite IH; reflexivity.
Qed.

(** Under the primary key of courses: one candidate row per course that
    has an enrollment, counting that course's enrollments. *)
Lemma pop_qualifying_by_course db m :
  NoDup (map Course.course_id (Schema.courses db)) ->
  qualifying db m
  = map (fun c => select (pop_course_key c, pop_rows_of db c))
        (filter (fun c =>
                   having m (select (pop_course_key c, pop_rows_of db c)))
           (filter (fun c => has_rows (pop_rows_of db c))
                   (Schema.courses db))).
Proof.
  intros Hpk. unfold qualifying.
  change (joined db) with (flat_map (pop_rows_of db) (Schema.courses db)).
  rewrite (group_by_blocks group_key key_eqb pop_key_eqb_eq pop_course_key).
  - rewrite map_map. apply filter_map_commute.
  - revert Hpk. apply NoDup_map_finer. intros x y E. inversion E. reflexivity.
  - intros c r _ Hr. apply in_map_iff in Hr as (e & <- & _). reflexivity.
Qed.

(** X12.  Under the primary key of courses, popular-courses returns
    exactly the courses that have at least one enrollment and at least
    minEnrollments of them, each once, with enrollment_count the number of
    the course's enrollments: a course without enrollments never appears,
    whatever the threshold. *)
Theorem popular_courses_are_the_courses_at_threshold db minEnrollments rs :
  NoDup (map Course.course_id (Schema.courses db)) ->
  results db minEnrollments rs ->
  NoDup (map course_id rs)
  /\ forall id n,
       In (id, n) (map (fun r => (course_id r, enrollment_count r)) rs)
       <-> exists c,
             In c (Schema.courses db)
             /\ Course.course_id c = id
             /\ n = Z.of_nat (length (enrollments_in db c))
             /\ (1 <= n)%Z
             /\ minEnrollments <= inject_Z n.
Proof.
  intros Hpk [Hperm _].
  rewrite (pop_qualifying_by_course db minEnrollments Hpk) in Hperm.
  assert (Hid : forall c,
             course_id (select (pop_course_key c, pop_rows_of db c))
             = Course.course_id c) by reflexivity.
  assert (Hcount : forall c,
             enrollment_count (select (pop_course_key c, pop_rows_of db c))
             = Z.of_nat (length (enrollments_in db c))).
  { intros c. rewrite pop_select_count. unfold pop_rows_of.
    rewrite length_map. reflexivity. }
  assert (Hhaving : forall c,
             having minEnrollments (select (pop_course_key c, pop_rows_of db c))
             = true
             <-> minEnrollments
                 <= inject_Z (Z.of_nat (length (enrollments_in db c)))).
  { intros c. unfold having, ge, holds. rewrite Hcount.
    destruct (Qle_bool minEnrollments
                (inject_Z (Z.of_nat (length (enrollments_in db c))))) eqn:E.
    - split; [intros _; apply Qle_bool_iff, E|reflexivity].
    - split; [discriminate|]. intros H. apply Qle_bool_iff in H. congruence. }
  assert (Hrows : forall c,
             has_rows (pop_rows_of db c) = true
             <-> (1 <= Z.of_nat (length (enrollments_in db c)))%Z).
  { intros c. unfold pop_rows_of.
    destruct (enrollments_in db c); simpl; split; try discriminate;
      try reflexivity; lia. }
  split.
  - apply (Permutation_map course_id) in Hperm.
    apply (Permutation_NoDup Hperm).
    rewrite map_map. rewrite (map_ext _ Course.course_id) by exact Hid.
    apply NoDup_map_filter, NoDup_map_filter, Hpk.
  - intros id n. split.
    + intros H. apply in_map_iff in H as (r & E & Hr).
      apply (Permutation_in _ (Permutation_sym Hperm)) in Hr.
      apply in_map_iff in Hr as (c & <- & Hc).
      apply filter_In in Hc as [Hc Hh]. apply filter_In in Hc as [Hc Hr].
      rewrite Hid, Hcount in E. inversion E; subst id n.
      exists c. repeat split; [exact Hc|apply Hrows, Hr|apply Hhaving, Hh].
    + intros (c & Hc & <- & -> & H1 & Hm).
      apply in_map_iff.
      exists (select (pop_course_key c, pop_rows_of db c)). split.
      * rewrite Hid, Hcount. reflexivity.
      * apply (Permutation_in _ Hperm).
        apply (in_map (fun c => select (pop_course_key c, pop_rows_of db c))).
        apply filter_In. split; [|apply Hhaving, Hm].
        apply filter_In. split; [exact Hc|apply Hrows, H1].
Qed.

Lemma popular_courses_are_the_courses_at_threshold_witness :
  NoDup (map course_id (PopularCourses.run Sample.in_progress 2))
  /\ In (1%Z, 2%Z)
       (map (fun r => (course_id r, enrollment_count r))
            (PopularCourses.run Sample.in_progress 2)).
Proof.
  destruct (popular_courses_are_the_courses_at_threshold Sample.in_progress 2
              (PopularCourses.run Sample.in_progress 2)) as [Hnd Hiff].
  - repeat constructor; simpl; intuition discriminate.
  - split; [apply Permutation_refl|]. repeat constructor.
  - split; [exact Hnd|]. apply Hiff. exists Sample.algebra.
    repeat split; try reflexivity; try discriminate.
    left. reflexivity.
Defined.

End PopularCoursesFacts.

(** ** Rounding and the weighted GPA *)

Section RoundingFacts.

Import Rel.
Local Open Scope Q_scope.

Lemma round_half_away_range x n :
  0 <= x -> x <= inject_Z n ->
  (0 <= round_half_away x /\ round_half_away x <= n)%Z.
Proof.
  intros H0 Hn. unfold round_half_away.
  rewrite (proj2 (Qle_bool_iff 0 x) H0). split.
  - change 0%Z with (Qfloor 0). apply Qfloor_resp_le. lra.
  - pose proof (Qfloor_le (x + (1 # 2))) as Hle.
    assert (Hlt : inject_Z (Qfloor (x + (1 # 2))) < inject_Z (n + 1)).
    { rewrite inject_Z_plus. change (inject_Z 1) with 1. lra. }
    rewrite <- Zlt_Qlt in Hlt. lia.
Qed.

(** Rounding to two decimals keeps a value between 0 and 4 there. *)
Lemma ROUND2_in_range x g :
  0 <= x -> x <= 4 -> ROUND2 (Some x) = Some g -> 0 <= g /\ g <= 4.
Proof.
  intros H0 H4 E.
  assert (Eg : g = Qred (inject_Z (round_half_away (x * 100)) / 100))
    by (change (Some (Qred (inject_Z (round_half_away (x * 100)) / 100))
                = Some g) in E; congruence).
  rewrite Eg. clear E Eg g.
  destruct (round_half_away_range (x * 100) 400) as [Hz0 Hz4].
  - lra.
  - change (inject_Z 400) with 400. lra.
  - rewrite !Qred_correct.
    rewrite Zle_Qle in Hz0, Hz4.
    change (inject_Z 0) with 0 in Hz0. change (inject_Z 400) with 400 in Hz4.
    split.
    + apply Qle_shift_div_l; lra.
    + apply Qle_shift_div_r; lra.
Qed.

End RoundingFacts.

Section WeightedGpaRange.

Import Schema Rel Tables TopPerformers.
Local Open Scope Q_scope.

Lemma weighted_points_range g cr x :
  (0 <= cr)%Z -> weighted_points g cr = Some x ->
  0 <= x /\ x <= 4 * inject_Z cr.
Proof.
  intros Hcr. rewrite Zle_Qle in Hcr. change (inject_Z 0) with 0 in Hcr.
  destruct g as [[]|]; simpl; intros E; inversion E; split; lra.
Qed.

Lemma weighted_sums_range (rows : list joined_row) :
  Forall (fun r => (0 <= c_credits r)%Z) rows ->
  0 <= total (non_null (map (fun r => weighted_points (e_grade r) (c_credits r)) rows))
  /\ total (non_null (map (fun r => weighted_points (e_grade r) (c_credits r)) rows))
     <= 4 * total (map (fun r => inject_Z (c_credits r)) rows)
  /\ 0 <= total (map (fun r => inject_Z (c_credits r)) rows).
Proof.
  induction 1 as [|r rows Hr _ (IH0 & IH4 & IHc)]; simpl.
  - repeat split; unfold Qle; simpl; lia.
  - assert (Hc : 0 <= inject_Z (c_credits r)).
    { rewrite Zle_Qle in Hr. exact Hr. }
    destruct (weighted_points (e_grade r) (c_credits r)) as [x|] eqn:E.
    + destruct (weighted_points_range _ _ _ Hr E) as [Hx0 Hx4].
      simpl. repeat split; lra.
    + simpl. repeat split; lra.
Qed.

(** X13.  When no course has negative credits, every weighted_gpa that
    top-performers returns is a number between 0 and 4 (a NULL one is
    never returned). *)
Theorem weighted_gpa_is_between_0_and_4 db mc mg rs r :
  Forall (fun c => (0 <= Course.credits c)%Z) (Schema.courses db) ->
  results db mc mg rs ->
  In r rs ->
  exists g, weighted_gpa r = Some g /\ 0 <= g /\ g <= 4.
Proof.
  intros Hcredits Hrs Hr.
  destruct (top_results_qualify db mc mg rs r Hrs Hr) as [Hg Hh].
  apply having_spec in Hh as (_ & g & Hgpa & _).
  exists g. split; [exact Hgpa|].
  unfold grouped in Hg. apply in_map_iff in Hg as ([k rows] & <- & Hgroup).
  apply (group_by_In group_key key_eqb top_key_eqb_eq) in Hgroup
    as (_ & _ & Hrows).
  assert (Hnonneg : Forall (fun r => (0 <= c_credits r)%Z) rows).
  { rewrite Forall_forall in *. intros r0 Hr0.
    destruct (Hrows r0 Hr0) as [_ Hin]. apply inner_join_snd in Hin.
    apply Hcredits, Hin. }
  destruct k as [[[[id fn] ln] em] gr]. unfold select in Hgpa.
  cbn [fst snd weighted_gpa] in Hgpa. unfold weighted_gpa_of in Hgpa.
  destruct (weighted_sums_range rows Hnonneg) as (H0 & H4 & Hc).
  rewrite (SUM_map_Some (fun r => inject_Z (c_credits r))) in Hgpa.
  2:{ intros ->. cbv in Hgpa. discriminate. }
  unfold SUM in Hgpa at 1.
  destruct (non_null (map (fun r => weighted_points (e_grade r) (c_credits r))
                          rows)) as [|x xs] eqn:E; [discriminate|].
  unfold div in Hgpa.
  destruct (Qeq_bool (total (map (fun r => inject_Z (c_credits r)) rows)) 0)
    eqn:Ez; [discriminate|].
  assert (Hpos : 0 < total (map (fun r => inject_Z (c_credits r)) rows)).
  { apply Qle_lteq in Hc. destruct Hc as [Hc|Hc]; [exact Hc|].
    symmetry in Hc. apply Qeq_bool_iff in Hc. congruence. }
  apply (ROUND2_in_range _ g) in Hgpa; [exact Hgpa| |].
  - apply Qle_shift_div_l; [exact Hpos|]. lra.
  - apply Qle_shift_div_r; [exact Hpos|]. exact H4.
Qed.

Lemma weighted_gpa_is_between_0_and_4_witness :
  Forall (fun r => exists g, weighted_gpa r = Some g /\ 0 <= g /\ g <= 4)
    (TopPerformers.run Sample.in_progress 1 1).
Proof.
  apply Forall_forall. intros r.
  apply (weighted_gpa_is_between_0_and_4 Sample.in_progress 1 1).
  - repeat constructor; discriminate.
  - apply top_run_is_result.
Defined.

End WeightedGpaRange.

(** ** Joins along a key *)

Section KeyedJoins.

Import Rel.
Local Open Scope list_scope.

(** A key column holds a value at most once. *)
Lemma filter_key_at_most_one {A} (f : A -> Z) (l : list A) (z : Z) :
  NoDup (map f l) -> (length (filter (fun a => (z =? f a)%Z) l) <= 1)%nat.
Proof.
  induction l as [|a l IH]; simpl; intros H; [lia|].
  inversion H as [|? ? Hnotin Hnd]; subst.
  destruct (z =? f a) eqn:E; [|auto].
  apply Z.eqb_eq in E. subst z. simpl.
  rewrite filter_none; [simpl; lia|].
  intros b Hb. apply Z.eqb_neq. intros Eb. apply Hnotin.
  rewrite Eb. apply in_map, Hb.
Qed.

Lemma filter_unique {A} (f : A -> Z) (p : A -> bool) (l : list A) :
  NoDup (map f l) ->
  (forall a b, In a l -> In b l -> p a = true -> p b = true -> f a = f b) ->
  (length (filter p l) <= 1)%nat.
Proof.
  induction l as [|a l IH]; simpl; intros H Hp; [lia|].
  inversion H as [|? ? Hnotin Hnd]; subst.
  destruct (p a) eqn:E; [|apply IH; auto].
  simpl. rewrite filter_none; [simpl; lia|].
  intros b Hb. destruct (p b) eqn:Eb; [|reflexivity].
  exfalso. apply Hnotin. rewrite (Hp a b); auto. apply in_map, Hb.
Qed.

Context {L R : Type}.

(** When a left row matches at most one right row, a LEFT JOIN keeps the
    left rows as they are. *)
Lemma left_join_keeps_left (on : L -> R -> bool) (ls : list L) (rs : list R) :
  (forall l, In l ls -> (length (filter (on l) rs) <= 1)%nat) ->
  map fst (left_join on ls rs) = ls.
Proof.
  unfold left_join.
  induction ls as [|l ls IH]; intros H; [reflexivity|].
  cbn [flat_map]. rewrite map_app, IH by (intros; apply H; right; assumption).
  specialize (H l (or_introl eq_refl)).
  destruct (filter (on l) rs) as [|r [|r' ms]]; simpl in *;
    [reflexivity|reflexivity|lia].
Qed.

(** When every left row matches exactly one right row, an INNER JOIN
    keeps the left rows as they are, also under a filter on them. *)
Lemma inner_join_keeps_left (on : L -> R -> bool) (p : L -> bool)
  (ls : list L) (rs : list R) :
  (forall l, In l ls -> length (filter (on l) rs) = 1%nat) ->
  map fst (filter (fun x => p (fst x)) (inner_join on ls rs)) = filter p ls.
Proof.
  unfold inner_join.
  induction ls as [|l ls IH]; intros H; [reflexivity|].
  cbn [flat_map].
  rewrite filter_app, map_app, IH by (intros; apply H; right; assumption).
  specialize (H l (or_introl eq_refl)).
  destruct (filter (on l) rs) as [|r [|r' ms]]; simpl in *; try discriminate.
  destruct (p l); reflexivity.
Qed.

Lemma inner_join_on (on : L -> R -> bool) (ls : list L) (rs : list R) x :
  In x (inner_join on ls rs) -> on (fst x) (snd x) = true.
Proof.
  unfold inner_join. intros H. apply in_flat_map in H as (l & _ & H).
  apply in_map_iff in H as (r & <- & H). apply filter_In in H as [_ H].
  exact H.
Qed.

End KeyedJoins.

(** ** All students with enrollments: the count *)

Section AllWithEnrollmentsCount.

Import Schema Rel Tables AllWithEnrollments.
Local Open Scope list_scope.

Lemma all_rows_keep_enrollments db s :
  NoDup (map Course.course_id (Schema.courses db)) ->
  map fst (rows_of db s) = left_join on_student [s] (Schema.enrollments db).
Proof.
  intros Hpk. unfold rows_of. apply left_join_keeps_left.
  intros [s' [e|]] _; unfold on_course; cbn [snd].
  - apply filter_key_at_most_one, Hpk.
  - rewrite filter_none by reflexivity. simpl. lia.
Qed.

Lemma all_total_enrollments db s :
  NoDup (map Course.course_id (Schema.courses db)) ->
  total_enrollments (select (student_key s, rows_of db s))
  = Z.of_nat (length (enrollments_of db s)).
Proof.
  intros Hpk. unfold select. cbn [fst snd student_key total_enrollments].
  rewrite <- (map_map fst (fun se => option_map Enrollment.enrollment_id (snd se))).
  rewrite (all_rows_keep_enrollments db s Hpk).
  unfold left_join, enrollments_of, COUNT. cbn [flat_map].
  change (filter (on_student s) (Schema.enrollments db))
    with (filter (fun e => Student.student_id s =? Enrollment.student_id e)
                 (Schema.enrollments db)).
  destruct (filter (fun e => Student.student_id s =? Enrollment.student_id e)
                   (Schema.enrollments db)) as [|e es]; [reflexivity|].
  rewrite app_nil_r, map_map. cbn [snd option_map].
  rewrite (non_null_map_Some Enrollment.enrollment_id).
  rewrite length_map. reflexivity.
Qed.

(** X14.  Under the primary keys of students and courses, the
    total_enrollments of a student's row in all-students-with-enrollments
    is the number of rows of the enrollments table with that student_id,
    whether or not the course of an enrollment exists. *)
Theorem total_enrollments_counts_enrollment_rows
  (collation_leb : string -> string -> bool) db rs :
  NoDup (map Student.student_id (Schema.students db)) ->
  NoDup (map Course.course_id (Schema.courses db)) ->
  results collation_leb db rs ->
  Permutation
    (map (fun s => (Student.student_id s,
                    Z.of_nat (length (enrollments_of db s))))
         (Schema.students db))
    (map (fun r => (student_id r, total_enrollments r)) rs).
Proof.
  intros Hs Hc [Hperm _].
  rewrite (all_grouped_by_student db Hs) in Hperm.
  apply (Permutation_map (fun r => (student_id r, total_enrollments r)))
    in Hperm.
  rewrite map_map in Hperm.
  erewrite map_ext; [exact Hperm|].
  intros s. cbv beta. rewrite (all_total_enrollments db s Hc). reflexivity.
Qed.

End AllWithEnrollmentsCount.

(** On the graded sample Emily has two enrollments and John none. *)
Lemma total_enrollments_counts_enrollment_rows_witness :
  Permutation
    [(1, 2); (2, 0)]
    (map (fun r => (AllWithEnrollments.student_id r,
                    AllWithEnrollments.total_enrollments r))
         (AllWithEnrollments.run String.leb Sample.graded)).
Proof.
  apply (total_enrollments_counts_enrollment_rows String.leb Sample.graded).
  - repeat constructor; simpl; intuition discriminate.
  - repeat constructor; simpl; intuition discriminate.
  - split; [apply Permutation_refl|]. repeat constructor.
Defined.

(** ** The enrollments of a student *)

Section StudentEnrollmentsFacts.

Import Schema Rel References StudentEnrollments.
Local Open Scope list_scope.

Lemma existsb_filter_nonempty {A} (p : A -> bool) (l : list A) :
  existsb p l = true -> filter p l <> [].
Proof.
  intros H. apply existsb_exists in H as (a & Ha & Hp). intros E.
  assert (Hin : In a (filter p l)) by (apply filter_In; auto).
  rewrite E in Hin. destruct Hin.
Qed.

(** Under the primary key of courses and the foreign key to it, an
    enrollment is joined with exactly one course. *)
Lemma one_course_per_enrollment db se :
  NoDup (map Course.course_id (Schema.courses db)) ->
  has_course db (snd se) = true ->
  length (filter (on_course se) (Schema.courses db)) = 1%nat.
Proof.
  intros Hpk Hfk.
  pose proof (filter_key_at_most_one Course.course_id (Schema.courses db)
                (Enrollment.course_id (snd se)) Hpk) as Hle.
  assert (Hne : filter (on_course se) (Schema.courses db) <> []).
  { intros E. unfold has_course in Hfk.
    apply existsb_exists in Hfk as (c & Hc & Hid).
    assert (Hin : In c (filter (on_course se) (Schema.courses db))).
    { apply filter_In. split; [exact Hc|]. unfold on_course.
      rewrite Z.eqb_sym. exact Hid. }
    rewrite E in Hin. destruct Hin. }
  unfold on_course in *.
  destruct (filter (fun c => Enrollment.course_id (snd se) =? Course.course_id c)
                   (Schema.courses db)) as [|c [|c' cs]];
    simpl in *; [contradiction|reflexivity|lia].
Qed.

Lemma same_number_same_id (a b : Z) (q : Q) :
  Qeq_bool (inject_Z a) q = true -> Qeq_bool (inject_Z b) q = true -> a = b.
Proof.
  intros Ha Hb. apply Qeq_bool_iff in Ha, Hb.
  rewrite <- Hb in Ha. unfold Qeq in Ha. simpl in Ha. lia.
Qed.

Lemma same_id_same_number (a b : Z) (q : Q) :
  a = b -> Qeq_bool (inject_Z a) q = Qeq_bool (inject_Z b) q.
Proof. intros ->. reflexivity. Qed.

(** The student pairs of the first join that pass the filter carry
    exactly the enrollments with the bound student_id, in table order. *)
Lemma enrollments_of_matching_students db studentId :
  NoDup (map Student.student_id (Schema.students db)) ->
  Forall (fun e => has_student db e = true) (Schema.enrollments db) ->
  map snd
      (filter (fun se => student_matches studentId (fst se))
              (inner_join on_student (Schema.students db)
                          (Schema.enrollments db)))
  = enrollments_with db studentId.
Proof.
  intros Hpk Hfk. unfold inner_join.
  rewrite (filter_flat_map _ (student_matches studentId)).
  2:{ intros s x _ Hx. apply in_map_iff in Hx as (e & <- & _). reflexivity. }
  pose proof (filter_unique Student.student_id (student_matches studentId)
                (Schema.students db) Hpk) as Hle.
  assert (Hin : forall s, In s (filter (student_matches studentId)
                                       (Schema.students db)) ->
                          In s (Schema.students db)
                          /\ student_matches studentId s = true).
  { intros s Hs. apply filter_In in Hs. exact Hs. }
  destruct (filter (student_matches studentId) (Schema.students db))
    as [|s [|s' ss]] eqn:E.
  - simpl. symmetry. apply filter_none. intros e He.
    destruct (Qeq_bool (inject_Z (Enrollment.student_id e)) studentId) eqn:Em;
      [|reflexivity].
    exfalso. rewrite Forall_forall in Hfk. specialize (Hfk e He).
    apply existsb_exists in Hfk as (s & Hs & Hid). apply Z.eqb_eq in Hid.
    assert (Hs' : In s (filter (student_matches studentId)
                               (Schema.students db))).
    { apply filter_In. split; [exact Hs|]. unfold student_matches.
      rewrite Hid. exact Em. }
    rewrite E in Hs'. destruct Hs'.
  - destruct (Hin s (or_introl eq_refl)) as [Hs Hm].
    simpl. rewrite app_nil_r, map_map. cbn [snd]. rewrite map_id.
    apply filter_ext. intros e. unfold on_student, student_matches in *.
    destruct (Student.student_id s =? Enrollment.student_id e) eqn:Ee.
    + apply Z.eqb_eq in Ee. rewrite <- Ee. symmetry. exact Hm.
    + symmetry. destruct (Qeq_bool (inject_Z (Enrollment.student_id e)) studentId)
        eqn:Em; [|reflexivity].
      apply Z.eqb_neq in Ee. exfalso. apply Ee.
      apply (same_number_same_id _ _ studentId Hm Em).
  - exfalso.
    assert (Hlen : (length (s :: s' :: ss) <= 1)%nat).
    { apply Hle. intros a b _ _ Ha Hb.
      apply (same_number_same_id _ _ studentId Ha Hb). }
    simpl in Hlen. lia.
Qed.

(** Under the keys of the three tables, the rows student-enrollments
    selects are the enrollments with the bound student_id, in table
    order. *)
Lemma selected_enrollments db studentId :
  NoDup (map Student.student_id (Schema.students db)) ->
  NoDup (map Course.course_id (Schema.courses db)) ->
  foreign_keys db ->
  map (fun r => snd (fst r)) (filter (where_ studentId) (joined db))
  = enrollments_with db studentId.
Proof.
  intros Hs Hc Hfk. unfold joined.
  unfold foreign_keys in Hfk. rewrite Forall_forall in Hfk.
  rewrite <- (map_map fst snd).
  rewrite <- (enrollments_of_matching_students db studentId Hs)
    by (apply Forall_forall; intros e He; apply Hfk, He).
  f_equal.
  apply (inner_join_keeps_left on_course
           (fun se => student_matches studentId (fst se))).
  intros se Hse. apply one_course_per_enrollment; [exact Hc|].
  apply inner_join_snd in Hse. apply Hfk, Hse.
Qed.

Lemma selected_columns db studentId :
  map (fun r => (course_id r, enrollment_date r, grade r))
      (selected db studentId)
  = map (fun e => (Enrollment.course_id e, Enrollment.enrollment_date e,
                   Enrollment.grade e))
        (map (fun r => snd (fst r)) (filter (where_ studentId) (joined db))).
Proof.
  unfold selected. rewrite !map_map. apply map_ext_in.
  intros [[s e] c] Hr. apply filter_In in Hr as [Hr _].
  apply inner_join_on in Hr. unfold on_course in Hr. cbn [fst snd] in Hr.
  apply Z.eqb_eq in Hr. cbn. rewrite Hr. reflexivity.
Qed.

Lemma enrollments_run_is_result db studentId :
  results db studentId (run db studentId).
Proof.
  apply order_by_ordered; unfold le.
  - intros a b. rewrite !Z.leb_le. lia.
  - intros a b c. rewrite !Z.leb_le. lia.
Qed.

Section StudentEnrollmentsReply.

Import Js Http Pool App.

(** How the store reads a bound string as a number when it compares it
    with an integer column. *)
Variable number_of_string : string -> Q.

(** X15.  Under the primary and foreign keys of the tables,
    student-enrollments answers 200 with one row per enrollment row whose
    student_id equals the requested id, carrying that enrollment's
    course_id, date and grade: count is their number, so an id of no
    student, or of a student without enrollments, is answered with
    count 0 and an empty data list, not with 404. *)
Theorem student_enrollments_lists_the_enrollment_rows db pool req rs :
  let studentId := number_of_string (params req "studentId") in
  NoDup (map Student.student_id (Schema.students db)) ->
  NoDup (map Course.course_id (Schema.courses db)) ->
  foreign_keys db ->
  results db studentId rs ->
  pool {| sql := Template.student_enrollments_sql;
          values := [PVal (Str (params req "studentId"))] |}
  = Some (map to_row rs) ->
  reply (student_enrollments req pool)
  = res_json
      (JObject [("success", JBool true);
                ("count",
                 JNum (of_nat (length (enrollments_with db studentId))));
                ("data", JRows (map to_row rs))])
  /\ Permutation
       (map (fun e => (Enrollment.course_id e, Enrollment.enrollment_date e,
                       Enrollment.grade e))
            (enrollments_with db studentId))
       (map (fun r => (course_id r, enrollment_date r, grade r)) rs)
  /\ (enrollments_with db studentId = [] -> rs = []).
Proof.
  intros studentId Hs Hc Hfk [Hperm _] Hpool.
  assert (Hcols : Permutation
            (map (fun e => (Enrollment.course_id e,
                            Enrollment.enrollment_date e, Enrollment.grade e))
                 (enrollments_with db studentId))
            (map (fun r => (course_id r, enrollment_date r, grade r)) rs)).
  { rewrite <- (selected_enrollments db studentId Hs Hc Hfk).
    rewrite <- selected_columns. apply Permutation_map, Hperm. }
  split; [|split].
  - run_handler. rewrite Hpool. simpl. unfold res_json. do 4 f_equal.
    apply Permutation_length in Hcols. rewrite !length_map in Hcols.
    rewrite length_map. rewrite Hcols. reflexivity.
  - exact Hcols.
  - intros E. rewrite E in Hcols. simpl in Hcols.
    apply Permutation_nil in Hcols. apply map_eq_nil in Hcols. exact Hcols.
Qed.

End StudentEnrollmentsReply.

End StudentEnrollmentsFacts.

(** On the graded sample: Emily (id 1) has two enrollments, and the id 7
    of no student is answered with count 0. *)
Lemma student_enrollments_lists_the_enrollment_rows_witness :
  Http.field "count"
    (Http.body
       (Pool.reply
          (App.student_enrollments (Http.make [("studentId", "1")] [])
             (Sample.answering
                (map StudentEnrollments.to_row
                   (StudentEnrollments.run Sample.graded 1))))))
  = Some (Http.JNum (Js.of_nat 2))
  /\ Pool.reply
       (App.student_enrollments (Http.make [("studentId", "7")] [])
          (Sample.answering
             (map StudentEnrollments.to_row
                (StudentEnrollments.run Sample.graded 7))))
     = Http.res_json
         (Http.JObject [("success", Http.JBool true);
                        ("count", Http.JNum (Js.of_nat 0));
                        ("data", Http.JRows [])]).
Proof.
  assert (Hs : NoDup (map Schema.Student.student_id
                        (Schema.students Sample.graded))).
  { repeat constructor; simpl; intuition discriminate. }
  assert (Hc : NoDup (map Schema.Course.course_id
                        (Schema.courses Sample.graded))).
  { repeat constructor; simpl; intuition discriminate. }
  assert (Hfk : References.foreign_keys Sample.graded).
  { repeat constructor. }
  split.
  - destruct (student_enrollments_lists_the_enrollment_rows
                Sample.number_of_string Sample.graded
                (Sample.answering
                   (map StudentEnrollments.to_row
                      (StudentEnrollments.run Sample.graded 1)))
                (Http.make [("studentId", "1")] [])
                (StudentEnrollments.run Sample.graded 1)
                Hs Hc Hfk (enrollments_run_is_result Sample.graded 1) eq_refl)
      as (Hreply & _).
    rewrite Hreply. reflexivity.
  - destruct (student_enrollments_lists_the_enrollment_rows
                Sample.number_of_string Sample.graded
                (Sample.answering
                   (map StudentEnrollments.to_row
                      (StudentEnrollments.run Sample.graded 7)))
                (Http.make [("studentId", "7")] [])
                (StudentEnrollments.run Sample.graded 7)
                Hs Hc Hfk (enrollments_run_is_result Sample.graded 7) eq_refl)
      as (Hreply & _).
    rewrite Hreply. reflexivity.
Defined.

(** ** Students per grade *)

Section StudentsPerGradeFacts.

Import Schema Rel StudentsPerGrade.
Local Open Scope list_scope.

Variable email_eqb : string -> string -> bool.

Lemma Z_eqb_eq' (a b : Z) : (a =? b) = true <-> a = b.
Proof. apply Z.eqb_eq. Qed.

Lemma sum_Permutation (l l' : list Z) :
  Permutation l l' -> fold_right Z.add 0 l = fold_right Z.add 0 l'.
Proof.
  induction 1; simpl; lia.
Qed.

Lemma length_flat_map_snd {K A} (gs : list (K * list A)) :
  Z.of_nat (length (flat_map snd gs))
  = fold_right Z.add 0 (map (fun g => Z.of_nat (length (snd g))) gs).
Proof.
  induction gs as [|g gs IH]; simpl; [reflexivity|].
  rewrite length_app, Nat2Z.inj_add, IH. reflexivity.
Qed.

(** Rows sorted by a column without repetitions are strictly sorted. *)
Lemma sorted_without_repetition (rs : list result) :
  StronglySorted (fun a b => le a b = true) rs ->
  NoDup (map grade rs) ->
  StronglySorted (fun a b => grade a < grade b) rs.
Proof.
  induction 1 as [|r rs Hs IH Hall]; simpl; intros Hnd; constructor.
  - apply IH. inversion Hnd. assumption.
  - inversion Hnd as [|? ? Hnotin _]; subst.
    rewrite Forall_forall in *. intros x Hx.
    specialize (Hall x Hx). unfold le in Hall. apply Z.leb_le in Hall.
    assert (grade r <> grade x).
    { intros E. apply Hnotin. rewrite E. apply in_map, Hx. }
    lia.
Qed.

Lemma grade_of_grouped db :
  map grade (grouped email_eqb db)
  = map fst (group_by Student.grade Z.eqb (Schema.students db)).
Proof. unfold grouped. rewrite map_map. reflexivity. Qed.

Lemma per_grade_run_is_result db :
  results email_eqb db (run email_eqb db).
Proof.
  apply order_by_ordered; unfold le.
  - intros a b. rewrite !Z.leb_le. lia.
  - intros a b c. rewrite !Z.leb_le. lia.
Qed.

(** X16.  students-per-grade returns one row for each grade level that
    has a student, in strictly ascending order of grade; the student_count
    of a row is the number of students of that grade and is at least 1,
    and the counts of all rows add up to the number of students. *)
Theorem students_per_grade_partitions_the_students db rs :
  results email_eqb db rs ->
  StronglySorted (fun a b => grade a < grade b) rs
  /\ (forall s, In s (Schema.students db) ->
        exists r, In r rs /\ grade r = Student.grade s)
  /\ Forall (fun r =>
               student_count r = Z.of_nat (length (students_in db (grade r)))
               /\ 1 <= student_count r) rs
  /\ fold_right Z.add 0 (map student_count rs)
     = Z.of_nat (length (Schema.students db)).
Proof.
  intros [Hperm Hsorted].
  assert (Hkeys : NoDup (map grade rs)).
  { apply (Permutation_NoDup (Permutation_map grade Hperm)).
    rewrite grade_of_grouped. apply group_by_keys_NoDup, Z_eqb_eq'. }
  split; [|split; [|split]].
  - apply sorted_without_repetition; assumption.
  - intros s Hs.
    assert (Hin : In (Student.grade s) (map grade rs)).
    { apply (Permutation_in _ (Permutation_map grade Hperm)).
      rewrite grade_of_grouped. unfold group_by. rewrite map_map. simpl.
      rewrite map_id. apply (In_distinct Z.eqb Z_eqb_eq'), in_map, Hs. }
    apply in_map_iff in Hin as (r & E & Hr). exists r. auto.
  - apply Forall_forall. intros r Hr.
    apply (Permutation_in _ (Permutation_sym Hperm)) in Hr.
    unfold grouped in Hr. apply in_map_iff in Hr as ([k g] & <- & Hg).
    apply (group_by_In Student.grade Z.eqb Z_eqb_eq') in Hg as (Eg & Hne & _).
    unfold select, COUNT_star, students_in. cbn [fst snd grade student_count].
    rewrite <- Eg. split; [reflexivity|].
    destruct g; [contradiction|]. simpl length. lia.
  - rewrite <- (sum_Permutation _ _ (Permutation_map student_count Hperm)).
    unfold grouped. rewrite map_map. unfold select, COUNT_star.
    cbn [student_count].
    rewrite <- length_flat_map_snd. f_equal. symmetry.
    apply Permutation_length, group_by_partition, Z_eqb_eq'.
Qed.

Lemma ForallOrdPairs_filter {A} (R : A -> A -> Prop) (p : A -> bool) l :
  ForallOrdPairs R l -> ForallOrdPairs R (filter p l).
Proof.
  induction 1 as [|a l Ha _ IH]; simpl; [constructor|].
  destruct (p a); [|exact IH]. constructor; [|exact IH].
  rewrite Forall_forall in *. intros x Hx. apply filter_In in Hx as [Hx _].
  apply Ha, Hx.
Qed.

(** Values that are pairwise different are all distinct. *)
Lemma distinct_all_different (l : list Student.t) :
  ForallOrdPairs
    (fun a b => email_eqb (Student.email a) (Student.email b) = false) l ->
  distinct email_eqb (map Student.email l) = map Student.email l.
Proof.
  induction 1 as [|a l Ha _ IH]; simpl; [reflexivity|].
  rewrite IH. f_equal. apply filter_all.
  intros x Hx. apply in_map_iff in Hx as (b & <- & Hb).
  rewrite Forall_forall in Ha. rewrite (Ha b Hb). reflexivity.
Qed.

(** X17.  Under the UNIQUE key on email, unique_emails equals
    student_count in every row of students-per-grade. *)
Theorem unique_emails_equals_student_count db rs :
  unique_email email_eqb db ->
  results email_eqb db rs ->
  Forall (fun r => unique_emails r = student_count r) rs.
Proof.
  intros Huniq [Hperm _]. apply Forall_forall. intros r Hr.
  apply (Permutation_in _ (Permutation_sym Hperm)) in Hr.
  unfold grouped in Hr. apply in_map_iff in Hr as ([k g] & <- & Hg).
  unfold group_by in Hg. apply in_map_iff in Hg as (k' & E & _).
  inversion E; subst k' g. clear E.
  unfold select, COUNT_DISTINCT_email, COUNT_star.
  cbn [snd unique_emails student_count].
  rewrite (non_null_map_Some Student.email).
  rewrite distinct_all_different, length_map; [reflexivity|].
  apply ForallOrdPairs_filter, Huniq.
Qed.

End StudentsPerGradeFacts.

(** On the graded sample: grade 9 (Emily) and grade 10 (John), one student
    each. *)
Lemma students_per_grade_partitions_the_students_witness :
  StronglySorted
    (fun a b => StudentsPerGrade.grade a < StudentsPerGrade.grade b)
    (StudentsPerGrade.run String.eqb Sample.graded)
  /\ fold_right Z.add 0
       (map StudentsPerGrade.student_count
            (StudentsPerGrade.run String.eqb Sample.graded))
     = 2.
Proof.
  destruct (students_per_grade_partitions_the_students String.eqb Sample.graded
              (StudentsPerGrade.run String.eqb Sample.graded)
              (per_grade_run_is_result String.eqb Sample.graded))
    as (Hsorted & _ & _ & Hsum).
  split; [exact Hsorted|exact Hsum].
Defined.

Lemma unique_emails_equals_student_count_witness :
  Forall (fun r => StudentsPerGrade.unique_emails r
                   = StudentsPerGrade.student_count r)
         (StudentsPerGrade.run String.eqb Sample.graded).
Proof.
  apply (unique_emails_equals_student_count String.eqb Sample.graded).
  - repeat constructor.
  - apply per_grade_run_is_result.
Defined.

(** ** Descending order on nullable numbers *)

Section DescendingOrder.

Import Rel.
Local Open Scope Q_scope.

Lemma compare_desc_flip a b : compare_desc b a = CompOpp (compare_desc a b).
Proof.
  destruct a as [x|], b as [y|]; simpl; auto.
  symmetry. apply Qcompare_antisym.
Qed.

Lemma compare_desc_Eq_l a b c :
  compare_desc a b = Eq -> compare_desc a c = compare_desc b c.
Proof.
  destruct a as [x|], b as [y|], c as [z|]; simpl; try discriminate; auto.
  intros H. apply Qeq_alt in H. rewrite H. reflexivity.
Qed.

Lemma compare_desc_Eq_r a b c :
  compare_desc b c = Eq -> compare_desc a b = compare_desc a c.
Proof.
  destruct a as [x|], b as [y|], c as [z|]; simpl; try discriminate; auto.
  intros H. apply Qeq_alt in H. rewrite H. reflexivity.
Qed.

Lemma compare_desc_Lt_trans a b c :
  compare_desc a b = Lt -> compare_desc b c = Lt -> compare_desc a c = Lt.
Proof.
  destruct a as [x|], b as [y|], c as [z|]; cbn [compare_desc];
    intros H1 H2; try discriminate; auto.
  rewrite <- Qlt_alt in *. lra.
Qed.

End DescendingOrder.

(** ** Student performance *)

Section StudentPerformanceFacts.

Import Schema Rel Tables StudentPerformance.
Local Open Scope Q_scope.
Local Open Scope list_scope.

Lemma perf_key_eqb_eq a b : StudentPerformance.key_eqb a b = true <-> a = b.
Proof.
  destruct a as [[[id1 fn1] ln1] g1], b as [[[id2 fn2] ln2] g2].
  unfold StudentPerformance.key_eqb.
  rewrite !andb_true_iff, !Z.eqb_eq, !String.eqb_eq.
  split; [intros [[[-> ->] ->] ->]; reflexivity|].
  intros E. inversion E. auto.
Qed.

Lemma perf_le_total a b : le a b = true \/ le b a = true.
Proof.
  unfold le.
  rewrite (compare_desc_flip (gpa a) (gpa b)),
    (compare_desc_flip (total_credits a) (total_credits b)).
  destruct (compare_desc (gpa a) (gpa b)); simpl; auto.
  destruct (compare_desc (total_credits a) (total_credits b)); simpl; auto.
Qed.

Lemma perf_le_trans a b c : le a b = true -> le b c = true -> le a c = true.
Proof.
  unfold le.
  destruct (compare_desc (gpa a) (gpa b)) eqn:E1; try discriminate;
    destruct (compare_desc (gpa b) (gpa c)) eqn:E2; try discriminate.
  - rewrite (compare_desc_Eq_l _ _ _ E1), E2.
    destruct (compare_desc (total_credits a) (total_credits b)) eqn:E3;
      try discriminate;
      destruct (compare_desc (total_credits b) (total_credits c)) eqn:E4;
      try discriminate; intros _ _.
    + rewrite (compare_desc_Eq_l _ _ _ E3), E4. reflexivity.
    + rewrite (compare_desc_Eq_l _ _ _ E3), E4. reflexivity.
    + rewrite <- (compare_desc_Eq_r _ _ _ E4), E3. reflexivity.
    + rewrite (compare_desc_Lt_trans _ _ _ E3 E4). reflexivity.
  - rewrite (compare_desc_Eq_l _ _ _ E1), E2. reflexivity.
  - rewrite <- (compare_desc_Eq_r _ _ _ E2), E1. reflexivity.
  - rewrite (compare_desc_Lt_trans _ _ _ E1 E2). reflexivity.
Qed.

Lemma run_row_is_row g : row_of g (run_row g).
Proof.
  exists (order_by later_first (snd g)). split; [|reflexivity].
  apply order_by_ordered; unfold later_first.
  - intros a b. rewrite !Z.leb_le. lia.
  - intros a b c. rewrite !Z.leb_le. lia.
Qed.

(** The executable reading is one of the results the store may return. *)
Lemma performance_run_is_result db grade minGPA :
  results db grade minGPA (run db grade minGPA).
Proof.
  exists (map run_row (groups db grade)). split.
  - induction (groups db grade) as [|g gs IH]; simpl; constructor;
      [apply run_row_is_row|exact IH].
  - apply order_by_ordered; [apply perf_le_total|apply perf_le_trans].
Qed.

Lemma Forall2_In_r {A B} (R : A -> B -> Prop) l l' y :
  Forall2 R l l' -> In y l' -> exists x, In x l /\ R x y.
Proof.
  induction 1 as [|a b l l' Hab _ IH]; simpl; [contradiction|].
  intros [<-|Hy].
  - exists a. auto.
  - destruct (IH Hy) as (x & Hx & Hxy). exists x. auto.
Qed.

(** A returned row is the row of a group of the join and passes HAVING. *)
Lemma performance_row_origin db grade minGPA rs r :
  results db grade minGPA rs -> In r rs ->
  exists k rows h,
    In (k, rows) (groups db grade)
    /\ r = select (k, rows) h
    /\ having minGPA r = true.
Proof.
  intros (all & Hall & [Hperm _]) Hr.
  apply (Permutation_in _ (Permutation_sym Hperm)) in Hr.
  apply filter_In in Hr as [Hr Hh].
  destruct (Forall2_In_r _ _ _ _ Hall Hr) as ([k rows] & Hg & ordered & _ & E).
  exists k, rows, (history_of ordered). auto.
Qed.

Lemma gpa_of_select k rows h : gpa (select (k, rows) h) = gpa_of rows.
Proof. destruct k as [[[id fn] ln] gr]. reflexivity. Qed.

Lemma student_id_of_select k rows h :
  student_id (select (k, rows) h) = fst (fst (fst k)).
Proof. destruct k as [[[id fn] ln] gr]. reflexivity. Qed.

Lemma courses_taken_of_select k rows h :
  courses_taken (select (k, rows) h) = Z.of_nat (length rows).
Proof.
  destruct k as [[[id fn] ln] gr]. unfold select, COUNT.
  cbn [fst snd courses_taken].
  rewrite (non_null_map_Some
             (fun r : joined_row => Enrollment.enrollment_id (snd (fst r)))).
  rewrite length_map. reflexivity.
Qed.

Lemma having_gpa minGPA r :
  having minGPA r = true -> exists g, gpa r = Some g /\ minGPA <= g.
Proof.
  unfold having, ge. destruct (gpa r) as [g|]; simpl; [|discriminate].
  destruct (Qle_bool minGPA g) eqn:E; [|discriminate].
  intros _. exists g. split; [reflexivity|]. apply Qle_bool_iff, E.
Qed.

Lemma non_null_all_None {A B} (f : A -> option B) (l : list A) :
  (forall a, In a l -> f a = None) -> non_null (map f l) = [].
Proof.
  unfold non_null.
  induction l as [|a l IH]; simpl; intros H; [reflexivity|].
  rewrite (H a (or_introl eq_refl)), IH by auto. reflexivity.
Qed.

(** A row of the join pairs an enrollment of the table with the student
    it names. *)
Lemma joined_row_enrollment db grade (r : joined_row) :
  In r (filter (where_ grade) (joined db)) ->
  In (snd (fst r)) (Schema.enrollments db)
  /\ Enrollment.student_id (snd (fst r)) = Student.student_id (fst (fst r)).
Proof.
  intros H. apply filter_In in H as [H _]. unfold joined in H.
  apply inner_join_fst in H. split.
  - apply inner_join_snd in H. exact H.
  - apply inner_join_on in H. unfold StudentEnrollments.on_student in H.
    apply Z.eqb_eq in H. symmetry. exact H.
Qed.

(** X18.  Every row student-performance returns has courses_taken at
    least 1 and a gpa that is a number, at least minGPA and between 0 and
    4; so a student none of whose enrollments is graded yet (or who has
    none) is in no result, whatever the filters, also with minGPA 0. *)
Theorem student_performance_lists_graded_students_only db grade minGPA rs :
  results db grade minGPA rs ->
  Forall (fun r => (1 <= courses_taken r)%Z
                   /\ exists g, gpa r = Some g /\ minGPA <= g
                                /\ 0 <= g /\ g <= 4) rs
  /\ (forall id, nothing_graded db id -> ~ In id (map student_id rs)).
Proof.
  intros Hrs. split.
  - apply Forall_forall. intros r Hr.
    destruct (performance_row_origin db grade minGPA rs r Hrs Hr)
      as (k & rows & h & Hg & -> & Hh).
    apply (group_by_In group_key key_eqb perf_key_eqb_eq) in Hg
      as (_ & Hne & _).
    split.
    + rewrite courses_taken_of_select. destruct rows; [contradiction|].
      simpl length. lia.
    + apply having_gpa in Hh as (g & Hgpa & Hmin).
      exists g. split; [exact Hgpa|]. split; [exact Hmin|].
      rewrite gpa_of_select in Hgpa.
      apply (AVG_in_range _ g) in Hgpa; [exact Hgpa|].
      apply Forall_forall. intros x Hx. apply non_null_In in Hx.
      apply in_map_iff in Hx as (row & Hx & _).
      apply (grade_points_in_range _ _ Hx).
  - intros id Hnone Hin. apply in_map_iff in Hin as (r & Hid & Hr).
    destruct (performance_row_origin db grade minGPA rs r Hrs Hr)
      as (k & rows & h & Hg & -> & Hh).
    apply (group_by_In group_key key_eqb perf_key_eqb_eq) in Hg
      as (_ & _ & Hrows).
    apply having_gpa in Hh as (g & Hgpa & _).
    rewrite gpa_of_select in Hgpa. rewrite student_id_of_select in Hid.
    unfold gpa_of, AVG in Hgpa.
    rewrite non_null_all_None in Hgpa; [discriminate|].
    intros row Hrow. rewrite Forall_forall in Hrows.
    destruct (Hrows row Hrow) as [Hk Hjoined].
    destruct (joined_row_enrollment db grade row Hjoined) as [He Hs].
    unfold e_grade. rewrite (Hnone (snd (fst row)) He); [reflexivity|].
    rewrite Hs, <- Hid, <- Hk. reflexivity.
Qed.

End StudentPerformanceFacts.

(** On the in-progress sample with no filter and minGPA 0: John (id 2),
    who is enrolled but has no grade yet, is not listed. *)
Lemma student_performance_lists_graded_students_only_witness :
  Forall (fun r => (1 <= StudentPerformance.courses_taken r)%Z
                   /\ exists g, StudentPerformance.gpa r = Some g
                                /\ (0 <= g /\ 0 <= g /\ g <= 4)%Q)
         (StudentPerformance.run Sample.in_progress None 0)
  /\ ~ In 2 (map StudentPerformance.student_id
                 (StudentPerformance.run Sample.in_progress None 0)).
Proof.
  destruct (student_performance_lists_graded_students_only
              Sample.in_progress None 0
              (StudentPerformance.run Sample.in_progress None 0)
              (performance_run_is_result Sample.in_progress None 0))
    as [Hrows Hnone].
  split; [exact Hrows|]. apply Hnone.
  intros e [<-|[<-|[<-|[]]]]; simpl; intros E;
    try discriminate; reflexivity.
Defined.

(** ** Departments *)

Section PercentFacts.

Import Rel.
Local Open Scope Q_scope.

(** Rounding to two decimals keeps a value between 0 and a whole number
    there. *)
Lemma ROUND2_bounds x g (n : Z) :
  0 <= x -> x <= inject_Z n -> ROUND2 (Some x) = Some g ->
  0 <= g /\ g <= inject_Z n.
Proof.
  intros H0 Hn E.
  assert (Eg : g = Qred (inject_Z (round_half_away (x * 100)) / 100))
    by (change (Some (Qred (inject_Z (round_half_away (x * 100)) / 100))
                = Some g) in E; congruence).
  rewrite Eg. clear E Eg g.
  destruct (round_half_away_range (x * 100) (n * 100)) as [Hz0 Hz].
  - lra.
  - rewrite inject_Z_mult. change (inject_Z 100) with 100. lra.
  - rewrite !Qred_correct.
    rewrite Zle_Qle in Hz0, Hz. rewrite inject_Z_mult in Hz.
    change (inject_Z 0) with 0 in Hz0. change (inject_Z 100) with 100 in Hz.
    split.
    + apply Qle_shift_div_l; lra.
    + apply Qle_shift_div_r; lra.
Qed.

Lemma total_app xs ys : total (xs ++ ys) == total xs + total ys.
Proof.
  induction xs as [|x xs IH]; simpl; [lra|]. rewrite IH. lra.
Qed.

Lemma desc_leb_trans a b c :
  match compare_desc a b with Gt => false | _ => true end = true ->
  match compare_desc b c with Gt => false | _ => true end = true ->
  match compare_desc a c with Gt => false | _ => true end = true.
Proof.
  destruct (compare_desc a b) eqn:E1; try discriminate;
    destruct (compare_desc b c) eqn:E2; try discriminate; intros _ _.
  - rewrite (compare_desc_Eq_l _ _ _ E1), E2. reflexivity.
  - rewrite (compare_desc_Eq_l _ _ _ E1), E2. reflexivity.
  - rewrite <- (compare_desc_Eq_r _ _ _ E2), E1. reflexivity.
  - rewrite (compare_desc_Lt_trans _ _ _ E1 E2). reflexivity.
Qed.

End PercentFacts.

Section DepartmentsFacts.

Import Schema Rel Tables Departments.
Local Open Scope Q_scope.
Local Open Scope list_scope.

Variable department_eqb : string -> string -> bool.

Lemma dept_le_total a b : le a b = true \/ le b a = true.
Proof.
  unfold le.
  rewrite (Z.compare_antisym (total_enrollments b) (total_enrollments a)),
    (compare_desc_flip (department_avg_gpa a) (department_avg_gpa b)).
  destruct (total_enrollments b ?= total_enrollments a)%Z; simpl; auto.
  destruct (compare_desc (department_avg_gpa a) (department_avg_gpa b));
    simpl; auto.
Qed.

Lemma dept_le_trans a b c : le a b = true -> le b c = true -> le a c = true.
Proof.
  unfold le.
  destruct (total_enrollments b ?= total_enrollments a)%Z eqn:E1;
    try discriminate;
    destruct (total_enrollments c ?= total_enrollments b)%Z eqn:E2;
    try discriminate.
  - apply Z.compare_eq_iff in E1, E2. rewrite E2, E1, Z.compare_refl.
    apply desc_leb_trans.
  - apply Z.compare_eq_iff in E1. rewrite <- E1, E2. reflexivity.
  - apply Z.compare_eq_iff in E2. rewrite E2, E1. reflexivity.
  - intros _ _. rewrite Z.compare_lt_iff in E1, E2.
    assert (E3 : (total_enrollments c ?= total_enrollments a)%Z = Lt)
      by (apply Z.compare_lt_iff; lia).
    rewrite E3. reflexivity.
Qed.

(** The executable reading is one of the results the store may return. *)
Lemma departments_run_is_result db :
  results department_eqb db (run department_eqb db).
Proof.
  apply order_by_ordered; [apply dept_le_total|apply dept_le_trans].
Qed.

Lemma dept_joined_by_course db :
  joined db = flat_map (rows_of db) (Schema.courses db).
Proof.
  unfold joined, rows_of, left_join. apply flat_map_ext. intros c.
  simpl. rewrite app_nil_r. reflexivity.
Qed.

Lemma dept_rows_of_fst db c r : In r (rows_of db c) -> fst r = c.
Proof.
  intros H. apply left_join_fst in H. destruct H as [<-|[]]. reflexivity.
Qed.

(** The rows of a course: one per enrollment in it, or one padded row. *)
Lemma dept_rows_of db c :
  rows_of db c
  = match enrollments_in db c with
    | [] => [(c, None)]
    | es => map (fun e => (c, Some e)) es
    end.
Proof.
  unfold rows_of, left_join, enrollments_in. cbn [flat_map].
  rewrite app_nil_r. reflexivity.
Qed.

Lemma dept_rows_of_length db c : length (rows_of db c) = weight db c.
Proof.
  rewrite dept_rows_of. unfold weight.
  destruct (enrollments_in db c) as [|e es]; [reflexivity|].
  rewrite length_map. simpl length. lia.
Qed.

Lemma dept_rows_of_count db c :
  non_null (enrollment_ids (rows_of db c))
  = map Enrollment.enrollment_id (enrollments_in db c).
Proof.
  rewrite dept_rows_of. unfold enrollment_ids.
  destruct (enrollments_in db c) as [|e es]; [reflexivity|].
  rewrite map_map. cbn [snd option_map].
  apply (non_null_map_Some Enrollment.enrollment_id).
Qed.

Lemma non_null_app {A} (l l' : list (option A)) :
  non_null (l ++ l') = non_null l ++ non_null l'.
Proof. unfold non_null. apply flat_map_app. Qed.

(** The rows of a group are the rows of the courses of the department. *)
Lemma dept_group_rows db k g :
  In (k, g) (group_by (fun r : joined_row => Course.department (fst r))
                      department_eqb (joined db)) ->
  g = flat_map (rows_of db) (courses_of department_eqb db k).
Proof.
  unfold group_by. intros H. apply in_map_iff in H as (k' & E & _).
  inversion E; subst k' g. clear E.
  rewrite dept_joined_by_course. unfold courses_of.
  apply filter_flat_map. intros c r _ Hr.
  rewrite (dept_rows_of_fst db c r Hr). reflexivity.
Qed.

Lemma enrollment_ids_app (l l' : list joined_row) :
  enrollment_ids (l ++ l') = enrollment_ids l ++ enrollment_ids l'.
Proof. apply map_app. Qed.

Lemma dept_count_enrollments db cs :
  COUNT (enrollment_ids (flat_map (rows_of db) cs))
  = Z.of_nat (length (flat_map (enrollments_in db) cs)).
Proof.
  unfold COUNT. f_equal.
  induction cs as [|c cs IH]; [reflexivity|].
  cbn [flat_map].
  rewrite enrollment_ids_app, non_null_app, !length_app, IH.
  rewrite dept_rows_of_count, length_map. reflexivity.
Qed.

Lemma total_constant (x : Q) {A} (f : A -> Q) (l : list A) :
  (forall a, In a l -> f a = x) ->
  total (map f l) == x * inject_Z (Z.of_nat (length l)).
Proof.
  induction l as [|a l IH]; intros H.
  - cbn [map total fold_right length].
    change (inject_Z (Z.of_nat 0)) with 0. lra.
  - cbn [map total fold_right length].
    change (fold_right Qplus 0 (map f l)) with (total (map f l)).
    rewrite IH by (intros; apply H; right; assumption).
    rewrite (H a (or_introl eq_refl)).
    rewrite Nat2Z.inj_succ, <- Z.add_1_r, inject_Z_plus.
    change (inject_Z 1) with 1. lra.
Qed.

Lemma dept_total_credits db cs :
  total (map (fun r : joined_row => inject_Z (Course.credits (fst r)))
             (flat_map (rows_of db) cs))
  == credits_by_row db cs.
Proof.
  unfold credits_by_row.
  induction cs as [|c cs IH]; [reflexivity|].
  cbn [flat_map map total fold_right].
  change (fold_right Qplus 0
            (map (fun c0 => inject_Z (Course.credits c0)
                            * inject_Z (Z.of_nat (weight db c0))) cs))
    with (total (map (fun c0 => inject_Z (Course.credits c0)
                                * inject_Z (Z.of_nat (weight db c0))) cs)).
  rewrite map_app, total_app, IH.
  rewrite (total_constant (inject_Z (Course.credits c))).
  - rewrite dept_rows_of_length. reflexivity.
  - intros r Hr. rewrite (dept_rows_of_fst db c r Hr). reflexivity.
Qed.

(** The successes among the rows: at most as many as have an
    enrollment. *)
Lemma successes_bounds (rows : list joined_row) ls :
  0 <= total (non_null (map (fun r => one_if_in (e_grade r) ls) rows))
  /\ total (non_null (map (fun r => one_if_in (e_grade r) ls) rows))
     <= inject_Z (COUNT (enrollment_ids rows)).
Proof.
  unfold COUNT, enrollment_ids, non_null.
  induction rows as [|[c [e|]] rows [IH0 IH1]].
  - simpl. split; unfold Qle; simpl; lia.
  - cbn [map flat_map snd option_map app length].
    rewrite Nat2Z.inj_succ, <- Z.add_1_r, inject_Z_plus.
    change (inject_Z 1) with 1.
    assert (Hx : exists x, one_if_in (e_grade (c, Some e)) ls = Some x
                           /\ 0 <= x /\ x <= 1).
    { unfold one_if_in, e_grade, grade_in. cbn [snd].
      destruct (Enrollment.grade e) as [l|]; cbn [option_map CASE holds].
      - destruct (existsb (letter_eqb l) ls); eexists;
          (split; [reflexivity|split; lra]).
      - eexists. split; [reflexivity|]. split; lra. }
    destruct Hx as (x & -> & Hx0 & Hx1).
    cbn [app total fold_right].
    change (fold_right Qplus 0 ?l) with (total l) in *.
    split; lra.
  - cbn [map flat_map snd option_map app length].
    change (one_if_in (e_grade (c, None)) ls) with (Some 0).
    cbn [app total fold_right].
    change (fold_right Qplus 0 ?l) with (total l) in *.
    split; lra.
Qed.

Lemma successes_some (rows : list joined_row) ls :
  rows <> [] ->
  SUM (map (fun r => one_if_in (e_grade r) ls) rows)
  = Some (total (non_null (map (fun r => one_if_in (e_grade r) ls) rows))).
Proof.
  intros Hne. unfold SUM.
  destruct rows as [|r rows]; [contradiction|].
  assert (Hx : exists x, one_if_in (e_grade r) ls = Some x).
  { unfold one_if_in. destruct (grade_in (e_grade r) ls) as [[]|];
      eexists; reflexivity. }
  destruct Hx as [x Hx]. cbn [map non_null flat_map]. rewrite Hx.
  reflexivity.
Qed.

(** What a returned row is computed from. *)
Lemma departments_row_origin db rs r :
  results department_eqb db rs -> In r rs ->
  r = select (department r,
              flat_map (rows_of db)
                       (courses_of department_eqb db (department r)))
  /\ (0 < total_enrollments r)%Z.
Proof.
  intros [Hperm _] Hr.
  apply (Permutation_in _ (Permutation_sym Hperm)) in Hr.
  apply filter_In in Hr as [Hr Hh].
  unfold grouped in Hr. apply in_map_iff in Hr as ([k g] & <- & Hg).
  apply dept_group_rows in Hg. subst g.
  split; [reflexivity|]. apply Z.ltb_lt, Hh.
Qed.

(** X19.  Every row of departments stems from at least one enrollment:
    total_enrollments is at least 1 and is the number of enrollments in
    the courses of the department, and success_rate_percent is a number
    between 0 and 100, never NULL.  A department none of whose courses
    has an enrollment has no row. *)
Theorem departments_rows_have_enrollments db rs :
  results department_eqb db rs ->
  Forall (fun r =>
            (1 <= total_enrollments r)%Z
            /\ total_enrollments r
               = Z.of_nat
                   (length (flat_map (enrollments_in db)
                              (courses_of department_eqb db (department r))))
            /\ exists p, success_rate_percent r = Some p
                         /\ 0 <= p /\ p <= 100) rs.
Proof.
  intros Hrs. apply Forall_forall. intros r Hr.
  destruct (departments_row_origin db rs r Hrs Hr) as [E Hpos].
  set (rows := flat_map (rows_of db)
                 (courses_of department_eqb db (department r))) in *.
  assert (Hcount : total_enrollments r = COUNT (enrollment_ids rows)).
  { rewrite E at 1. reflexivity. }
  split; [lia|]. split.
  { rewrite Hcount. apply dept_count_enrollments. }
  assert (Hrate : success_rate_percent r = success_rate_of rows).
  { rewrite E at 1. reflexivity. }
  rewrite Hrate, Hcount in *. clear Hrate Hcount E.
  assert (Hne : rows <> []).
  { intros Hnil. rewrite Hnil in Hpos. unfold COUNT in Hpos.
    simpl in Hpos. lia. }
  destruct (successes_bounds rows
              [Enrollment.A; Enrollment.B; Enrollment.C]) as [H0 H1].
  unfold success_rate_of. rewrite (successes_some rows _ Hne).
  set (t := total (non_null (map (fun r0 => one_if_in (e_grade r0)
                 [Enrollment.A; Enrollment.B; Enrollment.C]) rows))) in *.
  set (n := COUNT (enrollment_ids rows)) in *.
  assert (Hn : 0 < inject_Z n).
  { rewrite Zlt_Qlt in Hpos. exact Hpos. }
  unfold mul, div.
  destruct (Qeq_bool (inject_Z n) 0) eqn:Ez.
  { apply Qeq_bool_iff in Ez. lra. }
  eexists. split; [reflexivity|].
  apply (ROUND2_bounds (t * 100.0 / inject_Z n) _ 100); [| |reflexivity].
  - apply Qle_shift_div_l; [exact Hn|]. lra.
  - apply Qle_shift_div_r; [exact Hn|].
    change (inject_Z 100) with 100. lra.
Qed.

(** X20.  total_credits_offered of a department adds up the credits of
    the rows of the join, not of the courses: the credits of each course
    of the department enter once per enrollment in the course (once when
    it has none). *)
Theorem total_credits_offered_counts_credits_per_enrollment db rs :
  results department_eqb db rs ->
  Forall (fun r =>
            exists t, total_credits_offered r = Some t
                      /\ t == credits_by_row db
                                (courses_of department_eqb db (department r)))
         rs.
Proof.
  intros Hrs. apply Forall_forall. intros r Hr.
  destruct (departments_row_origin db rs r Hrs Hr) as [E Hpos].
  remember (flat_map (rows_of db)
              (courses_of department_eqb db (department r))) as rows
    eqn:Erows.
  assert (Hne : rows <> []).
  { intros Hnil. rewrite E, Hnil in Hpos. unfold select, COUNT in Hpos.
    simpl in Hpos. lia. }
  assert (Hsum : total_credits_offered r = SUM (map c_credits rows)).
  { rewrite E at 1. reflexivity. }
  exists (total (map (fun r0 : joined_row =>
                        inject_Z (Course.credits (fst r0))) rows)).
  split.
  - rewrite Hsum. unfold SUM, c_credits.
    rewrite (non_null_map_Some
               (fun r0 : joined_row => inject_Z (Course.credits (fst r0)))).
    destruct rows; [contradiction|reflexivity].
  - rewrite Erows. apply dept_total_credits.
Qed.

End DepartmentsFacts.

(** On the in-progress sample: Mathematics has one course, Algebra I
    (4 credits) with two enrollments, and Science has Biology (no
    enrollment) and Chemistry (one). *)
Lemma departments_rows_have_enrollments_witness :
  Forall (fun r =>
            (1 <= Departments.total_enrollments r)%Z
            /\ Departments.total_enrollments r
               = Z.of_nat
                   (length (flat_map (Tables.enrollments_in Sample.in_progress)
                              (Departments.courses_of String.eqb
                                 Sample.in_progress
                                 (Departments.department r))))
            /\ exists p, Departments.success_rate_percent r = Some p
                         /\ (0 <= p /\ p <= 100)%Q)
         (Departments.run String.eqb Sample.in_progress).
Proof.
  apply (departments_rows_have_enrollments String.eqb Sample.in_progress).
  apply departments_run_is_result.
Defined.

Lemma total_credits_offered_counts_credits_per_enrollment_witness :
  Forall (fun r =>
            exists t, Departments.total_credits_offered r = Some t
                      /\ (t == Departments.credits_by_row Sample.in_progress
                                 (Departments.courses_of String.eqb
                                    Sample.in_progress
                                    (Departments.department r)))%Q)
         (Departments.run String.eqb Sample.in_progress)
  /\ map Departments.total_credits_offered
         (Departments.run String.eqb Sample.in_progress)
     = [Some 8%Q; Some 7%Q].
Proof.
  split.
  - apply (total_credits_offered_counts_credits_per_enrollment String.eqb
             Sample.in_progress).
    apply departments_run_is_result.
  - reflexivity.
Defined.

(** ** Students in courses *)

Section StudentsInCoursesFacts.

Import Schema Rel StudentsInCourses.
Local Open Scope list_scope.

Variable text_eqb : string -> string -> bool.
Variable collation_leb : string -> string -> bool.

(** A student passes the WHERE clause exactly when one of the student's
    enrollments is in a listed course. *)
Lemma where_iff_matching db ids s :
  where_ db ids s = (0 <? matching_count db ids s).
Proof.
  unfold where_, enrolled_ids, matching_count, COUNT_star, matching.
  destruct (existsb (Z.eqb (Student.student_id s)) _) eqn:E.
  - apply existsb_exists in E as (id & Hin & Hid). apply Z.eqb_eq in Hid.
    subst id. apply (distinct_In Z.eqb) in Hin.
    apply in_map_iff in Hin as (e & He & Hin).
    apply filter_In in Hin as [Hin Hl].
    symmetry. apply Z.ltb_lt.
    assert (Hm : In e (filter
                         (fun e0 =>
                            (Enrollment.student_id e0 =? Student.student_id s)
                            && course_listed ids e0)
                         (Schema.enrollments db))).
    { apply filter_In. split; [exact Hin|].
      rewrite Hl, andb_true_r. apply Z.eqb_eq, He. }
    destruct (filter _ (Schema.enrollments db)); [destruct Hm|].
    simpl length. lia.
  - symmetry. apply Z.ltb_ge.
    destruct (filter
                (fun e0 =>
                   (Enrollment.student_id e0 =? Student.student_id s)
                   && course_listed ids e0)
                (Schema.enrollments db)) as [|e es] eqn:Ef; [simpl; lia|].
    exfalso.
    assert (Hm : In e (e :: es)) by (left; reflexivity).
    rewrite <- Ef in Hm. apply filter_In in Hm as [Hin Hm].
    apply andb_true_iff in Hm as [Hid Hl]. apply Z.eqb_eq in Hid.
    assert (Hex : existsb (Z.eqb (Student.student_id s))
                    (distinct Z.eqb
                       (map Enrollment.student_id
                            (filter (course_listed ids)
                                    (Schema.enrollments db)))) = true).
    { apply existsb_exists. exists (Student.student_id s).
      split; [|apply Z.eqb_refl].
      apply (In_distinct Z.eqb Z_eqb_eq'). rewrite <- Hid.
      apply in_map, filter_In. auto. }
    congruence.
Qed.

(** Rows of different students are all distinct. *)
Lemma distinct_rows_of_students (rows : list result) :
  NoDup (map student_id rows) ->
  distinct (row_eqb text_eqb) rows = rows.
Proof.
  induction rows as [|r rows IH]; simpl; intros H; [reflexivity|].
  inversion H as [|? ? Hnotin Hnd]; subst.
  rewrite IH by exact Hnd. f_equal. apply filter_all.
  intros x Hx. unfold row_eqb.
  destruct (student_id r =? student_id x) eqn:E; [|reflexivity].
  exfalso. apply Z.eqb_eq in E. apply Hnotin. rewrite E.
  apply in_map, Hx.
Qed.

Lemma selected_by_student db counted listed :
  NoDup (map Student.student_id (Schema.students db)) ->
  selected text_eqb db counted listed
  = map (select db counted) (enrolled db listed).
Proof.
  intros Hpk. unfold selected, enrolled.
  rewrite (filter_ext _ _ (where_iff_matching db listed)).
  apply distinct_rows_of_students.
  rewrite map_map. cbn [select student_id].
  apply NoDup_map_filter, Hpk.
Qed.

(** X21.  Under the primary key of students, and with the same list
    bound to both placeholders as the handler does, students-in-courses
    returns exactly the students with an enrollment in a listed course,
    each once; matching_course_count is the number of the student's
    enrollments in listed courses and is at least 1. *)
Theorem students_in_courses_lists_enrolled_students_once db ids rs :
  NoDup (map Student.student_id (Schema.students db)) ->
  results text_eqb collation_leb db ids ids rs ->
  Permutation
    (map (fun s => (Student.student_id s,
                    Z.of_nat (length (matching db ids s))))
         (enrolled db ids))
    (map (fun r => (student_id r, matching_course_count r)) rs)
  /\ Forall (fun r => 1 <= matching_course_count r) rs.
Proof.
  intros Hpk [Hperm _].
  rewrite (selected_by_student db ids ids Hpk) in Hperm.
  split.
  - apply (Permutation_map
             (fun r => (student_id r, matching_course_count r))) in Hperm.
    rewrite map_map in Hperm. exact Hperm.
  - apply Forall_forall. intros r Hr.
    apply (Permutation_in _ (Permutation_sym Hperm)) in Hr.
    apply in_map_iff in Hr as (s & <- & Hs).
    apply filter_In in Hs as [_ Hs]. apply Z.ltb_lt in Hs.
    cbn [select matching_course_count]. lia.
Qed.

End StudentsInCoursesFacts.

(** On the in-progress sample, for the list 1,3: Emily is enrolled in
    both courses and John in course 1. *)
Lemma students_in_courses_lists_enrolled_students_once_witness :
  Permutation
    [(1, 2); (2, 1)]
    (map (fun r => (StudentsInCourses.student_id r,
                    StudentsInCourses.matching_course_count r))
         (StudentsInCourses.run String.eqb String.leb Sample.in_progress
            [1%Q; 3%Q] [1%Q; 3%Q]))
  /\ Forall (fun r => 1 <= StudentsInCourses.matching_course_count r)
       (StudentsInCourses.run String.eqb String.leb Sample.in_progress
          [1%Q; 3%Q] [1%Q; 3%Q]).
Proof.
  apply (students_in_courses_lists_enrolled_students_once String.eqb String.leb
           Sample.in_progress [1%Q; 3%Q]).
  - repeat constructor; simpl; intuition discriminate.
  - split; [apply Permutation_refl|]. repeat constructor.
Defined.

(** ** Course details: the counts *)

Section CourseDetailsCounts.

Import Schema Rel Tables CourseDetails.
Local Open Scope Q_scope.
Local Open Scope list_scope.

Lemma distinct_of_NoDup (l : list Z) : NoDup l -> distinct Z.eqb l = l.
Proof.
  induction 1 as [|k l Hnotin _ IH]; simpl; [reflexivity|].
  rewrite IH. f_equal. apply (filter_other_keys Z.eqb Z_eqb_eq'), Hnotin.
Qed.

Lemma NoDup_map_finer_in {A B C} (f : A -> B) (g : A -> C) (l : list A) :
  (forall x y, In x l -> In y l -> g x = g y -> f x = f y) ->
  NoDup (map f l) -> NoDup (map g l).
Proof.
  induction l as [|a l IH]; simpl; intros Hfg H; [constructor|].
  inversion H as [|? ? Hnotin Hnodup]; subst. constructor.
  - intros Hin. apply in_map_iff in Hin as (y & Hy & Hin).
    apply Hnotin. rewrite <- (Hfg y a); auto. apply in_map, Hin.
  - apply IH; auto.
Qed.

(** Under UNIQUE (student_id, course_id) the enrollments in a course are
    of different students. *)
Lemma students_of_course_differ db c :
  NoDup (map (fun e => (Enrollment.student_id e, Enrollment.course_id e))
             (Schema.enrollments db)) ->
  NoDup (map Enrollment.student_id (enrollments_in db c)).
Proof.
  intros Hu. unfold enrollments_in.
  apply (NoDup_map_finer_in
           (fun e => (Enrollment.student_id e, Enrollment.course_id e))).
  - intros x y Hx Hy E. apply filter_In in Hx as [_ Hx], Hy as [_ Hy].
    apply Z.eqb_eq in Hx, Hy. rewrite E, <- Hx, <- Hy. reflexivity.
  - apply NoDup_map_filter, Hu.
Qed.

(** Under the primary key of students the second join keeps the rows of
    the first. *)
Lemma course_rows_keep_enrollments db c :
  NoDup (map Student.student_id (Schema.students db)) ->
  map fst (rows_of db c) = Departments.rows_of db c.
Proof.
  intros Hpk. unfold rows_of, Departments.rows_of.
  apply left_join_keeps_left.
  intros [c' [e|]] _; unfold on_student; cbn [snd].
  - apply filter_key_at_most_one, Hpk.
  - rewrite filter_none by reflexivity. simpl. lia.
Qed.

Lemma course_student_ids db c :
  NoDup (map Student.student_id (Schema.students db)) ->
  non_null (map (fun r : joined_row =>
                   option_map Enrollment.student_id (snd (fst r)))
                (rows_of db c))
  = map Enrollment.student_id (enrollments_in db c).
Proof.
  intros Hpk.
  assert (E : map (fun r : joined_row =>
                     option_map Enrollment.student_id (snd (fst r)))
                  (rows_of db c)
              = map (fun ce : Course.t * option Enrollment.t =>
                       option_map Enrollment.student_id (snd ce))
                    (map fst (rows_of db c)))
    by (rewrite map_map; reflexivity).
  rewrite E, (course_rows_keep_enrollments db c Hpk), dept_rows_of.
  destruct (enrollments_in db c) as [|e es]; [reflexivity|].
  rewrite map_map. cbn [snd option_map].
  apply (non_null_map_Some Enrollment.student_id).
Qed.

Lemma one_if_bounds (rows : list joined_row) l :
  0 <= total (non_null (map (fun r => one_if (e_grade r) l) rows))
  /\ total (non_null (map (fun r => one_if (e_grade r) l) rows))
     <= inject_Z (COUNT_star rows).
Proof.
  unfold COUNT_star, non_null.
  induction rows as [|r rows [IH0 IH1]].
  - simpl. split; unfold Qle; simpl; lia.
  - cbn [map flat_map length].
    rewrite Nat2Z.inj_succ, <- Z.add_1_r, inject_Z_plus.
    change (inject_Z 1) with 1.
    assert (Hx : exists x, one_if (e_grade r) l = Some x /\ 0 <= x /\ x <= 1).
    { unfold one_if. destruct (grade_is (e_grade r) l) as [[]|];
        cbn [CASE holds]; eexists; (split; [reflexivity|split; lra]). }
    destruct Hx as (x & -> & Hx0 & Hx1).
    cbn [app total fold_right].
    change (fold_right Qplus 0 ?xs) with (total xs) in *.
    split; lra.
Qed.

Lemma percent_of_bounds (rows : list joined_row) l :
  rows <> [] ->
  exists p, percent_of l rows = Some p /\ 0 <= p /\ p <= 100.
Proof.
  intros Hne. destruct (one_if_bounds rows l) as [H0 H1].
  unfold percent_of, count_of, SUM.
  assert (Hsome : non_null (map (fun r => one_if (e_grade r) l) rows) <> []).
  { destruct rows as [|r rows]; [contradiction|].
    cbn [map non_null flat_map]. unfold one_if at 1.
    destruct (grade_is (e_grade r) l) as [[]|]; discriminate. }
  destruct (non_null (map (fun r => one_if (e_grade r) l) rows))
    as [|x xs] eqn:E; [contradiction|].
  assert (Hn : 0 < inject_Z (COUNT_star rows)).
  { unfold COUNT_star. destruct rows; [contradiction|].
    unfold Qlt. simpl. lia. }
  unfold mul, div.
  destruct (Qeq_bool (inject_Z (COUNT_star rows)) 0) eqn:Ez.
  { apply Qeq_bool_iff in Ez. lra. }
  eexists. split; [reflexivity|].
  apply (ROUND2_bounds (total (x :: xs) * 100.0 / inject_Z (COUNT_star rows))
           _ 100); [| |reflexivity].
  - apply Qle_shift_div_l; [exact Hn|]. lra.
  - apply Qle_shift_div_r; [exact Hn|].
    change (inject_Z 100) with 100. lra.
Qed.

Lemma course_select_counts db c rows :
  total_students (select db (course_key c, rows))
  = COUNT_DISTINCT
      (map (fun r : joined_row =>
              option_map Enrollment.student_id (snd (fst r))) rows)
  /\ percent_A (select db (course_key c, rows)) = percent_of Enrollment.A rows
  /\ percent_B (select db (course_key c, rows)) = percent_of Enrollment.B rows.
Proof. repeat split. Qed.

(** X22.  Under the keys of the tables, the row course-details returns for
    a course has total_students equal to the number of enrollments in the
    course, and percent_A and percent_B are numbers between 0 and 100. *)
Theorem course_details_counts_the_enrollments db courseId c rs :
  NoDup (map Student.student_id (Schema.students db)) ->
  NoDup (map Course.course_id (Schema.courses db)) ->
  NoDup (map (fun e => (Enrollment.student_id e, Enrollment.course_id e))
             (Schema.enrollments db)) ->
  In c (Schema.courses db) -> matches courseId c = true ->
  results db courseId rs ->
  exists r,
    rs = [r]
    /\ total_students r = Z.of_nat (length (enrollments_in db c))
    /\ (exists p, percent_A r = Some p /\ 0 <= p /\ p <= 100)
    /\ (exists p, percent_B r = Some p /\ 0 <= p /\ p <= 100).
Proof.
  intros Hs Hc Hu Hin Hm Hrs. unfold results in Hrs.
  rewrite (course_grouped_known db courseId c Hc Hin Hm) in Hrs.
  apply Permutation_length_1_inv in Hrs. subst rs.
  eexists. split; [reflexivity|].
  assert (Hne : rows_of db c <> []).
  { pose proof (course_rows_of_has_rows db c) as H.
    destruct (rows_of db c); [discriminate|discriminate]. }
  destruct (course_select_counts db c (rows_of db c)) as (-> & -> & ->).
  split; [|split].
  - unfold COUNT_DISTINCT. rewrite (course_student_ids db c Hs).
    rewrite distinct_of_NoDup by (apply students_of_course_differ, Hu).
    rewrite length_map. reflexivity.
  - apply percent_of_bounds, Hne.
  - apply percent_of_bounds, Hne.
Qed.

End CourseDetailsCounts.

(** On the in-progress sample, Algebra I has two enrollments, one graded
    A and one in progress: total_students is 2 and percent_A is 50. *)
Lemma course_details_counts_the_enrollments_witness :
  (exists r,
     CourseDetails.run Sample.in_progress 1 = [r]
     /\ CourseDetails.total_students r = 2
     /\ (exists p, CourseDetails.percent_A r = Some p
                   /\ (0 <= p /\ p <= 100)%Q)
     /\ (exists p, CourseDetails.percent_B r = Some p
                   /\ (0 <= p /\ p <= 100)%Q))
  /\ map CourseDetails.percent_A (CourseDetails.run Sample.in_progress 1)
     = [Some 50%Q].
Proof.
  split; [|reflexivity].
  apply (course_details_counts_the_enrollments Sample.in_progress 1
           Sample.algebra).
  - repeat constructor; simpl; intuition discriminate.
  - repeat constructor; simpl; intuition discriminate.
  - repeat constructor; simpl; intuition discriminate.
  - left. reflexivity.
  - reflexivity.
  - apply Permutation_refl.
Defined.

(** ** Top performers: the course count *)

Section TopPerformersCounts.

Import Schema Rel Tables References TopPerformers.
Local Open Scope list_scope.

Lemma inner_join_keeps_all {L R} (on : L -> R -> bool) (ls : list L)
  (rs : list R) :
  (forall l, In l ls -> length (filter (on l) rs) = 1%nat) ->
  map fst (inner_join on ls rs) = ls.
Proof.
  intros H.
  rewrite <- (filter_all (fun _ => true) ls) at 2 by reflexivity.
  rewrite <- (inner_join_keeps_left on (fun _ => true) ls rs H).
  rewrite filter_all by reflexivity. reflexivity.
Qed.

(** Under the primary key of courses and the foreign key to it, the rows
    of a student in the join are the student's enrollments, in table
    order. *)
Lemma top_rows_are_enrollments db s :
  NoDup (map Course.course_id (Schema.courses db)) ->
  foreign_keys db ->
  map (fun r : joined_row => snd (fst r)) (rows_of db s)
  = enrollments_of db s.
Proof.
  intros Hc Hfk. unfold foreign_keys in Hfk. rewrite Forall_forall in Hfk.
  assert (E : map (fun r : joined_row => snd (fst r)) (rows_of db s)
              = map snd (map fst (rows_of db s)))
    by (rewrite map_map; reflexivity).
  rewrite E. unfold rows_of. rewrite inner_join_keeps_all.
  - unfold inner_join, enrollments_of. cbn [flat_map].
    rewrite app_nil_r, map_map. cbn [snd]. rewrite map_id. reflexivity.
  - intros se Hse.
    apply (one_course_per_enrollment db se Hc).
    apply inner_join_snd in Hse. apply Hfk, Hse.
Qed.

(** Under UNIQUE (student_id, course_id) the enrollments of a student are
    in different courses. *)
Lemma courses_of_student_differ db s :
  NoDup (map (fun e => (Enrollment.student_id e, Enrollment.course_id e))
             (Schema.enrollments db)) ->
  NoDup (map Enrollment.course_id (enrollments_of db s)).
Proof.
  intros Hu. unfold enrollments_of.
  apply (NoDup_map_finer_in
           (fun e => (Enrollment.student_id e, Enrollment.course_id e))).
  - intros x y Hx Hy E. apply filter_In in Hx as [_ Hx], Hy as [_ Hy].
    apply Z.eqb_eq in Hx, Hy. rewrite E, <- Hx, <- Hy. reflexivity.
  - apply NoDup_map_filter, Hu.
Qed.

Lemma courses_completed_of_select k (rows : list joined_row) :
  courses_completed (select (k, rows))
  = Z.of_nat
      (length (distinct Z.eqb
                 (map Enrollment.course_id
                      (map (fun r : joined_row => snd (fst r)) rows)))).
Proof.
  destruct k as [[[[id fn] ln] em] gr]. unfold select, COUNT_DISTINCT.
  cbn [fst snd courses_completed].
  rewrite (non_null_map_Some
             (fun r : joined_row => Enrollment.course_id (snd (fst r)))).
  rewrite map_map. reflexivity.
Qed.

(** X23.  Under the keys of the tables, courses_completed of a row of
    top-performers is the number of all enrollment rows of the student,
    whether graded or still in progress (and whatever the grade). *)
Theorem courses_completed_counts_every_enrollment db mc mg rs :
  NoDup (map Student.student_id (Schema.students db)) ->
  NoDup (map Course.course_id (Schema.courses db)) ->
  NoDup (map (fun e => (Enrollment.student_id e, Enrollment.course_id e))
             (Schema.enrollments db)) ->
  foreign_keys db ->
  results db mc mg rs ->
  Forall (fun r =>
            exists s,
              In s (Schema.students db)
              /\ Student.student_id s = student_id r
              /\ courses_completed r
                 = Z.of_nat (length (enrollments_of db s))) rs.
Proof.
  intros Hs Hc Hu Hfk Hrs. apply Forall_forall. intros r Hr.
  destruct (top_results_qualify db mc mg rs r Hrs Hr) as [Hg _].
  rewrite (top_grouped_by_student db Hs) in Hg.
  apply in_map_iff in Hg as (s & <- & Hin).
  apply filter_In in Hin as [Hin _].
  exists s. split; [exact Hin|]. split; [reflexivity|].
  rewrite courses_completed_of_select, (top_rows_are_enrollments db s Hc Hfk).
  rewrite distinct_of_NoDup by (apply courses_of_student_differ, Hu).
  rewrite length_map. reflexivity.
Qed.

End TopPerformersCounts.

(** On the in-progress sample with both thresholds 1: Emily has an A in
    Algebra I and is still taking Chemistry, and her courses_completed
    is 2. *)
Lemma courses_completed_counts_every_enrollment_witness :
  Forall (fun r =>
            exists s,
              In s (Schema.students Sample.in_progress)
              /\ Schema.Student.student_id s = TopPerformers.student_id r
              /\ TopPerformers.courses_completed r
                 = Z.of_nat (length (Tables.enrollments_of Sample.in_progress s)))
         (TopPerformers.run Sample.in_progress 1 1)
  /\ map (fun r => (TopPerformers.student_id r,
                    TopPerformers.courses_completed r))
         (TopPerformers.run Sample.in_progress 1 1)
     = [(1, 2)].
Proof.
  split; [|reflexivity].
  apply (courses_completed_counts_every_enrollment Sample.in_progress 1 1).
  - repeat constructor; simpl; intuition discriminate.
  - repeat constructor; simpl; intuition discriminate.
  - repeat constructor; simpl; intuition discriminate.
  - repeat constructor.
  - apply top_run_is_result.
Defined.

(** ** Rounding to two decimals *)

Section Rounding.

Local Open Scope Q_scope.

Lemma Qfloor_unique (z : Q) (k : Z) :
  inject_Z k <= z -> z < inject_Z (k + 1) -> Qfloor z = k.
Proof.
  intros Hle Hlt.
  pose proof (Qfloor_le z) as H1. pose proof (Qlt_floor z) as H2.
  assert (Ha : (Qfloor z < k + 1)%Z).
  { rewrite Zlt_Qlt. apply Qle_lt_trans with z; assumption. }
  assert (Hb : (k < Qfloor z + 1)%Z).
  { rewrite Zlt_Qlt. apply Qle_lt_trans with z; assumption. }
  lia.
Qed.

(** Adding a half and taking the floor gives the nearest integer, a half
    going up. *)
Lemma floor_of_half_added (y : Q) : Qfloor (y + (1 # 2)) = Spec.nearest y.
Proof.
  unfold Spec.nearest.
  pose proof (Qfloor_le y) as H1. pose proof (Qlt_floor y) as H2.
  rewrite inject_Z_plus in H2. change (inject_Z 1) with 1 in H2.
  destruct (Qle_bool (1 # 2) (y - inject_Z (Qfloor y))) eqn:E.
  - apply Qle_bool_iff in E. apply Qfloor_unique.
    + rewrite inject_Z_plus. change (inject_Z 1) with 1. lra.
    + rewrite !inject_Z_plus. change (inject_Z 1) with 1. lra.
  - assert (Hlt : ~ (1 # 2 <= y - inject_Z (Qfloor y))).
    { intros H. apply Qle_bool_iff in H. congruence. }
    apply Qfloor_unique; [lra|].
    rewrite inject_Z_plus. change (inject_Z 1) with 1. lra.
Qed.

Lemma nearest_comp (x y : Q) : x == y -> Spec.nearest x = Spec.nearest y.
Proof.
  intros E. rewrite <- !floor_of_half_added. apply Qfloor_comp.
  rewrite E. reflexivity.
Qed.

(** ROUND(x, 2) of the store is round(x, 2). *)
Lemma ROUND2_is_round2 (x : Q) :
  Qred (inject_Z (Rel.round_half_away (x * 100)) / 100) == Spec.round2 x.
Proof.
  rewrite Qred_correct. unfold Rel.round_half_away, Spec.round2.
  destruct (Qle_bool 0 (x * 100)) eqn:E1, (Qle_bool 0 x) eqn:E2.
  - apply Qle_bool_iff in E2.
    rewrite floor_of_half_added.
    rewrite (nearest_comp (x * 100) (Qabs x * 100)); [reflexivity|].
    rewrite Qabs_pos by exact E2. reflexivity.
  - apply Qle_bool_iff in E1.
    assert (H : ~ 0 <= x) by (intros H; apply Qle_bool_iff in H; congruence).
    exfalso. apply H. lra.
  - apply Qle_bool_iff in E2.
    assert (H : ~ 0 <= x * 100)
      by (intros H; apply Qle_bool_iff in H; congruence).
    exfalso. apply H. lra.
  - assert (H : ~ 0 <= x) by (intros H; apply Qle_bool_iff in H; congruence).
    rewrite floor_of_half_added.
    rewrite (nearest_comp (- (x * 100)) (Qabs x * 100)).
    + rewrite inject_Z_opp. field.
    + rewrite Qabs_neg by lra. ring.
Qed.

End Rounding.

(** ** Top performers, read from the tables *)

Section TopPerformersTables.

Import Schema Rel Tables References TopPerformers.
Local Open Scope Q_scope.
Local Open Scope list_scope.

Lemma find_is_first_match {A} (p : A -> bool) (l : list A) :
  find p l = hd_error (filter p l).
Proof.
  induction l as [|a l IH]; simpl; [reflexivity|].
  destruct (p a); [reflexivity|exact IH].
Qed.

Lemma credits_of_only_course db e c :
  filter (fun c => (Enrollment.course_id e =? Course.course_id c)%Z)
         (Schema.courses db) = [c] ->
  credits_of db e = Course.credits c.
Proof.
  intros H. unfold credits_of, course_of.
  rewrite find_is_first_match, H. reflexivity.
Qed.

(** When every enrollment has exactly one course, the join pairs each
    with the credits of its course. *)
Lemma joined_credits db (ls : list (Student.t * Enrollment.t)) :
  (forall se, In se ls ->
     length (filter (on_course se) (Schema.courses db)) = 1%nat) ->
  map (fun r : joined_row => (e_grade r, c_credits r))
      (inner_join on_course ls (Schema.courses db))
  = map (fun se => (Enrollment.grade (snd se), credits_of db (snd se))) ls.
Proof.
  unfold inner_join, joined_row.
  induction ls as [|se ls IH]; intros H; [reflexivity|].
  cbn [flat_map].
  rewrite map_app, IH by (intros; apply H; right; assumption).
  specialize (H se (or_introl eq_refl)).
  unfold on_course in *.
  destruct (filter (fun c => (Enrollment.course_id (snd se)
                              =? Course.course_id c)%Z)
                   (Schema.courses db)) as [|c [|c' cs]] eqn:E;
    simpl in H; try discriminate.
  cbn [map app]. rewrite (credits_of_only_course db (snd se) c E).
  reflexivity.
Qed.

(** Under the primary key of courses and the foreign key to it, the rows
    of a student in the join carry the student's transcript. *)
Lemma top_transcript db s :
  NoDup (map Course.course_id (Schema.courses db)) ->
  foreign_keys db ->
  map (fun r : joined_row => (e_grade r, c_credits r)) (rows_of db s)
  = transcript_of db s.
Proof.
  intros Hc Hfk. unfold foreign_keys in Hfk. rewrite Forall_forall in Hfk.
  unfold rows_of. rewrite joined_credits.
  - unfold inner_join, transcript_of, enrollments_of. cbn [flat_map].
    rewrite app_nil_r, map_map. reflexivity.
  - intros se Hse. apply (one_course_per_enrollment db se Hc).
    apply inner_join_snd in Hse. apply Hfk, Hse.
Qed.

Lemma weighted_gpa_of_rows (rows : list joined_row) :
  weighted_gpa_of rows
  = weighted_gpa_on (map (fun r => (e_grade r, c_credits r)) rows).
Proof.
  unfold weighted_gpa_of, weighted_gpa_on. rewrite !map_map. reflexivity.
Qed.

Lemma length_distinct_nodup (l : list Z) :
  length (distinct Z.eqb l) = length (nodup Z.eq_dec l).
Proof.
  apply Permutation_length, NoDup_Permutation.
  - apply distinct_NoDup, Z.eqb_eq.
  - apply NoDup_nodup.
  - intros x. rewrite nodup_In. split.
    + apply distinct_In.
    + apply In_distinct, Z.eqb_eq.
Qed.

(** The row the query computes for a student is the row of that
    student. *)
Lemma top_select_is_row db s :
  NoDup (map Course.course_id (Schema.courses db)) ->
  foreign_keys db ->
  top_row_of db s (select (student_key s, rows_of db s)).
Proof.
  intros Hc Hfk. unfold top_row_of.
  repeat (split; [reflexivity|]). split.
  - rewrite courses_completed_of_select,
      (top_rows_are_enrollments db s Hc Hfk), length_distinct_nodup.
    reflexivity.
  - change (weighted_gpa (select (student_key s, rows_of db s)))
      with (weighted_gpa_of (rows_of db s)).
    rewrite weighted_gpa_of_rows, (top_transcript db s Hc Hfk). reflexivity.
Qed.

Lemma weighted_gpa_on_nil : weighted_gpa_on [] = None.
Proof. reflexivity. Qed.

(** A student with a weighted GPA has rows in the join. *)
Lemma top_rows_of_rated db s g :
  NoDup (map Course.course_id (Schema.courses db)) ->
  foreign_keys db ->
  weighted_gpa_on (transcript_of db s) = Some g ->
  has_rows (rows_of db s) = true.
Proof.
  intros Hc Hfk Hg. rewrite <- (top_transcript db s Hc Hfk) in Hg.
  destruct (rows_of db s); [discriminate Hg|reflexivity].
Qed.

(** Every row of the grouping is the row of a student of the table. *)
Lemma top_grouped_rows db r :
  NoDup (map Student.student_id (Schema.students db)) ->
  NoDup (map Course.course_id (Schema.courses db)) ->
  foreign_keys db ->
  In r (grouped db) ->
  exists s, In s (Schema.students db) /\ top_row_of db s r.
Proof.
  intros Hs Hc Hfk Hr. rewrite (top_grouped_by_student db Hs) in Hr.
  apply in_map_iff in Hr as (s & <- & Hin).
  apply filter_In in Hin as [Hin _].
  exists s. split; [exact Hin|]. apply top_select_is_row; assumption.
Qed.

Lemma top_row_meets db mc mg s r :
  top_row_of db s r ->
  having mc mg r = true <-> meets_thresholds db mc mg s.
Proof.
  intros (_ & _ & _ & _ & _ & Hcount & Hgpa).
  rewrite having_spec. unfold meets_thresholds.
  rewrite Hcount, Hgpa. reflexivity.
Qed.

Lemma student_ids_of_grouped db :
  NoDup (map Student.student_id (Schema.students db)) ->
  NoDup (map student_id (grouped db)).
Proof.
  intros Hs. rewrite (top_grouped_by_student db Hs), map_map.
  apply (NoDup_map_filter Student.student_id), Hs.
Qed.

Lemma NoDup_firstn {A} n (l : list A) : NoDup l -> NoDup (firstn n l).
Proof.
  intros H. rewrite <- (firstn_skipn n l) in H.
  apply NoDup_app_remove_r in H. exact H.
Qed.

(** The points of the graded enrollments are what SUM sees of the
    weighted CASE. *)
Lemma weighted_points_of_graded t :
  non_null (map (fun e => weighted_points (fst e) (snd e)) t)
  = map (fun e => Spec.grade_point (fst e) * inject_Z (snd e))
        (Spec.graded t).
Proof.
  unfold non_null, Spec.graded.
  induction t as [|[[l|] cr] t IH]; cbn [map flat_map fst snd];
    [reflexivity| |exact IH].
  rewrite weighted_points_graded, IH. reflexivity.
Qed.

Lemma total_enrolled_credits t :
  total (map (fun e : option Enrollment.letter * Z => inject_Z (snd e)) t)
  = enrolled_credits t.
Proof.
  induction t as [|e t IH]; simpl; [reflexivity|]. rewrite IH. reflexivity.
Qed.

Lemma enrolled_credits_all_graded t :
  Forall (fun e : option Enrollment.letter * Z => fst e <> None) t ->
  enrolled_credits t = Spec.sum_credits (Spec.graded t).
Proof.
  induction 1 as [|[[l|] cr] t He _ IH]; simpl; [reflexivity| |].
  - rewrite IH. reflexivity.
  - exfalso. apply He. reflexivity.
Qed.

(** What the weighted_gpa expression computes: the points of the graded
    enrollments over the credits of all enrollments, rounded. *)
Lemma weighted_gpa_on_value t :
  Spec.graded t <> [] ->
  ~ enrolled_credits t == 0 ->
  exists g,
    weighted_gpa_on t = Some g
    /\ g == Spec.round2 (Spec.sum_points (Spec.graded t) / enrolled_credits t).
Proof.
  intros Hgraded Hcredits. unfold weighted_gpa_on.
  assert (Hne : t <> []) by (intros ->; apply Hgraded; reflexivity).
  rewrite (SUM_map_Some
             (fun e : option Enrollment.letter * Z => inject_Z (snd e)) t Hne).
  rewrite total_enrolled_credits.
  assert (Hsum : SUM (map (fun e => weighted_points (fst e) (snd e)) t)
                 = Some (Spec.sum_points (Spec.graded t))).
  { unfold SUM. rewrite weighted_points_of_graded.
    destruct (Spec.graded t) as [|e es]; [contradiction|].
    rewrite <- total_points. reflexivity. }
  rewrite Hsum. unfold div.
  destruct (Qeq_bool (enrolled_credits t) 0) eqn:Ez.
  { apply Qeq_bool_iff in Ez. contradiction. }
  unfold ROUND2, option_map. eexists. split; [reflexivity|].
  apply ROUND2_is_round2.
Qed.

End TopPerformersTables.

Section TopPerformersClaims.

Import Schema Rel Tables References Js Http Pool App TopPerformers.
Local Open Scope Q_scope.
Local Open Scope list_scope.

(** The number the store reads from the text the driver writes for a
    bound number. *)
Variable as_written : Q -> Q.

(** C8.  Let the tables satisfy their primary and foreign keys, let the
    thresholds be the finite numbers [mc] and [mg], and let the store
    answer the call with a result of the query.  Then the data of
    top-performers has at most 20 rows, no student twice; every row is the
    row of a student of the students table who is enrolled in at least
    minCourses different courses and whose rounded weighted_gpa is at
    least minGPA; the rows are ordered by weighted_gpa descending, then
    courses_completed descending; and every student of the table who
    meets both thresholds has a row in the data, unless 20 rows are
    returned that all rank at least as high as that student's row. *)
Theorem top_performers_filters_orders_and_limits db pool req mc mg rs :
  NoDup (map Student.student_id (Schema.students db)) ->
  NoDup (map Course.course_id (Schema.courses db)) ->
  foreign_keys db ->
  minCourses req = Finite mc ->
  minGPA req = Finite mg ->
  results db (as_written mc) (as_written mg) rs ->
  pool {| sql := Template.top_performers_sql;
          values := [PNum (Finite mc); PNum (Finite mg)] |}
  = Some (map to_row rs) ->
  field "data" (body (reply (top_performers req pool)))
  = Some (JRows (map to_row rs))
  /\ (length rs <= 20)%nat
  /\ NoDup (map student_id rs)
  /\ (forall r, In r rs ->
        exists s,
          In s (Schema.students db)
          /\ top_row_of db s r
          /\ meets_thresholds db (as_written mc) (as_written mg) s)
  /\ StronglySorted ranks_before rs
  /\ (forall s,
        In s (Schema.students db) ->
        meets_thresholds db (as_written mc) (as_written mg) s ->
        exists r,
          top_row_of db s r
          /\ (In r rs
              \/ (length rs = 20%nat
                  /\ forall r', In r' rs -> ranks_before r' r))).
Proof.
  intros Hs Hc Hfk Hmc Hmg Hrs Hpool.
  set (c := as_written mc) in *. set (g := as_written mg) in *.
  assert (Hq : forall r, In r rs ->
                 exists s, In s (Schema.students db)
                           /\ top_row_of db s r /\ meets_thresholds db c g s).
  { intros r Hr. destruct (top_results_qualify db c g rs r Hrs Hr) as [Hg Hh].
    destruct (top_grouped_rows db r Hs Hc Hfk Hg) as (s & Hin & Hrow).
    exists s. split; [exact Hin|]. split; [exact Hrow|].
    apply (top_row_meets db c g s r Hrow), Hh. }
  assert (Hrank : forall a b, In a (qualifying db c g) ->
                    In b (qualifying db c g) ->
                    le a b = true -> ranks_before a b).
  { intros a b Ha Hb. apply filter_In in Ha as [_ Ha], Hb as [_ Hb].
    apply having_spec in Ha as (_ & ga & Hga & _).
    apply having_spec in Hb as (_ & gb & Hgb & _).
    apply (le_ranks_before a b ga gb Hga Hgb). }
  destruct Hrs as (sorted & [Hperm Hsorted] & ->).
  assert (Hin : forall x, In x sorted -> In x (qualifying db c g)).
  { intros x Hx. apply (Permutation_in _ (Permutation_sym Hperm)), Hx. }
  apply (StronglySorted_weaken _ ranks_before) in Hsorted;
    [|intros a b Ha Hb; apply Hrank; auto].
  rewrite <- (firstn_skipn 20 sorted) in Hsorted.
  apply StronglySorted_app_inv in Hsorted as [Hfirst Hcross].
  split; [|split; [|split; [|split; [|split]]]].
  - unfold top_performers, try_catch, bind, Pool.query, ret.
    rewrite Hmc, Hmg, Hpool. reflexivity.
  - unfold LIMIT. apply firstn_le_length.
  - unfold LIMIT. rewrite <- firstn_map. apply NoDup_firstn.
    apply (Permutation_NoDup (Permutation_map student_id Hperm)).
    unfold qualifying. apply NoDup_map_filter, student_ids_of_grouped, Hs.
  - exact Hq.
  - exact Hfirst.
  - intros s Hin_s Hmeets.
    pose proof (top_select_is_row db s Hc Hfk) as Hrow.
    exists (select (student_key s, rows_of db s)). split; [exact Hrow|].
    assert (Hrq : In (select (student_key s, rows_of db s))
                     (qualifying db c g)).
    { apply filter_In. split.
      - rewrite (top_grouped_by_student db Hs).
        apply (in_map (fun s => select (student_key s, rows_of db s))).
        apply filter_In. split; [exact Hin_s|].
        destruct Hmeets as (_ & x & Hx & _).
        apply (top_rows_of_rated db s x Hc Hfk Hx).
      - apply (top_row_meets db c g s _ Hrow), Hmeets. }
    apply (Permutation_in _ Hperm) in Hrq.
    rewrite <- (firstn_skipn 20 sorted) in Hrq.
    apply in_app_or in Hrq as [Hrq|Hrq]; [left; exact Hrq|right].
    split.
    + unfold LIMIT. apply firstn_length_le.
      destruct (Nat.le_gt_cases 20 (length sorted)) as [Hle|Hlt];
        [exact Hle|].
      rewrite skipn_all2 in Hrq by lia. contradiction.
    + intros r' Hr'. apply Hcross; assumption.
Qed.

End TopPerformersClaims.

(** C7.  What top-performers reports as weighted_gpa.  Under the keys of
    the tables, the weighted_gpa of a returned row is the query's
    expression on the enrollments of the student of that row.  On
    enrollments of which one at least is graded, for fewer than 1000
    credits in all, that expression is
    round(sum(grade_point * credits) / sum(credits), 2) with A = 4.0,
    B = 3.0, C = 2.0, D = 1.0, F = 0.0, where the points are summed over
    the graded enrollments and the credits over all enrollments, graded
    or in progress; so it is the credit-weighted average of the grade
    points when every enrollment is graded.  For the enrollments
    (A, 4 credits) and (B, 3 credits) it is 3.57; 24 points on 7 credits
    give 3.43 and 25 points on 8 credits give 3.13.  For Emily, who has
    an A in Algebra I (4 credits) and is still taking Chemistry (4
    credits), it is 2.00, while the credit-weighted average of her graded
    enrollments is 4.00 and the same row rates her Outstanding. *)
Theorem weighted_gpa_divides_by_all_enrolled_credits :
  (forall db mc mg rs r,
     NoDup (map Schema.Student.student_id (Schema.students db)) ->
     NoDup (map Schema.Course.course_id (Schema.courses db)) ->
     References.foreign_keys db ->
     TopPerformers.results db mc mg rs ->
     In r rs ->
     exists s,
       In s (Schema.students db)
       /\ TopPerformers.student_id r = Schema.Student.student_id s
       /\ TopPerformers.weighted_gpa r
          = Tables.weighted_gpa_on (Tables.transcript_of db s))
  /\ (forall t,
        Spec.graded t <> [] ->
        (0 < Tables.enrolled_credits t)%Q ->
        (Tables.enrolled_credits t < 1000)%Q ->
        exists g,
          Tables.weighted_gpa_on t = Some g
          /\ (g == Spec.round2 (Spec.sum_points (Spec.graded t)
                                / Tables.enrolled_credits t))%Q
          /\ (Forall (fun e => fst e <> None) t ->
              (g == Spec.credit_weighted_gpa (Spec.graded t))%Q))
  /\ (Tables.transcript_of Sample.graded Sample.emily
      = [(Some Schema.Enrollment.A, 4); (Some Schema.Enrollment.B, 3)]
      /\ map (fun r => (TopPerformers.student_id r,
                        TopPerformers.weighted_gpa r))
             (TopPerformers.run Sample.graded 1 1)
         = [(1, Some 3.57%Q)]
      /\ (Spec.credit_weighted_gpa
            [(Schema.Enrollment.A, 4%Z); (Schema.Enrollment.B, 3%Z)]
          == 3.57)%Q)
  /\ (map (fun r => (TopPerformers.student_id r,
                     TopPerformers.weighted_gpa r))
          (TopPerformers.run Sample.halfway 1 1)
      = [(2, Some 3.43%Q); (1, Some 3.13%Q)]
      /\ (Spec.credit_weighted_gpa
            [(Schema.Enrollment.B, 4%Z); (Schema.Enrollment.A, 3%Z)]
          == 3.43)%Q
      /\ (Spec.credit_weighted_gpa
            [(Schema.Enrollment.B, 4%Z); (Schema.Enrollment.A, 3%Z);
             (Schema.Enrollment.D, 1%Z)] == 3.13)%Q)
  /\ (Tables.transcript_of Sample.in_progress Sample.emily
      = [(Some Schema.Enrollment.A, 4); (None, 4)]
      /\ map (fun r => (TopPerformers.student_id r,
                        TopPerformers.weighted_gpa r,
                        TopPerformers.performance_rating r))
             (TopPerformers.run Sample.in_progress 1 1)
         = [(1, Some 2%Q, "Outstanding")]
      /\ (Spec.credit_weighted_gpa
            (Spec.graded (Tables.transcript_of Sample.in_progress
                            Sample.emily)) == 4)%Q).
Proof.
  split; [|split; [|split; [|split]]].
  - intros db mc mg rs r Hs Hc Hfk Hrs Hr.
    destruct (top_results_qualify db mc mg rs r Hrs Hr) as [Hg _].
    destruct (top_grouped_rows db r Hs Hc Hfk Hg)
      as (s & Hin & Hid & _ & _ & _ & _ & _ & Hgpa).
    exists s. auto.
  - intros t Hgraded Hpos _.
    destruct (weighted_gpa_on_value t Hgraded) as (g & Hg & Hval).
    { intros E. rewrite E in Hpos. discriminate Hpos. }
    exists g. split; [exact Hg|]. split; [exact Hval|].
    intros Hall. rewrite Hval, (enrolled_credits_all_graded t Hall).
    reflexivity.
  - split; [reflexivity|]. split; reflexivity.
  - split; [reflexivity|]. split; reflexivity.
  - split; [reflexivity|]. split; reflexivity.
Qed.

(** A list of numbers that [nodup] leaves as it is has no repetition. *)
Lemma NoDup_checked (l : list Z) : nodup Z.eq_dec l = l -> NoDup l.
Proof. intros <-. apply NoDup_nodup. Qed.

(** On the school of thirty pupils with [?minCourses=2&minGPA=3.5]: 22
    pupils meet the thresholds and 20 rows are returned, the weighted
    GPAs 4.00, 3.73, 3.64 and 3.57 in this order and three courses before
    two among equal ones.  Pupil 29, with 3.57 on two courses, meets the
    thresholds and is cut off by the limit. *)
Lemma top_performers_filters_orders_and_limits_witness :
  Http.field "data"
    (Http.body
       (Pool.reply
          (App.top_performers Sample.two_courses_request
             (Sample.answering
                (map TopPerformers.to_row
                   (TopPerformers.run Sample.crowd 2 (7 # 2)))))))
  = Some (Http.JRows
            (map TopPerformers.to_row
               (TopPerformers.run Sample.crowd 2 (7 # 2))))
  /\ map (fun r => (TopPerformers.student_id r,
                    TopPerformers.weighted_gpa r,
                    TopPerformers.courses_completed r))
         (TopPerformers.run Sample.crowd 2 (7 # 2))
     = [(3, Some 4%Q, 3); (6, Some 4%Q, 3); (9, Some 4%Q, 2);
        (12, Some 4%Q, 2); (15, Some 4%Q, 2); (18, Some 4%Q, 2);
        (21, Some 4%Q, 2); (24, Some 4%Q, 2); (27, Some 4%Q, 2);
        (30, Some 4%Q, 2); (2, Some 3.73%Q, 3); (5, Some 3.73%Q, 3);
        (1, Some (91 # 25), 3); (4, Some (91 # 25), 3);
        (8, Some 3.57%Q, 2); (11, Some 3.57%Q, 2); (14, Some 3.57%Q, 2);
        (17, Some 3.57%Q, 2); (20, Some 3.57%Q, 2); (23, Some 3.57%Q, 2)]
  /\ length (TopPerformers.qualifying Sample.crowd 2 (7 # 2)) = 22%nat
  /\ NoDup (map TopPerformers.student_id
                (TopPerformers.run Sample.crowd 2 (7 # 2)))
  /\ StronglySorted TopPerformers.ranks_before
       (TopPerformers.run Sample.crowd 2 (7 # 2))
  /\ (forall r, In r (TopPerformers.run Sample.crowd 2 (7 # 2)) ->
        exists s,
          In s (Schema.students Sample.crowd)
          /\ Tables.top_row_of Sample.crowd s r
          /\ Tables.meets_thresholds Sample.crowd 2 (7 # 2) s)
  /\ (exists r,
        Tables.top_row_of Sample.crowd (Sample.pupil 29) r
        /\ ~ In r (TopPerformers.run Sample.crowd 2 (7 # 2))
        /\ length (TopPerformers.run Sample.crowd 2 (7 # 2)) = 20%nat
        /\ forall r', In r' (TopPerformers.run Sample.crowd 2 (7 # 2)) ->
                      TopPerformers.ranks_before r' r).
Proof.
  destruct (top_performers_filters_orders_and_limits Sample.as_written
              Sample.crowd
              (Sample.answering
                 (map TopPerformers.to_row
                    (TopPerformers.run Sample.crowd 2 (7 # 2))))
              Sample.two_courses_request 2 (7 # 2)
              (TopPerformers.run Sample.crowd 2 (7 # 2)))
    as (Hdata & _ & Hnodup & Hrows & Hsorted & Hall).
  - apply NoDup_checked. vm_compute. reflexivity.
  - apply NoDup_checked. vm_compute. reflexivity.
  - unfold References.foreign_keys.
    repeat (apply Forall_cons; [split; reflexivity|]). apply Forall_nil.
  - reflexivity.
  - reflexivity.
  - apply top_run_is_result.
  - reflexivity.
  - split; [exact Hdata|]. split; [reflexivity|]. split; [reflexivity|].
    split; [exact Hnodup|]. split; [exact Hsorted|]. split; [exact Hrows|].
    destruct (Hall (Sample.pupil 29)) as (r & Hrow & Hcases).
    + apply (in_map Sample.pupil Sample.numbers 29). vm_compute.
      repeat first [left; reflexivity | right].
    + split; [vm_compute; discriminate|].
      eexists. split; [reflexivity|]. vm_compute. discriminate.
    + assert (Hnot : ~ In r (TopPerformers.run Sample.crowd 2 (7 # 2))).
      { intros Hin. apply (in_map TopPerformers.student_id) in Hin.
        rewrite (proj1 Hrow) in Hin. vm_compute in Hin.
        repeat (destruct Hin as [Hin|Hin]; [discriminate Hin|]).
        exact Hin. }
      exists r. split; [exact Hrow|]. split; [exact Hnot|].
      destruct Hcases as [Hin|[Hlen Hrank]]; [contradiction|].
      split; [exact Hlen|exact Hrank].
Defined.
